(* ===== verification/_CoqProject ===== *)
-Q . S2P
Prelude.v
PyFloat.v
Frame.v
Figures.v
Callbacks.v
Layout.v
DashRuntime.v
App.v
Slider.v
Loader.v
