(* ===== verification/Prelude.v ===== *)
(** * A verification development of the SpaceX launch-records dashboard

    The repository holds one program, [src/spacex_dash_app.py]: a Dash web
    application that loads a CSV table of launch records with pandas, builds
    a page with a launch-site dropdown, a pie chart, a payload range slider
    and a scatter chart, and registers two callbacks that recompute the
    charts when the dropdown or the slider changes.

    ** The program's parts and how they interact

    - Loader (lines 10-12): [pd.read_csv] gives the table [spacex_df];
      [max_payload] and [min_payload] are the NaN-skipping maximum and
      minimum of the ['Payload Mass (kg)'] column. Columns are read by
      name, here and in the callbacks; a missing one raises there.
    - Layout (lines 15-53): the component tree [app.layout]. The slider's
      [marks] are [{i: str(i) for i in range(0, int(max_payload), 5000)}],
      evaluated at import time, so [int(max_payload)] can raise.
    - Aggregation (callbacks, lines 55-99): [update_pie_chart] filters by
      site and counts rows per ['class'] with [groupby('class').size()];
      [update_scatter_chart] unpacks the slider value, filters by the
      inclusive payload range and then by site.
    - Presentation (plotly express, a library): [px.pie], [px.scatter] and
      [update_layout] turn the derived tables into figures.
    - Dash runtime (a library): on page load it calls every callback; when
      an input property changes it calls the callbacks that read it and
      stores each result in the callback's output property. The callbacks
      share no state but the read-only table: they interact only through
      the property values the runtime passes them.

    ** Files, and how they correspond to the code

    - [Prelude] (this file): the Python exceptions [exn], the result monad
      [result] of fallible code with its notation [x <-? m ;; k] in
      [py_scope], the hint databases [dash] and [dash_rw], the tactics
      [destruct_bools] and [decide_by_eval], and the list lemmas the
      components share (boolean filters, sub-lists, sums of counts,
      strictly increasing integer lists).
    - [PyFloat]: a float64 value is [PyNum q] (finite, denoting the rational
      [q]) or [PyNaN]; [py_le]/[py_ge] are [<=]/[>=]; [series_max] and
      [series_min] are [Series.max()]/[Series.min()] (NaN skipped, NaN for
      no number) as folds of [nan_step]; [py_int] is [int()] on a float
      (truncation, [ValueError] on NaN); [py_range] is [range()] with
      CPython's length [range_len]; [py_str_int] is [str()] on an integer.
    - [Frame]: a row is [launch_record] (the three columns the code reads);
      [series_ge], [series_le], [series_eq], [mask_and] and [bool_index]
      are the comparisons, [&] and boolean indexing of lines 68 and 83-86;
      [groupby_size] is [groupby('class').size().reset_index(name='counts')]
      of lines 63 and 69, a fold of the sorted counting insertion
      [count_insert]; [class_count] and [counts_of] give its meaning.
    - [Figures]: [px_pie], [px_scatter] and [update_layout] build records of
      the data and titles a figure carries ([pie_figure], [scatter_figure]).
    - [Callbacks]: [update_pie_chart] and [update_scatter_chart], line by
      line, over the table as a Section variable. The Module [Spec] is the
      contract the spec gives the aggregation engine: [Spec.selects],
      [Spec.outcome_counts] (computeOutcomeCounts) and
      [Spec.filter_by_range_and_site] (filterByRangeAndSite).
    - [Layout]: the component tree ([component], [app_layout]), the options
      [site_options], the marks [slider_marks] and the module's start-up
      [startup] (table, maximum, minimum, layout).
    - [DashRuntime]: Dash's dispatch, generic in the callbacks (a Section
      with the value type and the callbacks as variables): [fire] runs one
      callback, [fire_all] several, [initial_state] is page load,
      [set_input] is a user change, [step] and [reachable] the step
      relation and its reachable states, [consistent] the invariant.
      Chained callbacks (an output read as another callback's input) are
      modelled by [propagate]: rounds of [fire_round] over the callbacks
      [triggered_by] the properties the previous round changed, and
      [dispatch] is a user change propagated this way.
    - [Loader]: the loaded table as a [frame], the header's column names
      and the rows; [require_columns] is the reading of columns by name in
      the code's order, raising [KeyError] (pandas) or [ValueError]
      (plotly's [px.scatter]) for a missing column; [load],
      [update_pie_chart_frame] and [update_scatter_chart_frame] are the
      start-up and the callbacks over a frame, and [frame_callbacks] the
      callbacks the runtime runs over it.
    - [App]: the program's callbacks registered with the runtime
      ([pie_callback], [scatter_callback] on the property ids of lines 57-58
      and 76-78), the initial property values the layout gives
      ([layout_store]), the events the two controls can emit
      ([app_event]) and sequences of interactions ([app_steps], stdpp's
      [rtc] of the step relation).
    - [Slider]: what the payload slider of lines 42-49 sends. The library
      that renders [dcc.RangeSlider] (rc-slider) aligns every handle value:
      [ensure_in_range] clamps it to [[min, max]], [closest_point] takes
      the first nearest of the marks and the step grid point
      [grid_point] (Math.round of the step count, capped by
      [floor((max - min) / step)]), and [to_fixed0] is the
      [toFixed(0)] rounding for a step of 1000; [slider_align] is the
      whole alignment, [slider_emit] its instance on the layout of
      [startup] ([find_range_slider]), and [slider_event] the value pairs
      the slider sends, sorted ([slider_pair]) because handles may cross.

    ** What the theorems show (claim ids of PROJECT.json)

    - Refinement of the spec's aggregation contract: the pie chart's slices
      are [Spec.outcome_counts], sorted and non-empty (C1); the scatter
      chart plots exactly [Spec.filter_by_range_and_site], in table order
      (C2); [groupby_size] equals the reference table of distinct classes
      in increasing order with their counts (C15).
    - The spec's testable properties: the counts add up to the selection's
      size (C4); per-site pies sum to the all-sites pie (C5); the full
      initial range with "ALL" plots every record when payloads are
      numbers (C6); narrowing the range gives a sub-list (C10); the pie
      does not depend on the order of the rows (C17); a crossed range
      gives an empty scatter chart (C18).
    - Errors and edge cases: a NaN payload is counted but never plotted
      (C7); a cleared dropdown or unknown site gives empty charts, both
      callbacks returning a figure (C11); start-up fails at import when no
      payload is a number (C9) and succeeds otherwise, with
      [min_payload <= max_payload] (C12).
    - Slider marks: bounds (C13), and every multiple of 5000 below
      [int(max_payload)] has its mark, [ceil(int(max_payload) / 5000)] of
      them (C19).
    - The running application: in every reachable page state both charts
      show their callback of the current inputs and no callback has raised
      (C3, by rule induction over [reachable] with the generic consistency
      invariant of [DashRuntime]); the loaded page shows everything (C8);
      ids and callback wiring are well-formed (C14); from every reachable
      state any site and any two handle positions can be selected in two
      interactions (C16); two interactions on different controls commute
      (C28, since in a reachable state the charts are functions of the
      controls).
    - The table's columns: loading fails with [KeyError] exactly when the
      payload column is missing, and otherwise fails with [ValueError]
      exactly when no payload is a number (C20); without the ['class']
      column the app starts but never shows a chart (C21); without
      ['Launch Site'] only the "ALL" selection works (C22).
    - The slider as the browser runs it: with an integral [min_payload]
      every value it sends lies within [[min_payload, max_payload]] (C23)
      and the values it can send are exactly those in range on the step
      grid or at a mark (C27). Three defects of the configuration
      [step=1000], [min=min_payload]: with an integral [min_payload] and
      [max_payload - min_payload] not a multiple of 1000, no value it
      sends reaches [max_payload], so a moved slider never plots the
      heaviest launches again (C24); when [toFixed(0)] rounds a fractional
      [min_payload] up, no value reaches [min_payload] and the lightest
      launches are lost the same way (C25); when it rounds it down, the
      slider sends a value below [min_payload] (C26). With an integral
      [min_payload], the view the page starts with (every record) can be
      selected again exactly when [max_payload] is on the step grid (C29).

    ** Bounds and fuel

    Every definition is structurally recursive. The one fuel parameter is
    the number of rounds [propagate] may run; this app, whose outputs feed
    no callback, needs one round ([dispatch_one_round]). Python
    integers are unbounded and are modelled as [Z]; pandas' int64 ['class']
    column is modelled as [Z] because the code only compares and groups it.
    A finite float is modelled exactly by the rational it denotes, because
    the code only compares payloads and truncates [max_payload]; NaN is
    modelled, the infinities are not (a CSV payload of "inf" is outside the
    model). JavaScript's doubles in the slider's alignment are modelled by
    rationals too: the values involved are integers and quotients by 1000
    of payloads, whose rounding the theorems do not depend on.

    ** Not modelled

    The CSV parser behind [pd.read_csv] and its dtype inference (the
    parsed frame is a parameter of [load]; the file is not in the
    repository); an empty ['class'] cell, which pandas reads as NaN in a
    float column (the model's [class] is an integer, as in the dataset's
    int64 column, so such a row is not representable); the values of
    columns the code does not read; HTML rendering and plotly's drawing;
    the slider's pointer geometry (a handle position is any rational,
    which covers every pixel; [app_event] lets the slider send any pair of
    floats, a superset of what it sends, so the theorems over reachable
    states hold for every table); the browser's handling of concurrent
    callback requests (each change is modelled as one [set_input] that
    completes before the next change); and the
    [app.run_server] entry point (pure I/O). *)

From stdpp Require Export base list gmap strings sorting.
From Stdlib Require Export QArith ZArith.
#[global] Close Scope Q_scope.

(** Python exceptions raised by the code. *)
Inductive exn :=
  | ValueError (msg : string)
  | TypeError (msg : string)
  | KeyError (key : string).

(** The outcome of Python code that may raise. *)
Inductive result (A : Type) :=
  | Ok (a : A)
  | Raise (e : exn).
Arguments Ok {A} a.
Arguments Raise {A} e.

Definition result_bind {A B} (m : result A) (k : A -> result B) : result B :=
  match m with
  | Ok a => k a
  | Raise e => Raise e
  end.

Definition result_map {A B} (f : A -> B) (m : result A) : result B :=
  result_bind m (fun a => Ok (f a)).

Declare Scope py_scope.
Delimit Scope py_scope with py.
Notation "x <-? m ;; k" := (result_bind m (fun x => k))
  (at level 100, m at next level, right associativity) : py_scope.
Open Scope py_scope.

Create HintDb dash.
Create Rewrite HintDb dash_rw.

(** ** Lists filtered by a boolean predicate (pandas' boolean indexing) *)

Section FilterLemmas.
Context {A : Type}.
Implicit Types (p q : A -> bool) (l : list A).

Lemma filter_sublist_of p l : List.filter p l `sublist_of` l.
Proof.
  induction l as [|x l IH]; simpl; [constructor|].
  destruct (p x); [by apply sublist_skip|by apply sublist_cons].
Qed.

Lemma filter_filter_andb p q l :
  List.filter q (List.filter p l) = List.filter (fun x => p x && q x) l.
Proof.
  induction l as [|x l IH]; simpl; [done|].
  destruct (p x); simpl; [destruct (q x)|]; simpl; by rewrite IH.
Qed.

Lemma filter_ext_in p q l :
  (forall x, x ∈ l -> p x = q x) -> List.filter p l = List.filter q l.
Proof.
  induction l as [|x l IH]; intros H; simpl; [done|].
  rewrite (H x) by set_solver. rewrite IH by set_solver. done.
Qed.

Lemma filter_all_true p l :
  (forall x, x ∈ l -> p x = true) -> List.filter p l = l.
Proof.
  induction l as [|x l IH]; intros H; simpl; [done|].
  rewrite (H x) by set_solver. rewrite IH by set_solver. done.
Qed.

Lemma filter_all_false p l :
  (forall x, x ∈ l -> p x = false) -> List.filter p l = [].
Proof.
  induction l as [|x l IH]; intros H; simpl; [done|].
  rewrite (H x) by set_solver. apply IH. set_solver.
Qed.

Lemma filter_mono_sublist p q l :
  (forall x, x ∈ l -> p x = true -> q x = true) ->
  List.filter p l `sublist_of` List.filter q l.
Proof.
  induction l as [|x l IH]; intros H; simpl; [constructor|].
  destruct (p x) eqn:Hp.
  - rewrite (H x) by set_solver. apply sublist_skip, IH. set_solver.
  - destruct (q x); [apply sublist_cons|]; apply IH; set_solver.
Qed.

Lemma sublist_map {B} (f : A -> B) l1 l2 :
  l1 `sublist_of` l2 -> map f l1 `sublist_of` map f l2.
Proof. induction 1; simpl; by constructor. Qed.

Lemma elem_of_filter_bool p l x : x ∈ List.filter p l <-> x ∈ l /\ p x = true.
Proof. rewrite !list_elem_of_In. apply filter_In. Qed.
End FilterLemmas.

(** Filtering a permutation gives a permutation. *)
#[export] Instance filter_Permutation_proper {A} (p : A -> bool) :
  Proper ((≡ₚ) ==> (≡ₚ)) (List.filter p).
Proof.
  induction 1 as [|x l1 l2 _ IH|x y l|l1 l2 l3 _ IH1 _ IH2]; simpl.
  - done.
  - destruct (p x); [by apply perm_skip|done].
  - destruct (p x), (p y); try done; by apply perm_swap.
  - by transitivity (List.filter p l2).
Qed.

#[export] Hint Resolve filter_sublist_of : dash.
#[export] Hint Rewrite @filter_filter_andb : dash_rw.

(** Closes a decidable proposition on concrete data by evaluation. *)
Ltac decide_by_eval := apply (bool_decide_unpack _); vm_compute; reflexivity.

(** Splits the boolean tests of a goal or hypothesis into cases. *)
Ltac destruct_bools :=
  repeat match goal with
  | |- context [if ?b then _ else _] => destruct b eqn:?
  | H : context [if ?b then _ else _] |- _ => destruct b eqn:?
  end.

(** ** Strictly increasing integer sequences *)

Fixpoint increasing (l : list Z) : bool :=
  match l with
  | x :: ((y :: _) as l') => (x <? y)%Z && increasing l'
  | _ => true
  end.

Lemma increasing_cons_lt x l :
  increasing (x :: l) = true -> forall y, y ∈ l -> (x < y)%Z.
Proof.
  revert x. induction l as [|y l IH]; intros x H z Hz; [set_solver|].
  simpl in H. apply andb_true_iff in H as [Hxy%Z.ltb_lt Hl].
  apply elem_of_cons in Hz as [->|Hz]; [done|].
  specialize (IH y Hl z Hz). lia.
Qed.

Lemma increasing_NoDup l : increasing l = true -> NoDup l.
Proof.
  induction l as [|x l IH]; intros H; constructor.
  - intros Hx. pose proof (increasing_cons_lt x l H x Hx). lia.
  - apply IH. destruct l; [done|]. by apply andb_true_iff in H as [_ ?].
Qed.

Lemma increasing_sorted_nodup l :
  StronglySorted Z.le l -> NoDup l -> increasing l = true.
Proof.
  induction 1 as [|x l Hs IH Hall]; intros Hnd; [done|].
  apply NoDup_cons in Hnd as [Hx Hnd]. destruct l as [|y l]; [done|].
  simpl. apply andb_true_iff. split; [|by apply IH].
  apply Z.ltb_lt. inversion Hall as [|? ? Hxy]; subst.
  assert (x <> y) by (intros ->; apply Hx; left). lia.
Qed.

#[export] Hint Resolve increasing_NoDup : dash.

(** ** Sums of counts *)

Lemma list_sum_map_add {A} (f g : A -> nat) (l : list A) :
  list_sum (map (fun x => f x + g x) l) = list_sum (map f l) + list_sum (map g l).
Proof. induction l as [|x l IH]; simpl; lia. Qed.

Lemma list_sum_map_zero {A} (f : A -> nat) (l : list A) :
  (forall x, x ∈ l -> f x = 0) -> list_sum (map f l) = 0.
Proof.
  induction l as [|x l IH]; intros H; simpl; [done|].
  rewrite (H x), IH by set_solver. done.
Qed.

(** Summing an indicator over a duplicate-free list that contains the point. *)
Lemma list_sum_indicator `{EqDecision A} (x : A) (l : list A) :
  NoDup l -> x ∈ l ->
  list_sum (map (fun y => if bool_decide (x = y) then 1 else 0) l) = 1.
Proof.
  induction l as [|y l IH]; intros Hnd Hx; [set_solver|].
  apply NoDup_cons in Hnd as [Hy Hnd]. simpl.
  case_bool_decide as Hxy.
  - subst y. rewrite list_sum_map_zero; [done|].
    intros z Hz. case_bool_decide; [subst; done|done].
  - apply elem_of_cons in Hx as [->|Hx]; [done|]. by rewrite IH.
Qed.
