(* ===== verification/PyFloat.v ===== *)
(** Python and pandas numbers as the code uses them: floats with NaN, their
    comparisons, the NaN-skipping [Series.max]/[Series.min] of the loader
    (lines 11-12), and the integer built-ins of the slider marks (line 47):
    [int()] on a float, [range(start, stop, step)] and [str()] on an
    integer. *)

From S2P Require Import Prelude.
From Stdlib Require Import DecimalString DecimalZ DecimalPos.

(** A float64 value. A finite float denotes a dyadic rational, and the code
    only compares payloads, so [PyNum q] carries that rational exactly. *)
Inductive pyfloat :=
  | PyNum (q : Q)
  | PyNaN.

(** [a <= b] on floats: false as soon as one side is NaN. *)
Definition py_le (a b : pyfloat) : bool :=
  match a, b with
  | PyNum x, PyNum y => Qle_bool x y
  | _, _ => false
  end.

(** [a >= b] is [b <= a]. *)
Definition py_ge (a b : pyfloat) : bool := py_le b a.

(** One step of pandas' NaN-skipping reduction: NaN entries are skipped,
    the first number replaces an all-NaN accumulator, and [keep_acc m q]
    says whether the accumulator [m] wins against the new entry [q]. *)
Definition nan_step (keep_acc : Q -> Q -> bool) (acc x : pyfloat) : pyfloat :=
  match x, acc with
  | PyNaN, _ => acc
  | PyNum _, PyNaN => x
  | PyNum q, PyNum m => if keep_acc m q then acc else x
  end.

(** [Series.max()] with [skipna=True]: NaN for an empty or all-NaN column. *)
Definition series_max (s : list pyfloat) : pyfloat :=
  fold_left (nan_step (fun m q => Qle_bool q m)) s PyNaN.

(** [Series.min()] with [skipna=True]. *)
Definition series_min (s : list pyfloat) : pyfloat :=
  fold_left (nan_step (fun m q => Qle_bool m q)) s PyNaN.

(** [int(x)] on a float: truncation toward zero; NaN raises. *)
Definition py_int (x : pyfloat) : result Z :=
  match x with
  | PyNum q => Ok (Z.quot (Qnum q) (Zpos (Qden q)))
  | PyNaN => Raise (ValueError "cannot convert float NaN to integer")
  end.

(** The length CPython computes for [range(start, stop, step)], [step <> 0]. *)
Definition range_len (start stop step : Z) : Z :=
  if (0 <? step)%Z
  then Z.max 0 ((stop - start + step - 1) / step)
  else Z.max 0 ((start - stop - step - 1) / (- step)).

(** [range(start, stop, step)] as the list it enumerates. *)
Definition py_range (start stop step : Z) : result (list Z) :=
  if (step =? 0)%Z
  then Raise (ValueError "range() arg 3 must not be zero")
  else Ok (map (fun i => start + step * Z.of_nat i)%Z
               (seq 0 (Z.to_nat (range_len start stop step)))).

(** [str(i)] on an integer: its decimal representation. *)
Definition py_str_int (i : Z) : string :=
  NilZero.string_of_int (Z.to_int i).

(** Reading a decimal integer back, as [int(s)] does on such a string. *)
Definition py_int_of_str (s : string) : option Z :=
  Z.of_int <$> NilZero.int_of_string s.

(** Two floats are the same value when their rationals are equal
    ([PyNum (1#2)] and [PyNum (2#4)] are one float); NaN is a single value
    here, since the code never compares NaN for equality. *)
Definition pyfloat_equiv (a b : pyfloat) : Prop :=
  match a, b with
  | PyNum x, PyNum y => (x == y)%Q
  | PyNaN, PyNaN => True
  | _, _ => False
  end.

#[export] Instance pyfloat_equiv_inst : Equiv pyfloat := pyfloat_equiv.

(** ** Comparisons *)

Lemma py_le_num (a b : Q) : py_le (PyNum a) (PyNum b) = true <-> (a <= b)%Q.
Proof. apply Qle_bool_iff. Qed.

Lemma py_le_true_inv (a b : pyfloat) :
  py_le a b = true -> exists x y, a = PyNum x /\ b = PyNum y /\ (x <= y)%Q.
Proof.
  destruct a as [x|], b as [y|]; simpl; try discriminate.
  intros H%Qle_bool_iff. eauto.
Qed.

Lemma py_le_trans (a b c : pyfloat) :
  py_le a b = true -> py_le b c = true -> py_le a c = true.
Proof.
  intros (x & y & -> & -> & Hxy)%py_le_true_inv
         (y' & z & [= <-] & -> & Hyz)%py_le_true_inv.
  apply py_le_num. by apply Qle_trans with y.
Qed.

Lemma py_le_nan_l (b : pyfloat) : py_le PyNaN b = false.
Proof. done. Qed.

Lemma py_le_nan_r (a : pyfloat) : py_le a PyNaN = false.
Proof. by destruct a. Qed.

#[export] Instance pyfloat_equiv_Equivalence : Equivalence (≡@{pyfloat}).
Proof.
  split.
  - intros [x|]; [apply Qeq_refl|done].
  - intros [x|] [y|]; try done; apply Qeq_sym.
  - intros [x|] [y|] [z|]; try done; apply Qeq_trans.
Qed.

#[export] Instance pyfloat_equiv_dec : RelDecision (≡@{pyfloat}).
Proof.
  intros [x|] [y|]; unfold Decision, equiv, pyfloat_equiv_inst, pyfloat_equiv.
  - apply Qeq_dec.
  - right. intros [].
  - right. intros [].
  - by left.
Defined.

#[export] Hint Resolve py_le_trans : dash.
#[export] Hint Rewrite py_le_nan_l py_le_nan_r : dash_rw.

(** ** The NaN-skipping reductions *)

Lemma nan_fold_cases (keep_acc : Q -> Q -> bool) s acc :
  (fold_left (nan_step keep_acc) s acc = PyNaN /\ acc = PyNaN /\
     Forall (fun v => v = PyNaN) s) \/
  (exists m, fold_left (nan_step keep_acc) s acc = PyNum m /\
     (acc = PyNum m \/ PyNum m ∈ s)).
Proof.
  revert acc. induction s as [|x s IH]; intros acc; simpl.
  - destruct acc as [m|]; [right; exists m; split; [done|by left]|by left].
  - destruct (IH (nan_step keep_acc acc x)) as [(Hr & Hacc & Hs)|(m & Hr & Hm)].
    + left. destruct x, acc; simpl in Hacc; destruct_bools; try discriminate.
      repeat split; try done. by constructor.
    + right. exists m. split; [done|].
      destruct Hm as [Hm|Hm]; [|right; set_solver].
      destruct x as [q|], acc as [m'|]; simpl in Hm; destruct_bools;
        simplify_eq; (left; done) || (right; set_solver).
Qed.

Section NanFold.
(** [R q m]: the accumulator [m] is at least as good as [q]. *)
Variable R : Q -> Q -> Prop.
Variable keep_acc : Q -> Q -> bool.
Hypothesis R_trans : forall x y z, R x y -> R y z -> R x z.
Hypothesis R_refl : forall x, R x x.
Hypothesis keep_true : forall m q, keep_acc m q = true -> R q m.
Hypothesis keep_false : forall m q, keep_acc m q = false -> R m q.

Lemma nan_fold_bound s acc m :
  fold_left (nan_step keep_acc) s acc = PyNum m ->
  (forall q, acc = PyNum q -> R q m) /\ (forall q, PyNum q ∈ s -> R q m).
Proof.
  revert acc. induction s as [|x s IH]; intros acc Hr; simpl in Hr.
  - subst. split; [intros q [= ->]; apply R_refl|set_solver].
  - destruct (IH _ Hr) as [Hacc Hs]. split.
    + intros q ->. destruct x as [q'|]; simpl in Hacc; [|by apply Hacc].
      destruct (keep_acc q q') eqn:Hk; [by apply Hacc|].
      eauto.
    + intros q [<- | Hq]%elem_of_cons; [|by apply Hs].
      destruct acc as [m'|]; simpl in Hacc; [|by apply Hacc].
      destruct (keep_acc m' q) eqn:Hk; [|by apply Hacc].
      eauto.
Qed.
End NanFold.

Lemma series_max_bound s m :
  series_max s = PyNum m -> forall q, PyNum q ∈ s -> (q <= m)%Q.
Proof.
  intros H. eapply (nan_fold_bound (fun q m => q <= m)%Q); [| | | |exact H].
  - intros x y z. apply Qle_trans.
  - intros x. apply Qle_refl.
  - intros ? ? ?%Qle_bool_iff. done.
  - intros m' q Hk. apply Qlt_le_weak, Qnot_le_lt. by rewrite <- Qle_bool_iff, Hk.
Qed.

Lemma series_min_bound s m :
  series_min s = PyNum m -> forall q, PyNum q ∈ s -> (m <= q)%Q.
Proof.
  intros H. eapply (nan_fold_bound (fun q m => m <= q)%Q); [| | | |exact H].
  - intros x y z Hxy Hyz. by apply Qle_trans with y.
  - intros x. apply Qle_refl.
  - intros ? ? ?%Qle_bool_iff. done.
  - intros m' q Hk. apply Qlt_le_weak, Qnot_le_lt. by rewrite <- Qle_bool_iff, Hk.
Qed.

Lemma series_max_cases s :
  (series_max s = PyNaN /\ Forall (fun v => v = PyNaN) s) \/
  (exists m, series_max s = PyNum m /\ PyNum m ∈ s).
Proof.
  destruct (nan_fold_cases (fun m q => Qle_bool q m) s PyNaN)
    as [(? & _ & ?)|(m & ? & [?|?])]; [left; done|discriminate|right; eauto].
Qed.

Lemma series_min_cases s :
  (series_min s = PyNaN /\ Forall (fun v => v = PyNaN) s) \/
  (exists m, series_min s = PyNum m /\ PyNum m ∈ s).
Proof.
  destruct (nan_fold_cases (fun m q => Qle_bool m q) s PyNaN)
    as [(? & _ & ?)|(m & ? & [?|?])]; [left; done|discriminate|right; eauto].
Qed.

(** ** [int()], [range()] and [str()] *)

Lemma py_int_nonneg (q : Q) :
  (0 <= q)%Q ->
  exists i, py_int (PyNum q) = Ok i /\ (0 <= i)%Z /\
            (inject_Z i <= q)%Q /\ (q < inject_Z (i + 1))%Q.
Proof.
  destruct q as [n d]. unfold Qle, Qlt; simpl. intros Hq.
  exists (n / Zpos d)%Z. rewrite Z.quot_div_nonneg by lia.
  pose proof (Z.div_mod n (Zpos d) ltac:(lia)).
  pose proof (Z.mod_pos_bound n (Zpos d) ltac:(lia)).
  split; [f_equal; lia|]. unfold Qle, Qlt; simpl. repeat split; nia.
Qed.

Lemma range_len_lt (a b s i : Z) :
  (0 < s)%Z -> (0 <= i)%Z -> (i < range_len a b s)%Z <-> (a + s * i < b)%Z.
Proof.
  intros Hs Hi. unfold range_len. rewrite (proj2 (Z.ltb_lt 0 s) Hs).
  pose proof (Z.div_mod (b - a + s - 1) s ltac:(lia)).
  pose proof (Z.mod_pos_bound (b - a + s - 1) s Hs).
  rewrite Z.max_lt_iff. nia.
Qed.

Lemma elem_of_py_range (a b s : Z) (l : list Z) :
  (0 < s)%Z -> py_range a b s = Ok l ->
  forall x, x ∈ l <-> (a <= x < b)%Z /\ exists i, (0 <= i)%Z /\ x = (a + s * i)%Z.
Proof.
  intros Hs. unfold py_range. rewrite (proj2 (Z.eqb_neq s 0)) by lia.
  intros [= <-] x. rewrite list_elem_of_fmap. setoid_rewrite elem_of_seq.
  split.
  - intros (i & -> & _ & Hi).
    assert (Hlt : (Z.of_nat i < range_len a b s)%Z) by lia.
    apply range_len_lt in Hlt; [|done|lia]. split; [nia|exists (Z.of_nat i); lia].
  - intros [[Hax Hxb] (i & Hi & ->)]. exists (Z.to_nat i).
    split; [f_equal; lia|]. split; [lia|].
    assert (Hlt : (i < range_len a b s)%Z) by (apply range_len_lt; lia).
    lia.
Qed.
