(* ===== verification/Frame.v ===== *)
(** The table [spacex_df] and the pandas operations the callbacks apply to
    it (src/spacex_dash_app.py lines 63, 68-69, 83-86): column comparisons
    giving boolean masks, [&] of masks, boolean indexing [df[mask]], and
    [groupby('class').size().reset_index(name='counts')], modelled as a
    counting insertion into a list sorted by key (pandas sorts group keys by
    default). The reference for the grouping is [class_count], the number
    of rows of a class, and the grouped table refines the count map
    [counts_of]; it is [Proper] for permutations of the rows. *)

From S2P Require Import Prelude PyFloat.

(** One row of the CSV file, restricted to the three columns the code reads:
    ['Launch Site'], ['Payload Mass (kg)'] and ['class']. *)
Record launch_record := {
  launch_site : string;
  payload_mass : pyfloat;
  class : Z
}.

(** [df['Payload Mass (kg)']], [df['Launch Site']], [df['class']]. *)
Definition payload_column (df : list launch_record) : list pyfloat :=
  map payload_mass df.
Definition site_column (df : list launch_record) : list string :=
  map launch_site df.
Definition class_column (df : list launch_record) : list Z :=
  map class df.

(** [series >= x] and [series <= x] on a float column. *)
Definition series_ge (s : list pyfloat) (x : pyfloat) : list bool :=
  map (fun v => py_ge v x) s.
Definition series_le (s : list pyfloat) (x : pyfloat) : list bool :=
  map (fun v => py_le v x) s.

(** [v == sel] for a string cell and the dropdown's value, a string or
    [None]; a string never equals [None]. *)
Definition py_str_eq (v : string) (sel : option string) : bool :=
  match sel with
  | Some s => bool_decide (v = s)
  | None => false
  end.

(** [series == sel] on a string column. *)
Definition series_eq (s : list string) (sel : option string) : list bool :=
  map (fun v => py_str_eq v sel) s.

(** [m1 & m2] on two boolean Series of the same index. *)
Definition mask_and (m1 m2 : list bool) : list bool := zip_with andb m1 m2.

(** [df[mask]]: the rows whose mask entry is [True], in their order. *)
Fixpoint bool_index {A} (df : list A) (mask : list bool) : list A :=
  match df, mask with
  | r :: df', b :: mask' => if b then r :: bool_index df' mask' else bool_index df' mask'
  | _, _ => []
  end.

(** One row of class [k] counted into the grouped table. *)
Fixpoint count_insert (k : Z) (g : list (Z * nat)) : list (Z * nat) :=
  match g with
  | [] => [(k, 1%nat)]
  | (k', n) :: g' =>
      if (k <? k')%Z then (k, 1%nat) :: g
      else if (k =? k')%Z then (k', S n) :: g'
      else (k', n) :: count_insert k g'
  end.

(** [df.groupby('class').size().reset_index(name='counts')]: the pairs
    (class, counts), sorted by class, one per class present. *)
Definition groupby_size (df : list launch_record) : list (Z * nat) :=
  fold_left (fun g r => count_insert (class r) g) df [].

(** The reference: how many rows have class [k]. *)
Definition class_count (k : Z) (df : list launch_record) : nat :=
  length (List.filter (fun r => (class r =? k)%Z) df).

(** A reference for the grouped table: the distinct classes in increasing
    order, each with its number of rows. *)
Definition groupby_reference (df : list launch_record) : list (Z * nat) :=
  map (fun k => (k, class_count k df)) (merge_sort Z.le (remove_dups (class_column df))).

(** The count map a grouped table must denote: a class is a key exactly when
    some row has it, and then it maps to its number of rows. *)
Definition counts_of (df : list launch_record) (m : gmap Z nat) : Prop :=
  forall k, m !! k = (if decide (class_count k df = 0%nat) then None
                      else Some (class_count k df)).

(** ** Masks and boolean indexing *)

Lemma bool_index_map {A} (p : A -> bool) (l : list A) :
  bool_index l (map p l) = List.filter p l.
Proof. induction l as [|x l IH]; simpl; [done|]. by destruct (p x); rewrite IH. Qed.

Lemma mask_and_map {A} (p q : A -> bool) (l : list A) :
  mask_and (map p l) (map q l) = map (fun x => p x && q x) l.
Proof. induction l as [|x l IH]; simpl; [done|]. by rewrite <- IH. Qed.

#[export] Hint Rewrite @bool_index_map @mask_and_map : dash_rw.

(** ** The grouped table *)

Definition keys_increasing (g : list (Z * nat)) : bool := increasing (map fst g).

Lemma keys_increasing_cons k n g :
  keys_increasing ((k, n) :: g) = true <->
  keys_increasing g = true /\ forall k', k' ∈ map fst g -> (k < k')%Z.
Proof.
  unfold keys_increasing. split.
  - intros H. split; [|by apply increasing_cons_lt].
    destruct g as [|[] g]; [done|]. simpl in H. by apply andb_true_iff in H as [_ ?].
  - intros [Hg Hlt]. destruct g as [|[k' n'] g]; [done|].
    simpl. apply andb_true_iff. split; [apply Z.ltb_lt, Hlt; set_solver|done].
Qed.

Lemma count_insert_keys k g :
  forall k', k' ∈ map fst (count_insert k g) <-> k' = k \/ k' ∈ map fst g.
Proof.
  induction g as [|[k0 n] g IH]; intros k'; simpl; [set_solver|].
  destruct_bools; simpl; rewrite ?elem_of_cons, ?IH;
    try apply Z.eqb_eq in Heqb0; naive_solver.
Qed.

Lemma count_insert_increasing k g :
  keys_increasing g = true -> keys_increasing (count_insert k g) = true.
Proof.
  induction g as [|[k0 n] g IH]; intros Hg; simpl; [done|].
  apply keys_increasing_cons in Hg as [Hg Hlt].
  destruct_bools; apply keys_increasing_cons; split.
  - by apply keys_increasing_cons.
  - apply Z.ltb_lt in Heqb. intros k' [->|Hk']%elem_of_cons; [done|].
    specialize (Hlt k' Hk'). lia.
  - done.
  - done.
  - by apply IH.
  - apply Z.ltb_ge in Heqb. apply Z.eqb_neq in Heqb0.
    intros k' [->|Hk']%count_insert_keys; [lia|by apply Hlt].
Qed.

Lemma count_insert_positive k g :
  (forall k' n, (k', n) ∈ g -> (0 < n)%nat) ->
  forall k' n, (k', n) ∈ count_insert k g -> (0 < n)%nat.
Proof.
  induction g as [|[k0 n0] g IH]; intros Hg k' n; simpl.
  { rewrite list_elem_of_singleton. intros [= _ ->]. lia. }
  destruct_bools; intros Hin.
  - apply elem_of_cons in Hin as [[= _ ->]|Hin]; [lia|]. by eapply Hg.
  - apply elem_of_cons in Hin as [[= _ ->]|Hin]; [lia|].
    eapply Hg. apply elem_of_cons. by right.
  - apply elem_of_cons in Hin as [[= _ <-]|Hin].
    + eapply Hg. apply elem_of_cons. by left.
    + eapply IH; [|exact Hin]. intros. eapply Hg. apply elem_of_cons. by right.
Qed.

Lemma count_insert_lookup k g :
  keys_increasing g = true ->
  (list_to_map (count_insert k g) : gmap Z nat) =
  <[k := S (default 0%nat ((list_to_map g : gmap Z nat) !! k))]> (list_to_map g).
Proof.
  induction g as [|[k0 n0] g IH]; intros Hg; simpl.
  { by rewrite lookup_empty. }
  apply keys_increasing_cons in Hg as [Hg Hlt]. destruct_bools; simpl.
  - apply Z.ltb_lt in Heqb.
    rewrite lookup_insert_ne by lia.
    rewrite (proj1 (not_elem_of_list_to_map g k)); [done|].
    intros Hk. specialize (Hlt k Hk). lia.
  - apply Z.eqb_eq in Heqb0 as ->. by rewrite lookup_insert_eq, insert_insert_eq.
  - apply Z.eqb_neq in Heqb0. rewrite IH by done.
    rewrite lookup_insert_ne by lia. by rewrite insert_insert_ne by lia.
Qed.

Lemma class_count_cons k r df :
  class_count k (r :: df) = ((if (class r =? k)%Z then 1 else 0) + class_count k df)%nat.
Proof. unfold class_count. simpl. by destruct (class r =? k)%Z. Qed.

Lemma groupby_fold_lookup df g k :
  keys_increasing g = true ->
  (list_to_map (fold_left (fun g r => count_insert (class r) g) df g) : gmap Z nat) !! k =
  match (list_to_map g : gmap Z nat) !! k with
  | Some n => Some (n + class_count k df)%nat
  | None => if decide (class_count k df = 0%nat) then None else Some (class_count k df)
  end.
Proof.
  revert g. induction df as [|r df IH]; intros g Hg; simpl.
  { destruct ((list_to_map g : gmap Z nat) !! k); [f_equal; unfold class_count; simpl; lia|done]. }
  rewrite IH by (by apply count_insert_increasing).
  rewrite count_insert_lookup by done. rewrite class_count_cons.
  destruct (decide (class r = k)) as [<-|Hne].
  - rewrite lookup_insert_eq, Z.eqb_refl.
    destruct ((list_to_map g : gmap Z nat) !! class r); simpl; f_equal; lia.
  - rewrite lookup_insert_ne by done. by rewrite (proj2 (Z.eqb_neq _ _) Hne).
Qed.

Lemma count_insert_sum k g :
  list_sum (map snd (count_insert k g)) = S (list_sum (map snd g)).
Proof.
  induction g as [|[k0 n0] g IH]; simpl; [done|]. destruct_bools; simpl; lia.
Qed.

Lemma groupby_fold_sum df g :
  list_sum (map snd (fold_left (fun g r => count_insert (class r) g) df g)) =
  (list_sum (map snd g) + length df)%nat.
Proof.
  revert g. induction df as [|r df IH]; intros g; simpl; [lia|].
  rewrite IH, count_insert_sum. lia.
Qed.

Lemma groupby_fold_invariant df g :
  keys_increasing g = true -> (forall k n, (k, n) ∈ g -> (0 < n)%nat) ->
  let g' := fold_left (fun g r => count_insert (class r) g) df g in
  keys_increasing g' = true /\ forall k n, (k, n) ∈ g' -> (0 < n)%nat.
Proof.
  revert g. induction df as [|r df IH]; intros g Hg Hpos; simpl; [done|].
  apply IH; [by apply count_insert_increasing|by apply count_insert_positive].
Qed.

Lemma counts_of_unique df (m1 m2 : gmap Z nat) :
  counts_of df m1 -> counts_of df m2 -> m1 = m2.
Proof. intros H1 H2. apply map_eq. intros k. by rewrite H1, H2. Qed.

(** A table sorted by strictly increasing keys is determined by the map it
    denotes. *)
Lemma keys_increasing_unique (g1 g2 : list (Z * nat)) :
  keys_increasing g1 = true -> keys_increasing g2 = true ->
  (list_to_map g1 : gmap Z nat) = list_to_map g2 -> g1 = g2.
Proof.
  revert g2. induction g1 as [|[k1 v1] t1 IH]; intros [|[k2 v2] t2] H1 H2 Heq; [done| | |].
  - apply (f_equal (lookup k2)) in Heq. simpl in Heq.
    by rewrite lookup_empty, lookup_insert_eq in Heq.
  - apply (f_equal (lookup k1)) in Heq. simpl in Heq.
    by rewrite lookup_empty, lookup_insert_eq in Heq.
  - apply keys_increasing_cons in H1 as [H1 Hlt1], H2 as [H2 Hlt2]. simpl in Heq.
    assert (Hin : forall k v t, k ∉ map fst t ->
              (<[k:=v]> (list_to_map t : gmap Z nat)) !! k = Some v /\
              (list_to_map t : gmap Z nat) !! k = None).
    { intros k v t Hk. rewrite lookup_insert_eq. split; [done|].
      by apply not_elem_of_list_to_map. }
    assert (Hk : k1 = k2).
    { destruct (Z.lt_trichotomy k1 k2) as [Hlt|[Heqk|Hlt]]; [exfalso| done |exfalso].
      - pose proof (f_equal (lookup k1) Heq) as Hl.
        rewrite lookup_insert_eq, lookup_insert_ne in Hl by lia.
        apply eq_sym, elem_of_list_to_map_2, (list_elem_of_fmap_2 fst) in Hl.
        specialize (Hlt2 k1 Hl). lia.
      - pose proof (f_equal (lookup k2) Heq) as Hl.
        rewrite lookup_insert_eq, lookup_insert_ne in Hl by lia.
        apply elem_of_list_to_map_2, (list_elem_of_fmap_2 fst) in Hl.
        specialize (Hlt1 k2 Hl). lia. }
    subst k2.
    assert (v1 = v2) as <-.
    { pose proof (f_equal (lookup k1) Heq) as Hl. rewrite !lookup_insert_eq in Hl.
      by injection Hl. }
    f_equal. apply IH; [done|done|].
    assert (Hn1 : k1 ∉ map fst t1) by (intros Hk; specialize (Hlt1 k1 Hk); lia).
    assert (Hn2 : k1 ∉ map fst t2) by (intros Hk; specialize (Hlt2 k1 Hk); lia).
    rewrite <- (delete_insert_id (list_to_map t1 : gmap Z nat) k1 v1)
      by (by apply not_elem_of_list_to_map).
    rewrite Heq. by apply delete_insert_id, not_elem_of_list_to_map.
Qed.

Lemma class_count_pos k df :
  class_count k df <> 0%nat <-> k ∈ class_column df.
Proof.
  unfold class_count, class_column. rewrite list_elem_of_fmap. split.
  - intros Hne. destruct (List.filter _ df) as [|r l] eqn:Hf; [done|].
    assert (Hr : r ∈ List.filter (fun r => (class r =? k)%Z) df) by (rewrite Hf; left).
    apply elem_of_filter_bool in Hr as [Hr Hk%Z.eqb_eq]. by exists r.
  - intros (r & -> & Hr) Hlen. apply nil_length_inv in Hlen.
    assert (Hin : r ∈ List.filter (fun r' => (class r' =? class r)%Z) df).
    { apply elem_of_filter_bool. split; [done|apply Z.eqb_refl]. }
    rewrite Hlen in Hin. set_solver.
Qed.

Lemma groupby_reference_wf df : keys_increasing (groupby_reference df) = true.
Proof.
  unfold keys_increasing, groupby_reference. rewrite map_map. simpl. rewrite map_id.
  apply increasing_sorted_nodup; [apply StronglySorted_merge_sort; apply _|].
  rewrite merge_sort_Permutation. apply NoDup_remove_dups.
Qed.

Lemma groupby_reference_counts df : counts_of df (list_to_map (groupby_reference df)).
Proof.
  intros k. pose proof (groupby_reference_wf df) as Hwf.
  apply increasing_NoDup in Hwf. unfold groupby_reference in *.
  assert (Hkeys : k ∈ map fst (map (fun k => (k, class_count k df))
                     (merge_sort Z.le (remove_dups (class_column df)))) <->
                  k ∈ class_column df).
  { rewrite map_map. simpl. rewrite map_id, merge_sort_Permutation.
    apply elem_of_remove_dups. }
  case_decide as Hz.
  - apply not_elem_of_list_to_map. rewrite Hkeys. intros Hk.
    by apply class_count_pos in Hk.
  - apply elem_of_list_to_map_1; [done|]. apply list_elem_of_fmap.
    exists k. split; [done|]. rewrite merge_sort_Permutation.
    apply elem_of_remove_dups. by apply class_count_pos.
Qed.

(** ** What [groupby('class').size()] computes *)

(** The grouped table denotes the count map of the table: each class
    present maps to its number of rows, and no other class is a key. *)
Theorem groupby_size_counts (df : list launch_record) :
  counts_of df (list_to_map (groupby_size df)).
Proof. intros k. unfold groupby_size. by rewrite groupby_fold_lookup. Qed.

(** The grouped table is sorted by strictly increasing class, and every
    count in it is positive: no empty group is reported. *)
Theorem groupby_size_wf (df : list launch_record) :
  keys_increasing (groupby_size df) = true /\
  forall k n, (k, n) ∈ groupby_size df -> (0 < n)%nat.
Proof. apply groupby_fold_invariant; [done|set_solver]. Qed.

(** The counts of the grouped table add up to the number of rows. *)
Theorem groupby_size_total (df : list launch_record) :
  list_sum (map snd (groupby_size df)) = length df.
Proof. unfold groupby_size. by rewrite groupby_fold_sum. Qed.

(** ** The order of the rows *)

Lemma class_count_perm (k : Z) : Proper ((≡ₚ) ==> eq) (class_count k).
Proof. intros df1 df2 Hp. unfold class_count. by rewrite Hp. Qed.

(** The grouped table does not depend on the order of the rows. *)
#[export] Instance groupby_size_perm : Proper ((≡ₚ) ==> eq) groupby_size.
Proof.
  intros df1 df2 Hp. apply keys_increasing_unique; [apply groupby_size_wf..|].
  apply (counts_of_unique df1); [apply groupby_size_counts|].
  intros k. rewrite (class_count_perm k df1 df2 Hp). apply groupby_size_counts.
Qed.

(** ** The payload column's bounds *)

(** Every number of the payload column lies between the column's NaN-skipping
    minimum and maximum. *)
Lemma column_bounds df r q :
  r ∈ df -> payload_mass r = PyNum q ->
  py_le (series_min (payload_column df)) (PyNum q) = true /\
  py_le (PyNum q) (series_max (payload_column df)) = true.
Proof.
  intros Hr Hq.
  assert (Hin : PyNum q ∈ payload_column df).
  { rewrite <- Hq. apply list_elem_of_In, in_map, list_elem_of_In, Hr. }
  split.
  - destruct (series_min_cases (payload_column df)) as [[_ Hall]|(m & Hm & _)].
    + rewrite Forall_forall in Hall. by specialize (Hall _ Hin).
    + rewrite Hm. apply py_le_num. by eapply series_min_bound.
  - destruct (series_max_cases (payload_column df)) as [[_ Hall]|(m & Hm & _)].
    + rewrite Forall_forall in Hall. by specialize (Hall _ Hin).
    + rewrite Hm. apply py_le_num. by eapply series_max_bound.
Qed.

(** C15: [groupby('class').size()] as the code computes it (an insertion per
    row into a sorted table) equals the reference table: the distinct
    classes of the table in increasing order, each with its number of
    rows. *)
Theorem groupby_size_reference (df : list launch_record) :
  groupby_size df = groupby_reference df.
Proof.
  apply keys_increasing_unique; [apply groupby_size_wf|apply groupby_reference_wf|].
  eapply counts_of_unique; [apply groupby_size_counts|apply groupby_reference_counts].
Qed.
