(* ===== verification/Figures.v ===== *)
(** The presentation layer as the code drives it: the data and titles the
    callbacks hand to plotly express (src/spacex_dash_app.py lines 64-65,
    70-71, 88-98). Plotly's rendering is external; a figure is modelled by
    the data and layout fields the code sets or relies on. *)

From S2P Require Import Prelude PyFloat Frame.

(** A pie figure: one slice per row of the data frame, named by the
    ['class'] column and sized by the ['counts'] column. *)
Record pie_figure := {
  pie_names : list Z;
  pie_values : list nat;
  pie_title : string
}.

(** [px.pie(data, names='class', values='counts', title=title)] on the
    table built by [groupby('class').size().reset_index(name='counts')]. *)
Definition px_pie (data : list (Z * nat)) (title : string) : pie_figure :=
  {| pie_names := map fst data; pie_values := map snd data; pie_title := title |}.

(** A scatter figure: one point per row, its axis titles in the layout. *)
Record scatter_figure := {
  sc_x : list pyfloat;
  sc_y : list Z;
  sc_color : list Z;
  sc_title : string;
  sc_xaxis_title : string;
  sc_yaxis_title : string
}.

(** [px.scatter(df, x='Payload Mass (kg)', y='class', color='class',
    title=title)]: plotly express titles each axis with its column name. *)
Definition px_scatter (df : list launch_record) (title : string) : scatter_figure :=
  {| sc_x := payload_column df;
     sc_y := class_column df;
     sc_color := class_column df;
     sc_title := title;
     sc_xaxis_title := "Payload Mass (kg)";
     sc_yaxis_title := "class" |}.

(** [fig.update_layout(xaxis_title=x, yaxis_title=y)]. *)
Definition update_layout (fig : scatter_figure) (x y : string) : scatter_figure :=
  {| sc_x := sc_x fig; sc_y := sc_y fig; sc_color := sc_color fig;
     sc_title := sc_title fig; sc_xaxis_title := x; sc_yaxis_title := y |}.

(** The count map a pie figure shows: slice name to slice value. *)
Definition pie_counts (fig : pie_figure) : gmap Z nat :=
  list_to_map (zip (pie_names fig) (pie_values fig)).

Lemma pie_counts_px_pie (data : list (Z * nat)) (title : string) :
  pie_counts (px_pie data title) = list_to_map data.
Proof. unfold pie_counts, px_pie. simpl. by rewrite zip_fst_snd. Qed.
