(* ===== verification/Callbacks.v ===== *)
(** The aggregation engine: the two Dash callbacks of
    src/spacex_dash_app.py, [update_pie_chart] (lines 60-72) and
    [update_scatter_chart] (lines 80-99), over the table loaded at start-up
    (a Section variable, the module-level [spacex_df] of line 10).
    The Module [Spec] states the contract the spec gives the aggregation
    engine (computeOutcomeCounts, filterByRangeAndSite); the theorems at
    the end show the callbacks refine it, and prove the spec's testable
    properties of the two operations. *)

From S2P Require Import Prelude PyFloat Frame Figures.

(** [selected_site == 'ALL'], for the dropdown's value (a string or [None]). *)
Definition is_all (selected_site : option string) : bool :=
  match selected_site with
  | Some s => bool_decide (s = "ALL")
  | None => false
  end.

(** [{selected_site}] in an f-string: the string itself, or ["None"]. *)
Definition py_format_site (selected_site : option string) : string :=
  match selected_site with
  | Some s => s
  | None => "None"
  end.

(** The exception of [low, high = payload_range] when the list does not
    have two elements. *)
Definition unpack_error (n : nat) : exn :=
  if decide (n < 2)%nat
  then ValueError ("not enough values to unpack (expected 2, got " ++
                   py_str_int (Z.of_nat n) ++ ")")
  else ValueError "too many values to unpack (expected 2)".

Section Callbacks.
(** The table read at start-up; both callbacks only read it. *)
Variable spacex_df : list launch_record.

(** [update_pie_chart(selected_site)]. *)
Definition update_pie_chart (selected_site : option string) : pie_figure :=
  if is_all selected_site then
    let pie_data := groupby_size spacex_df in
    px_pie pie_data "Total Success vs Failed Launches"
  else
    let site_data :=
      bool_index spacex_df (series_eq (site_column spacex_df) selected_site) in
    let site_pie_data := groupby_size site_data in
    px_pie site_pie_data
      ("Success vs Failed Launches for " ++ py_format_site selected_site).

(** [update_scatter_chart(selected_site, payload_range)]. *)
Definition update_scatter_chart (selected_site : option string)
    (payload_range : list pyfloat) : result scatter_figure :=
  match payload_range with
  | [low; high] =>
      let filtered_data :=
        bool_index spacex_df
          (mask_and (series_ge (payload_column spacex_df) low)
                    (series_le (payload_column spacex_df) high)) in
      let filtered_data :=
        if negb (is_all selected_site)
        then bool_index filtered_data
               (series_eq (site_column filtered_data) selected_site)
        else filtered_data in
      let scatter_fig :=
        px_scatter filtered_data
          ("Payload vs Launch Success for " ++
           (if negb (is_all selected_site)
            then py_format_site selected_site else "All Sites")) in
      Ok (update_layout scatter_fig "Payload Mass (kg)"
            "Launch Success (1 = Success, 0 = Failure)")
  | _ => Raise (unpack_error (length payload_range))
  end.
End Callbacks.

(** The contract of the aggregation engine, written from the spec
    (section 4.1): both operations select the records of a site, all of
    them for ["ALL"], none for a value that is no site. *)
Module Spec.
(** The records the site selection keeps. *)
Definition selects (site : option string) (r : launch_record) : bool :=
  match site with
  | Some s => if bool_decide (s = "ALL") then true
              else bool_decide (launch_site r = s)
  | None => false
  end.

(** Counting records by outcome, one insertion per record. *)
Definition tally (l : list launch_record) : gmap Z nat :=
  foldr (fun r m => <[class r := S (default 0%nat (m !! class r))]> m) ∅ l.

(** computeOutcomeCounts(dataset, site). *)
Definition outcome_counts (dataset : list launch_record) (site : option string)
  : gmap Z nat :=
  tally (List.filter (selects site) dataset).

(** filterByRangeAndSite(dataset, site, low, high): inclusive bounds, in
    the dataset's order. *)
Definition filter_by_range_and_site (dataset : list launch_record)
    (site : option string) (low high : pyfloat) : list launch_record :=
  List.filter (fun r => py_le low (payload_mass r) && py_le (payload_mass r) high
                        && selects site r) dataset.
End Spec.

(** The title the scatter chart gets for a selection. *)
Definition scatter_title (selected_site : option string) : string :=
  "Payload vs Launch Success for " ++
  (if negb (is_all selected_site) then py_format_site selected_site else "All Sites").

(** The title the pie chart gets for a selection. *)
Definition pie_title_for (selected_site : option string) : string :=
  if is_all selected_site then "Total Success vs Failed Launches"
  else "Success vs Failed Launches for " ++ py_format_site selected_site.

(** The points of a scatter figure. *)
Definition scatter_points (fig : scatter_figure) : list (pyfloat * Z) :=
  zip (sc_x fig) (sc_y fig).

(** ** Both branches of each callback in one form *)

Lemma selects_is_all site r :
  Spec.selects site r = is_all site || py_str_eq (launch_site r) site.
Proof. destruct site as [s|]; simpl; [|done]. by case_bool_decide. Qed.

Lemma site_mask df site :
  bool_index df (series_eq (site_column df) site) =
  List.filter (fun r => py_str_eq (launch_site r) site) df.
Proof. unfold series_eq, site_column. rewrite map_map. by autorewrite with dash_rw. Qed.

Lemma range_mask df low high :
  bool_index df (mask_and (series_ge (payload_column df) low)
                          (series_le (payload_column df) high)) =
  List.filter (fun r => py_le low (payload_mass r) && py_le (payload_mass r) high) df.
Proof.
  unfold series_ge, series_le, payload_column. rewrite !map_map.
  by autorewrite with dash_rw.
Qed.

Lemma filter_selects df site :
  List.filter (Spec.selects site) df =
  if is_all site then df else List.filter (fun r => py_str_eq (launch_site r) site) df.
Proof.
  destruct (is_all site) eqn:Ha.
  - apply filter_all_true. intros r _. by rewrite selects_is_all, Ha.
  - apply filter_ext_in. intros r _. by rewrite selects_is_all, Ha.
Qed.

(** The pie chart, whatever the selection, is the grouped count of the
    selected records. *)
Lemma update_pie_chart_eq df site :
  update_pie_chart df site =
  px_pie (groupby_size (List.filter (Spec.selects site) df)) (pie_title_for site).
Proof.
  unfold update_pie_chart, pie_title_for. rewrite filter_selects.
  destruct (is_all site); [done|]. by rewrite site_mask.
Qed.

(** The scatter chart for a two-element range shows the records of the
    spec's filter. *)
Lemma update_scatter_chart_eq df site low high :
  update_scatter_chart df site [low; high] =
  Ok (update_layout
        (px_scatter (Spec.filter_by_range_and_site df site low high) (scatter_title site))
        "Payload Mass (kg)" "Launch Success (1 = Success, 0 = Failure)").
Proof.
  unfold update_scatter_chart, scatter_title, Spec.filter_by_range_and_site.
  rewrite range_mask. do 2 f_equal.
  rewrite <- (filter_filter_andb
    (fun r => py_le low (payload_mass r) && py_le (payload_mass r) high) (Spec.selects site)).
  rewrite filter_selects.
  destruct (is_all site); simpl; [done|]. by rewrite site_mask.
Qed.

(** ** The outcome counts *)

Lemma tally_counts (l : list launch_record) : counts_of l (Spec.tally l).
Proof.
  induction l as [|r l IH]; intros k; simpl; [by rewrite lookup_empty|].
  rewrite class_count_cons. destruct (decide (class r = k)) as [<-|Hne].
  - rewrite lookup_insert_eq, Z.eqb_refl, (IH (class r)). simpl.
    case_decide; simpl; [by rewrite H|done].
  - rewrite lookup_insert_ne by done. rewrite (proj2 (Z.eqb_neq _ _) Hne). apply IH.
Qed.

Lemma pie_count_lookup df site k :
  default 0%nat (pie_counts (update_pie_chart df site) !! k) =
  class_count k (List.filter (Spec.selects site) df).
Proof.
  rewrite update_pie_chart_eq, pie_counts_px_pie, groupby_size_counts.
  by case_decide.
Qed.

Lemma class_count_site_cons k r df s :
  class_count k (List.filter (fun r => bool_decide (launch_site r = s)) (r :: df)) =
  ((if bool_decide (launch_site r = s) then (if (class r =? k)%Z then 1 else 0) else 0) +
   class_count k (List.filter (fun r => bool_decide (launch_site r = s)) df))%nat.
Proof. simpl. case_bool_decide; [apply class_count_cons|done]. Qed.

(** Counting a table site by site, when every record's site is one of a
    duplicate-free list of sites. *)
Lemma class_count_by_site k (df : list launch_record) (sites : list string) :
  NoDup sites -> (forall r, r ∈ df -> launch_site r ∈ sites) ->
  class_count k df =
  list_sum (map (fun s => class_count k
                   (List.filter (fun r => bool_decide (launch_site r = s)) df)) sites).
Proof.
  intros Hnd. induction df as [|r df IH]; intros Hin.
  { symmetry. by apply list_sum_map_zero. }
  rewrite (map_ext _ _ (class_count_site_cons k r df)), list_sum_map_add.
  rewrite class_count_cons, IH by set_solver. f_equal.
  destruct (class r =? k)%Z.
  - rewrite list_sum_indicator; [done|done|]. apply Hin. set_solver.
  - rewrite list_sum_map_zero; [done|]. intros s _. by case_bool_decide.
Qed.

(** ** Scatter points *)

Lemma scatter_points_px df title x y :
  scatter_points (update_layout (px_scatter df title) x y) =
  map (fun r => (payload_mass r, class r)) df.
Proof.
  unfold scatter_points, payload_column, class_column; simpl.
  induction df as [|r df IH]; simpl; [done|]. by rewrite IH.
Qed.

Lemma update_scatter_chart_ok df site range fig :
  update_scatter_chart df site range = Ok fig ->
  exists low high, range = [low; high] /\
    scatter_points fig =
    map (fun r => (payload_mass r, class r)) (Spec.filter_by_range_and_site df site low high).
Proof.
  destruct range as [|low [|high [|x range]]]; try discriminate.
  rewrite update_scatter_chart_eq. intros [= <-]. exists low, high.
  split; [done|apply scatter_points_px].
Qed.

(** With every payload a number, the range [min, max] of the payload
    column and the site ["ALL"] select every record. *)
Lemma filter_full_range_all df :
  Forall (fun r => payload_mass r <> PyNaN) df ->
  Spec.filter_by_range_and_site df (Some "ALL")
    (series_min (payload_column df)) (series_max (payload_column df)) = df.
Proof.
  intros Hnum. apply filter_all_true. intros r Hr.
  rewrite Forall_forall in Hnum. specialize (Hnum r Hr).
  destruct (payload_mass r) as [q|] eqn:Hq; [|done].
  destruct (column_bounds df r q Hr Hq) as [-> ->]. done.
Qed.

(** The example dataset of the spec (section 8). *)
Definition spec_example_df : list launch_record :=
  [ {| launch_site := "A"; payload_mass := PyNum 500; class := 1 |};
    {| launch_site := "A"; payload_mass := PyNum 3000; class := 0 |};
    {| launch_site := "B"; payload_mass := PyNum 1000; class := 1 |} ].

(** ** The properties of the two callbacks *)

(** C1: [update_pie_chart] implements computeOutcomeCounts: the map from
    slice name to slice value is the spec's outcome count map for the
    selection, the slices are sorted by strictly increasing class, and no
    slice is empty. *)
Theorem pie_counts_update_pie_chart df site :
  pie_counts (update_pie_chart df site) = Spec.outcome_counts df site /\
  increasing (pie_names (update_pie_chart df site)) = true /\
  Forall (fun n => (0 < n)%nat) (pie_values (update_pie_chart df site)).
Proof.
  rewrite update_pie_chart_eq, pie_counts_px_pie.
  destruct (groupby_size_wf (List.filter (Spec.selects site) df)) as [Hinc Hpos].
  split; [|split].
  - eapply counts_of_unique; [apply groupby_size_counts|apply tally_counts].
  - exact Hinc.
  - apply Forall_forall. simpl. intros n (p & -> & Hp)%list_elem_of_fmap.
    destruct p as [k n]. by apply (Hpos k n).
Qed.

(** C2: [update_scatter_chart] implements filterByRangeAndSite: for a
    two-element range it returns a figure whose points are the payload and
    class of the records the spec's filter keeps, in table order, coloured
    by class, with the code's titles. *)
Theorem update_scatter_chart_refines df site low high :
  exists fig, update_scatter_chart df site [low; high] = Ok fig /\
    scatter_points fig =
      map (fun r => (payload_mass r, class r)) (Spec.filter_by_range_and_site df site low high) /\
    sc_color fig = sc_y fig /\
    sc_title fig = scatter_title site /\
    sc_xaxis_title fig = "Payload Mass (kg)" /\
    sc_yaxis_title fig = "Launch Success (1 = Success, 0 = Failure)".
Proof.
  eexists. rewrite update_scatter_chart_eq. split; [done|].
  split; [apply scatter_points_px|done].
Qed.

(** C4: the pie chart's values add up to the number of records of the
    selection (spec: sum of the counts = count of the site filter). *)
Theorem pie_values_total df site :
  list_sum (pie_values (update_pie_chart df site)) =
  length (List.filter (Spec.selects site) df).
Proof. rewrite update_pie_chart_eq. apply groupby_size_total. Qed.

(** C5: partition consistency: when every record's site is one of a
    duplicate-free list of sites other than ["ALL"], the ["ALL"] pie counts
    each class as the sum of the per-site pies' counts. *)
Theorem pie_all_is_sum_of_sites df (sites : list string) k :
  NoDup sites -> "ALL" ∉ sites -> (forall r, r ∈ df -> launch_site r ∈ sites) ->
  default 0%nat (pie_counts (update_pie_chart df (Some "ALL")) !! k) =
  list_sum (map (fun s => default 0%nat (pie_counts (update_pie_chart df (Some s)) !! k)) sites).
Proof.
  intros Hnd Hall Hin. rewrite pie_count_lookup, filter_all_true by done.
  rewrite (class_count_by_site k df sites Hnd Hin). f_equal.
  apply map_ext_in. intros s Hs%list_elem_of_In.
  rewrite pie_count_lookup. f_equal. apply filter_ext_in. intros r _.
  simpl. rewrite (bool_decide_false (s = "ALL")); [done|]. by intros ->.
Qed.

(** C6: with every payload a number, the initial slider range
    [min_payload, max_payload] and the site ["ALL"] plot every record of
    the table, in order. *)
Theorem scatter_full_range_all df :
  Forall (fun r => payload_mass r <> PyNaN) df ->
  update_scatter_chart df (Some "ALL")
    [series_min (payload_column df); series_max (payload_column df)] =
  Ok (update_layout (px_scatter df "Payload vs Launch Success for All Sites")
        "Payload Mass (kg)" "Launch Success (1 = Success, 0 = Failure)").
Proof. intros Hnum. rewrite update_scatter_chart_eq. by rewrite filter_full_range_all. Qed.

(** C7: a record whose payload is NaN is counted by the pie chart of its
    selection but is never a point of the scatter chart, whatever the
    range. *)
Theorem nan_payload_counted_not_plotted df site range fig r :
  r ∈ df -> payload_mass r = PyNaN -> Spec.selects site r = true ->
  update_scatter_chart df site range = Ok fig ->
  (forall y, (PyNaN, y) ∉ scatter_points fig) /\
  (1 <= default 0%nat (pie_counts (update_pie_chart df site) !! class r))%nat.
Proof.
  intros Hr Hnan Hsel (low & high & -> & Hpts)%update_scatter_chart_ok. split.
  - intros y. rewrite Hpts, list_elem_of_fmap. intros (r' & [= Hx _] & Hr').
    apply elem_of_filter_bool in Hr' as [_ Hkeep].
    rewrite <- Hx in Hkeep. by rewrite py_le_nan_r in Hkeep.
  - rewrite pie_count_lookup. unfold class_count.
    assert (r ∈ List.filter (fun r' => (class r' =? class r)%Z)
                  (List.filter (Spec.selects site) df)) as Hin.
    { apply elem_of_filter_bool. split; [|apply Z.eqb_refl].
      by apply elem_of_filter_bool. }
    destruct (List.filter _ (List.filter _ _)); [set_solver|simpl; lia].
Qed.

(** C10: narrowing the payload range never adds a point: the points for a
    sub-interval are a sub-list of the points for the wider interval. *)
Theorem scatter_narrowing_sublist df site low1 high1 low2 high2 :
  py_le low1 low2 = true -> py_le high2 high1 = true ->
  match update_scatter_chart df site [low1; high1],
        update_scatter_chart df site [low2; high2] with
  | Ok fig1, Ok fig2 => scatter_points fig2 `sublist_of` scatter_points fig1
  | _, _ => False
  end.
Proof.
  intros Hlow Hhigh. rewrite !update_scatter_chart_eq, !scatter_points_px.
  apply sublist_map, filter_mono_sublist. intros r _.
  rewrite !andb_true_iff. intros [[H1 H2] H3]. eauto with dash.
Qed.

(** C11: a cleared dropdown ([None]) or a site no record has gives an
    empty pie chart and, for every slider pair, a scatter figure with no
    points: both callbacks return a figure, neither raises. *)
Theorem unknown_site_empty_charts df site :
  site = None \/
  (exists s, site = Some s /\ s <> "ALL" /\ forall r, r ∈ df -> launch_site r <> s) ->
  pie_names (update_pie_chart df site) = [] /\ pie_values (update_pie_chart df site) = [] /\
  forall low high, exists fig,
    update_scatter_chart df site [low; high] = Ok fig /\ scatter_points fig = [].
Proof.
  intros Hsite.
  assert (Hnone : forall r, r ∈ df -> Spec.selects site r = false).
  { intros r Hr. destruct Hsite as [->|(s & -> & Hs & Hr')]; [done|].
    simpl. rewrite !bool_decide_false; [done| |done]. by apply Hr'. }
  rewrite update_pie_chart_eq, (filter_all_false _ _ Hnone). split; [done|split; [done|]].
  intros low high. pose proof (update_scatter_chart_eq df site low high) as E.
  eexists. split; [exact E|].
  apply update_scatter_chart_ok in E as (l & h & [= <- <-] & ->).
  unfold Spec.filter_by_range_and_site. rewrite filter_all_false; [done|].
  intros r Hr. by rewrite Hnone, andb_false_r.
Qed.

(** C17: the pie chart does not depend on the order of the table's rows
    (the spec's computeOutcomeCounts takes the dataset as ordered or
    unordered): tables that are permutations of each other give the same
    figure for every selection. *)
Theorem pie_order_irrelevant (df1 df2 : list launch_record) (site : option string) :
  df1 ≡ₚ df2 -> update_pie_chart df1 site = update_pie_chart df2 site.
Proof. intros Hp. rewrite !update_pie_chart_eq. by rewrite Hp. Qed.

(** C18: a slider pair that is not ordered as floats (its lower handle
    above its upper one, or a NaN bound) makes the scatter chart empty: no
    payload is both [>= low] and [<= high]. *)
Theorem scatter_unordered_range_empty df site low high fig :
  py_le low high = false ->
  update_scatter_chart df site [low; high] = Ok fig -> scatter_points fig = [].
Proof.
  intros Hlh Hfig. apply update_scatter_chart_ok in Hfig as (l & h & [= <- <-] & ->).
  unfold Spec.filter_by_range_and_site. rewrite filter_all_false; [done|].
  intros r _.
  destruct (py_le low (payload_mass r)) eqn:H1, (py_le (payload_mass r) high) eqn:H2; try done.
  by rewrite (py_le_trans _ _ _ H1 H2) in Hlh.
Qed.

(** ** Witnesses: the hypotheses of the theorems above hold on small tables *)

(** A table with one record whose payload cell was empty (read as NaN). *)
Definition nan_example_df : list launch_record :=
  [ {| launch_site := "A"; payload_mass := PyNaN; class := 1 |} ].

Lemma pie_all_is_sum_of_sites_witness :
  NoDup ["A"; "B"] /\ "ALL" ∉ ["A"; "B"] /\
  (forall r, r ∈ spec_example_df -> launch_site r ∈ ["A"; "B"]) /\
  default 0%nat (pie_counts (update_pie_chart spec_example_df (Some "ALL")) !! 1%Z) =
  list_sum (map (fun s => default 0%nat
                   (pie_counts (update_pie_chart spec_example_df (Some s)) !! 1%Z)) ["A"; "B"]).
Proof.
  assert (H1 : NoDup ["A"; "B"]) by decide_by_eval.
  assert (H2 : "ALL" ∉ ["A"; "B"]) by decide_by_eval.
  assert (H3 : forall r, r ∈ spec_example_df -> launch_site r ∈ ["A"; "B"]).
  { apply (Forall_forall (fun r => launch_site r ∈ ["A"; "B"])). vm_compute.
    repeat constructor. }
  split; [exact H1|split; [exact H2|split; [exact H3|]]].
  apply (pie_all_is_sum_of_sites spec_example_df ["A"; "B"] 1%Z H1 H2 H3).
Defined.

Lemma scatter_full_range_all_witness :
  Forall (fun r => payload_mass r <> PyNaN) spec_example_df /\
  update_scatter_chart spec_example_df (Some "ALL")
    [series_min (payload_column spec_example_df); series_max (payload_column spec_example_df)] =
  Ok (update_layout (px_scatter spec_example_df "Payload vs Launch Success for All Sites")
        "Payload Mass (kg)" "Launch Success (1 = Success, 0 = Failure)").
Proof.
  assert (H : Forall (fun r => payload_mass r <> PyNaN) spec_example_df).
  { vm_compute. repeat constructor; discriminate. }
  split; [exact H|]. apply (scatter_full_range_all spec_example_df H).
Defined.

Lemma nan_payload_counted_not_plotted_witness :
  let r := {| launch_site := "A"; payload_mass := PyNaN; class := 1 |} in
  let fig := update_layout (px_scatter [] "Payload vs Launch Success for All Sites")
               "Payload Mass (kg)" "Launch Success (1 = Success, 0 = Failure)" in
  r ∈ nan_example_df /\
  update_scatter_chart nan_example_df (Some "ALL") [PyNum 0; PyNum 1000] = Ok fig /\
  (forall y, (PyNaN, y) ∉ scatter_points fig) /\
  (1 <= default 0%nat (pie_counts (update_pie_chart nan_example_df (Some "ALL")) !! class r))%nat.
Proof.
  intros r fig.
  assert (Hr : r ∈ nan_example_df) by (left).
  assert (Hfig : update_scatter_chart nan_example_df (Some "ALL") [PyNum 0; PyNum 1000] = Ok fig)
    by (vm_compute; reflexivity).
  split; [exact Hr|split; [exact Hfig|]].
  apply (nan_payload_counted_not_plotted nan_example_df (Some "ALL") _ fig r Hr
           eq_refl eq_refl Hfig).
Defined.

Lemma scatter_narrowing_sublist_witness :
  py_le (PyNum 0) (PyNum 0) = true /\ py_le (PyNum 1000) (PyNum 3000) = true /\
  match update_scatter_chart spec_example_df (Some "A") [PyNum 0; PyNum 3000],
        update_scatter_chart spec_example_df (Some "A") [PyNum 0; PyNum 1000] with
  | Ok fig1, Ok fig2 => scatter_points fig2 `sublist_of` scatter_points fig1
  | _, _ => False
  end.
Proof.
  split; [reflexivity|split; [reflexivity|]].
  apply (scatter_narrowing_sublist spec_example_df (Some "A")
           (PyNum 0) (PyNum 3000) (PyNum 0) (PyNum 1000) eq_refl eq_refl).
Defined.

Lemma unknown_site_empty_charts_witness :
  pie_names (update_pie_chart spec_example_df None) = [] /\
  pie_values (update_pie_chart spec_example_df None) = [] /\
  forall low high, exists fig,
    update_scatter_chart spec_example_df None [low; high] = Ok fig /\ scatter_points fig = [].
Proof. apply (unknown_site_empty_charts spec_example_df None). by left. Defined.

Lemma pie_order_irrelevant_witness :
  spec_example_df ≡ₚ rev spec_example_df /\
  update_pie_chart spec_example_df (Some "A") = update_pie_chart (rev spec_example_df) (Some "A").
Proof.
  assert (H : spec_example_df ≡ₚ rev spec_example_df) by apply Permutation_rev.
  split; [exact H|]. apply (pie_order_irrelevant _ _ (Some "A") H).
Defined.

Lemma scatter_unordered_range_empty_witness :
  exists fig, py_le (PyNum 3000) (PyNum 500) = false /\
  update_scatter_chart spec_example_df (Some "ALL") [PyNum 3000; PyNum 500] = Ok fig /\
  scatter_points fig = [].
Proof.
  assert (H : py_le (PyNum 3000) (PyNum 500) = false) by (vm_compute; reflexivity).
  destruct (update_scatter_chart spec_example_df (Some "ALL") [PyNum 3000; PyNum 500])
    as [fig|e] eqn:Hf; [|discriminate].
  exists fig. split; [exact H|split; [done|]].
  apply (scatter_unordered_range_empty spec_example_df (Some "ALL") _ _ fig H Hf).
Defined.
