(* ===== verification/Layout.v ===== *)
(** The module-level start-up of src/spacex_dash_app.py: the loader
    (lines 10-12), the Dash application object (line 15) and its layout
    (lines 18-53). The layout is a tree of components; the range slider's
    [marks] are computed when the layout is built, so
    [int(max_payload)] runs at import time and raises on a NaN maximum. *)

From S2P Require Import Prelude PyFloat Frame.

(** A value of a [style] dictionary. *)
Inductive style_value :=
  | SStr (s : string)
  | SInt (z : Z).

(** An entry [{'label': ..., 'value': ...}] of a dropdown's [options]. *)
Record dropdown_option := {
  opt_label : string;
  opt_value : string
}.

(** The Dash components the layout uses, with the properties it sets. *)
Inductive component :=
  | H1 (text : string) (style : list (string * style_value))
  | Dropdown (id : string) (options : list dropdown_option) (value : string)
             (style : list (string * style_value))
  | Br
  | Div (children : list component)
  | Graph (id : string)
  | P (text : string)
  | RangeSlider (id : string) (min max : pyfloat) (step : Z)
                (marks : list (Z * string)) (value : list pyfloat).

(** The ids of a component tree, in document order. *)
Fixpoint component_ids (c : component) : list string :=
  match c with
  | Dropdown id _ _ _ | Graph id | RangeSlider id _ _ _ _ _ => [id]
  | Div cs => (fix go (cs : list component) : list string :=
                 match cs with
                 | [] => []
                 | c :: cs' => component_ids c ++ go cs'
                 end) cs
  | H1 _ _ | Br | P _ => []
  end.

(** The dropdown's [options] (lines 24-30). *)
Definition site_options : list dropdown_option :=
  [ {| opt_label := "All Sites"; opt_value := "ALL" |};
    {| opt_label := "CCAFS LC-40"; opt_value := "CCAFS LC-40" |};
    {| opt_label := "VAFB SLC-4E"; opt_value := "VAFB SLC-4E" |};
    {| opt_label := "KSC LC-39A"; opt_value := "KSC LC-39A" |};
    {| opt_label := "CCAFS SLC-40"; opt_value := "CCAFS SLC-40" |} ].

(** [{i: str(i) for i in range(0, int(max_payload), 5000)}] (line 47). *)
Definition slider_marks (max_payload : pyfloat) : result (list (Z * string)) :=
  top <-? py_int max_payload ;;
  steps <-? py_range 0 top 5000 ;;
  Ok (map (fun i => (i, py_str_int i)) steps).

(** [app.layout = html.Div(children=[...])] (lines 18-53). *)
Definition app_layout (min_payload max_payload : pyfloat) : result component :=
  marks <-? slider_marks max_payload ;;
  Ok (Div
    [ H1 "SpaceX Launch Records Dashboard"
         [("textAlign", SStr "center"); ("color", SStr "#503D36"); ("font-size", SInt 40)];
      Dropdown "site-dropdown" site_options "ALL" [("width", SStr "50%")];
      Br;
      Div [Graph "success-pie-chart"];
      Br;
      P "Payload range (Kg):";
      RangeSlider "payload-slider" min_payload max_payload 1000 marks
                  [min_payload; max_payload];
      Div [Graph "success-payload-scatter-chart"] ]).

(** What the module has built once its top level has run. *)
Record app_start := {
  spacex_df : list launch_record;
  max_payload : pyfloat;
  min_payload : pyfloat;
  layout : component
}.

(** Lines 10-53 in order: the table (the result of [pd.read_csv]), its
    payload maximum and minimum, then the layout. *)
Definition startup (csv_table : list launch_record) : result app_start :=
  let spacex_df := csv_table in
  let max_payload := series_max (payload_column spacex_df) in
  let min_payload := series_min (payload_column spacex_df) in
  layout <-? app_layout min_payload max_payload ;;
  Ok {| spacex_df := spacex_df; max_payload := max_payload;
        min_payload := min_payload; layout := layout |}.

(** ** Lemmas *)

Lemma py_int_pos_le (q : Q) (n : Z) :
  py_int (PyNum q) = Ok n -> (0 < n)%Z -> (inject_Z n <= q)%Q.
Proof.
  intros Hn Hpos. destruct (Qlt_le_dec q 0) as [Hneg|Hnn].
  - exfalso. destruct q as [a d]. unfold Qlt in Hneg; simpl in *.
    injection Hn as <-. rewrite <- (Z.opp_involutive a), Z.quot_opp_l in Hpos by lia.
    pose proof (Z.quot_pos (- a) (Zpos d) ltac:(lia) ltac:(lia)). lia.
  - destruct (py_int_nonneg q Hnn) as (i & Hi & _ & Hle & _).
    rewrite Hn in Hi. by injection Hi as ->.
Qed.

Lemma slider_marks_ok mx marks :
  slider_marks mx = Ok marks ->
  exists q top steps, mx = PyNum q /\ py_int (PyNum q) = Ok top /\
    py_range 0 top 5000 = Ok steps /\ marks = map (fun i => (i, py_str_int i)) steps.
Proof.
  unfold slider_marks. destruct mx as [q|]; [|discriminate]. simpl.
  intros H. exists q, (Z.quot (Qnum q) (Zpos (Qden q))).
  unfold py_range in *. simpl in *. eexists. repeat split. by injection H as <-.
Qed.

Lemma app_layout_ok mn mx l :
  app_layout mn mx = Ok l ->
  exists marks, slider_marks mx = Ok marks /\
  l = Div [ H1 "SpaceX Launch Records Dashboard"
              [("textAlign", SStr "center"); ("color", SStr "#503D36"); ("font-size", SInt 40)];
            Dropdown "site-dropdown" site_options "ALL" [("width", SStr "50%")];
            Br; Div [Graph "success-pie-chart"]; Br; P "Payload range (Kg):";
            RangeSlider "payload-slider" mn mx 1000 marks [mn; mx];
            Div [Graph "success-payload-scatter-chart"] ].
Proof.
  unfold app_layout. destruct (slider_marks mx) as [marks|e]; [|discriminate].
  simpl. intros [= <-]. eauto.
Qed.

(** The only exception the start-up raises is [int(NaN)]'s. *)
Lemma startup_raise_inv df e :
  startup df = Raise e -> e = ValueError "cannot convert float NaN to integer".
Proof.
  unfold startup, app_layout, slider_marks.
  destruct (series_max (payload_column df)); simpl; [|congruence]. discriminate.
Qed.

Lemma series_max_all_nan df :
  Forall (fun r => payload_mass r = PyNaN) df -> series_max (payload_column df) = PyNaN.
Proof.
  intros Hall. destruct (series_max_cases (payload_column df)) as [[-> _]|(m & _ & Hm)]; [done|].
  exfalso. unfold payload_column in Hm.
  apply list_elem_of_fmap in Hm as (r & Hr & Hin). rewrite Forall_forall in Hall.
  rewrite Hall in Hr by done. discriminate.
Qed.

(** A start-up that succeeds keeps the table and the payload column's
    bounds, which are numbers with [min_payload <= max_payload]. *)
Lemma startup_ok_bounds df st :
  startup df = Ok st ->
  spacex_df st = df /\ min_payload st = series_min (payload_column df) /\
  max_payload st = series_max (payload_column df) /\
  py_le (min_payload st) (max_payload st) = true.
Proof.
  unfold startup.
  destruct (app_layout (series_min (payload_column df)) (series_max (payload_column df)))
    as [l|e] eqn:Hl; [|discriminate].
  simpl. intros [= <-]. simpl. do 3 (split; [done|]).
  apply app_layout_ok in Hl as (marks & Hm & _). apply slider_marks_ok in Hm as (q & _ & _ & Hq & _).
  destruct (series_max_cases (payload_column df)) as [[Hn _]|(m & Hm & Hin)]; [congruence|].
  apply list_elem_of_fmap in Hin as (r & Hr & Hrin).
  destruct (column_bounds df r m Hrin (eq_sym Hr)) as [Hlo _]. by rewrite Hm.
Qed.

(** One numeric payload is enough for the start-up to succeed. *)
Lemma startup_ok_of_numeric df r q :
  r ∈ df -> payload_mass r = PyNum q -> exists st, startup df = Ok st.
Proof.
  intros Hr Hq. destruct (column_bounds df r q Hr Hq) as [_ Hhi]. unfold startup.
  destruct (series_max (payload_column df)) as [m|]; [|by rewrite py_le_nan_r in Hhi].
  by eexists.
Qed.

(** Every mark's key is below [max_payload], a number. *)
Lemma slider_marks_key_lt (mx : pyfloat) (marks : list (Z * string)) (i : Z) (lbl : string) :
  slider_marks mx = Ok marks -> (i, lbl) ∈ marks -> exists q, mx = PyNum q /\ (inject_Z i < q)%Q.
Proof.
  intros (q & top & steps & -> & Htop & Hsteps & ->)%slider_marks_ok Hin.
  apply list_elem_of_fmap in Hin as (j & [= -> _] & Hj).
  apply (elem_of_py_range 0 top 5000 steps ltac:(lia) Hsteps) in Hj as [[H0 Hlt] _].
  exists q. split; [done|].
  apply Qlt_le_trans with (inject_Z top); [rewrite <- Zlt_Qlt; lia|].
  apply py_int_pos_le; [done|lia].
Qed.

(** ** Properties of the start-up *)

(** C13: every mark of the payload slider is a non-negative multiple of
    5000 strictly below [max_payload], which is then a number. *)
Theorem slider_marks_bounds mx marks :
  slider_marks mx = Ok marks ->
  forall i lbl, (i, lbl) ∈ marks ->
  (0 <= i)%Z /\ (i mod 5000 = 0)%Z /\ exists q, mx = PyNum q /\ (inject_Z i < q)%Q.
Proof.
  intros Hm i lbl Hin.
  destruct (slider_marks_key_lt mx marks i lbl Hm Hin) as (q & -> & Hlt).
  apply slider_marks_ok in Hm as (q' & top & steps & [= <-] & Htop & Hsteps & ->).
  apply list_elem_of_fmap in Hin as (j & [= -> _] & Hj).
  apply (elem_of_py_range 0 top 5000 steps ltac:(lia) Hsteps) in Hj as [[H0 _] (k & Hk & ->)].
  split; [done|split; [rewrite Z.mul_comm, Z.add_0_l; apply Z.mod_mul; lia|]].
  by exists q.
Qed.

(** C19: conversely every non-negative multiple of 5000 below
    [int(max_payload)] has its mark, labelled with its decimal text, and
    there are [ceil(int(max_payload) / 5000)] marks (none when
    [int(max_payload) <= 0]). [range] excludes its stop, so a maximum of
    exactly 10000 gets no mark at 10000. *)
Theorem slider_marks_complete mx marks top :
  slider_marks mx = Ok marks -> py_int mx = Ok top ->
  (forall i, (0 <= i < top)%Z -> (i mod 5000 = 0)%Z -> (i, py_str_int i) ∈ marks) /\
  Z.of_nat (length marks) = Z.max 0 ((top + 4999) / 5000).
Proof.
  intros (q & top' & steps & -> & Htop & Hsteps & ->)%slider_marks_ok Htop2.
  rewrite Htop in Htop2. injection Htop2 as <-. split.
  - intros i Hi Hmod. apply (list_elem_of_fmap_2 (fun i => (i, py_str_int i))).
    apply (elem_of_py_range 0 top' 5000 steps ltac:(lia) Hsteps). split; [lia|].
    exists (i / 5000)%Z. split; [apply Z.div_pos; lia|].
    pose proof (Z.div_mod i 5000 ltac:(lia)). lia.
  - unfold py_range in Hsteps. simpl in Hsteps. injection Hsteps as <-.
    rewrite !length_map, length_seq. unfold range_len. simpl.
    rewrite Z2Nat.id by lia. f_equal. f_equal. lia.
Qed.

(** C9: if no payload of the table is a number (in particular for an
    empty table) the module fails at import: [int(max_payload)] raises. *)
Theorem startup_fails_without_payload df :
  Forall (fun r => payload_mass r = PyNaN) df ->
  startup df = Raise (ValueError "cannot convert float NaN to integer").
Proof.
  intros Hall. unfold startup, app_layout, slider_marks. by rewrite series_max_all_nan.
Qed.

(** C12: as soon as one payload is a number the start-up succeeds; it keeps
    the table, its slider bounds satisfy [min_payload <= max_payload], and
    every numeric payload lies between them. *)
Theorem startup_succeeds df :
  (exists r, r ∈ df /\ payload_mass r <> PyNaN) ->
  exists st, startup df = Ok st /\ spacex_df st = df /\
  py_le (min_payload st) (max_payload st) = true /\
  (forall r q, r ∈ df -> payload_mass r = PyNum q ->
       py_le (min_payload st) (PyNum q) = true /\ py_le (PyNum q) (max_payload st) = true).
Proof.
  intros (r & Hr & Hnum). destruct (payload_mass r) as [q|] eqn:Hq; [|done].
  destruct (startup_ok_of_numeric df r q Hr Hq) as [st Hst].
  destruct (startup_ok_bounds df st Hst) as (Hdf & Hmin & Hmax & Hle).
  exists st. do 3 (split; [done|]).
  intros r' q' Hr' Hq'. rewrite Hmin, Hmax. by apply column_bounds with r'.
Qed.

(** ** Witnesses *)

Lemma slider_marks_bounds_witness :
  slider_marks (PyNum 15600) = Ok [(0, "0"); (5000, "5000"); (10000, "10000"); (15000, "15000")]%Z /\
  (0 <= 5000)%Z /\ (5000 mod 5000 = 0)%Z /\
  exists q, PyNum 15600 = PyNum q /\ (inject_Z 5000 < q)%Q.
Proof.
  assert (H : slider_marks (PyNum 15600) =
              Ok [(0, "0"); (5000, "5000"); (10000, "10000"); (15000, "15000")]%Z)
    by (vm_compute; reflexivity).
  split; [exact H|]. apply (slider_marks_bounds _ _ H 5000 "5000"). right. left.
Defined.

Lemma startup_fails_without_payload_witness :
  Forall (fun r => payload_mass r = PyNaN) [] /\
  startup [] = Raise (ValueError "cannot convert float NaN to integer").
Proof.
  assert (H : Forall (fun r => payload_mass r = PyNaN) []) by constructor.
  split; [exact H|]. apply (startup_fails_without_payload [] H).
Defined.

Lemma startup_succeeds_witness :
  let r := {| launch_site := "A"; payload_mass := PyNum 500; class := 1 |} in
  (exists r', r' ∈ [r] /\ payload_mass r' <> PyNaN) /\
  exists st, startup [r] = Ok st /\ spacex_df st = [r] /\
  py_le (min_payload st) (max_payload st) = true /\
  (forall r' q, r' ∈ [r] -> payload_mass r' = PyNum q ->
       py_le (min_payload st) (PyNum q) = true /\ py_le (PyNum q) (max_payload st) = true).
Proof.
  intros r.
  assert (H : exists r', r' ∈ [r] /\ payload_mass r' <> PyNaN)
    by (exists r; split; [left|discriminate]).
  split; [exact H|]. apply (startup_succeeds [r] H).
Defined.

Lemma slider_marks_complete_witness :
  slider_marks (PyNum 10000) = Ok [(0, "0"); (5000, "5000")]%Z /\
  py_int (PyNum 10000) = Ok 10000%Z /\
  (forall i, (0 <= i < 10000)%Z -> (i mod 5000 = 0)%Z ->
     (i, py_str_int i) ∈ [(0, "0"); (5000, "5000")]%Z) /\
  Z.of_nat (length [(0, "0"); (5000, "5000")]%Z) = Z.max 0 ((10000 + 4999) / 5000).
Proof.
  assert (H1 : slider_marks (PyNum 10000) = Ok [(0, "0"); (5000, "5000")]%Z)
    by (vm_compute; reflexivity).
  assert (H2 : py_int (PyNum 10000) = Ok 10000%Z) by (vm_compute; reflexivity).
  split; [exact H1|split; [exact H2|]]. apply (slider_marks_complete _ _ _ H1 H2).
Defined.
