(* ===== verification/DashRuntime.v ===== *)
(** The Dash runtime the program relies on (the [@app.callback] decorators
    of src/spacex_dash_app.py, lines 56-59 and 75-79, and what Dash does
    with them). Dash is a library, so this is a model of its documented
    behaviour, generic in the callbacks: a callback declares its input
    properties and its output property; on page load every callback fires;
    when the user changes an input property, the callbacks that read it fire
    in registration order; a callback's value is stored in its output, and
    an exception leaves the output unchanged and is reported.

    The Section [Runtime] states, as hypotheses, what a well-formed set of
    callbacks guarantees (distinct outputs, no output read as an input,
    users only set properties that are not outputs) and proves, by
    induction over the step relation, that every reachable state is
    consistent: each output holds the value its callback computes from the
    current inputs, whenever that computation succeeds.

    Dash also propagates a change through chained callbacks; [propagate]
    models that in rounds with fuel, and [dispatch_one_round] shows that it
    is [set_input], one round, when no output is read as an input, as in
    this program: so the step relation, built on [set_input], is what Dash
    does with the program's callbacks. *)

From S2P Require Import Prelude.

(** A component property, [(component_id, property)]. *)
Notation prop_id := (string * string)%type.

(** A registered callback: [Output(...)], its [Input(...)]s and the function. *)
Record callback (V : Type) := {
  cb_output : prop_id;
  cb_inputs : list prop_id;
  cb_fn : list V -> result V
}.
Arguments cb_output {V} _.
Arguments cb_inputs {V} _.
Arguments cb_fn {V} c _.

(** The browser-side state: the value of every property that has one, and
    the exceptions reported so far (shown by the debug overlay). *)
Record dash_state (V : Type) := {
  store : gmap prop_id V;
  errors : list exn
}.
Arguments store {V} _.
Arguments errors {V} _.

Lemma store_mk {V} (st : gmap prop_id V) (e : list exn) :
  store {| store := st; errors := e |} = st.
Proof. done. Qed.

Lemma errors_mk {V} (st : gmap prop_id V) (e : list exn) :
  errors {| store := st; errors := e |} = e.
Proof. done. Qed.

#[export] Hint Rewrite @store_mk @errors_mk : dash_rw.

Section Runtime.
Context {V : Type}.
(** What a callback receives for a property that has no value ([None]). *)
Variable v_none : V.
(** The callbacks, in registration order. *)
Variable callbacks : list (callback V).
(** The changes the user interface can make to a property. *)
Variable user_event : prop_id -> V -> Prop.

(** The arguments of a callback: the current values of its inputs. *)
Definition cb_args (st : gmap prop_id V) (cb : callback V) : list V :=
  map (fun p => default v_none (st !! p)) (cb_inputs cb).

(** Running one callback. *)
Definition fire (s : dash_state V) (cb : callback V) : dash_state V :=
  match cb_fn cb (cb_args (store s) cb) with
  | Ok v => {| store := <[cb_output cb := v]> (store s); errors := errors s |}
  | Raise e => {| store := store s; errors := errors s ++ [e] |}
  end.

(** Running callbacks one after the other. *)
Definition fire_all (s : dash_state V) (cbs : list (callback V)) : dash_state V :=
  fold_left fire cbs s.

(** Page load: the layout's property values, then every callback. *)
Definition initial_state (layout_props : gmap prop_id V) : dash_state V :=
  fire_all {| store := layout_props; errors := [] |} callbacks.

(** The callbacks an input property triggers, in registration order. *)
Definition triggered (p : prop_id) : list (callback V) :=
  List.filter (fun cb => bool_decide (p ∈ cb_inputs cb)) callbacks.

(** The user sets property [p] to [v]. *)
Definition set_input (s : dash_state V) (p : prop_id) (v : V) : dash_state V :=
  fire_all {| store := <[p := v]> (store s); errors := errors s |} (triggered p).

(** One user interaction. *)
Inductive step : dash_state V -> dash_state V -> Prop :=
  | step_input s p v : user_event p v -> step s (set_input s p v).

(** The states reachable from page load. *)
Inductive reachable (layout_props : gmap prop_id V) : dash_state V -> Prop :=
  | reach_init : reachable layout_props (initial_state layout_props)
  | reach_step s s' : reachable layout_props s -> step s s' -> reachable layout_props s'.

(** A callback's output holds what it computes from the current inputs,
    when that computation succeeds. *)
Definition consistent_for (s : dash_state V) (cb : callback V) : Prop :=
  forall v, cb_fn cb (cb_args (store s) cb) = Ok v -> store s !! cb_output cb = Some v.

Definition consistent (s : dash_state V) : Prop :=
  forall cb, cb ∈ callbacks -> consistent_for s cb.

(** ** Chained callbacks

    An output of one callback may be the input of another; Dash then runs
    the callbacks in rounds: the callbacks that read a changed property run,
    the outputs they update are the properties changed for the next round,
    and propagation stops when no callback reads a changed property. A
    callback that raises leaves its output unchanged, so it triggers
    nothing. [propagate] runs at most [fuel] rounds and answers [None] when
    more would be needed. *)

(** The callbacks that read one of the properties of [changed], in
    registration order. *)
Definition triggered_by (changed : list prop_id) : list (callback V) :=
  List.filter (fun cb => existsb (fun p => bool_decide (p ∈ cb_inputs cb)) changed) callbacks.

(** Running one callback, recording its output as changed when it updates it. *)
Definition fire_track (sc : dash_state V * list prop_id) (cb : callback V)
    : dash_state V * list prop_id :=
  match cb_fn cb (cb_args (store sc.1) cb) with
  | Ok v => ({| store := <[cb_output cb := v]> (store sc.1); errors := errors sc.1 |},
             sc.2 ++ [cb_output cb])
  | Raise e => ({| store := store sc.1; errors := errors sc.1 ++ [e] |}, sc.2)
  end.

(** One round: the triggered callbacks run one after the other. *)
Definition fire_round (s : dash_state V) (cbs : list (callback V)) : dash_state V * list prop_id :=
  fold_left fire_track cbs (s, []).

Fixpoint propagate (fuel : nat) (s : dash_state V) (changed : list prop_id)
    : option (dash_state V) :=
  match triggered_by changed with
  | [] => Some s
  | cbs =>
      match fuel with
      | O => None
      | S fuel' => let r := fire_round s cbs in propagate fuel' r.1 r.2
      end
  end.

(** The user sets property [p] to [v] and the change propagates. *)
Definition dispatch (fuel : nat) (s : dash_state V) (p : prop_id) (v : V) : option (dash_state V) :=
  propagate fuel {| store := <[p := v]> (store s); errors := errors s |} [p].

(** Running callbacks leaves every property that is none of their outputs. *)
Lemma fire_all_lookup_other cbs s p :
  (forall cb, cb ∈ cbs -> cb_output cb <> p) ->
  store (fire_all s cbs) !! p = store s !! p.
Proof using v_none.
  revert s. induction cbs as [|c cbs IH]; intros s Hp; simpl; [done|].
  rewrite IH by (intros cb Hcb; apply Hp, elem_of_cons; by right). unfold fire.
  destruct (cb_fn c (cb_args (store s) c)); simpl; [|done].
  apply lookup_insert_ne, Hp, elem_of_cons. by left.
Qed.

Lemma set_input_lookup_other s p v q :
  q <> p -> (forall cb, cb ∈ callbacks -> cb_output cb <> q) ->
  store (set_input s p v) !! q = store s !! q.
Proof using v_none.
  intros Hne Hq. unfold set_input. rewrite fire_all_lookup_other; simpl.
  - by apply lookup_insert_ne.
  - intros cb Hcb. apply Hq. unfold triggered in Hcb. by apply elem_of_filter_bool in Hcb as [? _].
Qed.

Lemma set_input_lookup_self s p v :
  (forall cb, cb ∈ callbacks -> cb_output cb <> p) -> store (set_input s p v) !! p = Some v.
Proof using v_none.
  intros Hp. unfold set_input. rewrite fire_all_lookup_other; simpl.
  - apply lookup_insert_eq.
  - intros cb Hcb. apply Hp. unfold triggered in Hcb. by apply elem_of_filter_bool in Hcb as [? _].
Qed.

(** A callback's arguments depend only on the values of its inputs. *)
Lemma cb_args_ext st1 st2 cb :
  (forall i, i ∈ cb_inputs cb -> st1 !! i = st2 !! i) -> cb_args st1 cb = cb_args st2 cb.
Proof using.
  intros Hi. unfold cb_args. apply map_ext_in. intros i Hin%list_elem_of_In. by rewrite Hi.
Qed.

Lemma triggered_subset p : triggered p ⊆ callbacks.
Proof using. intros cb. unfold triggered. by rewrite elem_of_filter_bool; intros [? _]. Qed.

(** A property of states that every callback of [cbs] preserves holds
    after running them. *)
Lemma fire_all_preserve (P : dash_state V -> Prop) cbs s :
  (forall cb s', cb ∈ cbs -> P s' -> P (fire s' cb)) -> P s -> P (fire_all s cbs).
Proof using.
  revert s. induction cbs as [|c cbs IH]; intros s Hfire Hs; simpl; [done|].
  apply IH; [intros cb s' Hcb; apply Hfire; by right|]. apply Hfire; [left|done].
Qed.

(** Callbacks that always raise leave every property as it was and each
    report one exception. *)
Lemma fire_all_raising cbs s :
  (forall cb args, cb ∈ cbs -> exists e, cb_fn cb args = Raise e) ->
  store (fire_all s cbs) = store s /\
  length (errors (fire_all s cbs)) = length (errors s) + length cbs.
Proof using.
  revert s. induction cbs as [|c cbs IH]; intros s Hr; [simpl; split; [done|lia]|].
  destruct (Hr c (cb_args (store s) c) ltac:(left)) as [e He].
  assert (Hf : fire s c = {| store := store s; errors := errors s ++ [e] |})
    by (unfold fire; by rewrite He).
  change (fire_all s (c :: cbs)) with (fire_all (fire s c) cbs).
  destruct (IH (fire s c)) as [Hst Hlen]; [intros cb args Hcb; apply Hr; by right|].
  split; [by rewrite Hst, Hf|]. rewrite Hlen, Hf. simpl. rewrite length_app. simpl. lia.
Qed.

(** *** Rounds of chained callbacks *)

Lemma elem_of_triggered_by changed cb :
  cb ∈ triggered_by changed <-> cb ∈ callbacks /\ exists p, p ∈ changed /\ p ∈ cb_inputs cb.
Proof using.
  unfold triggered_by. rewrite elem_of_filter_bool, existsb_exists.
  setoid_rewrite bool_decide_eq_true. setoid_rewrite list_elem_of_In. naive_solver.
Qed.

Lemma triggered_by_single p : triggered_by [p] = triggered p.
Proof using.
  unfold triggered_by, triggered. apply filter_ext_in. intros cb _. simpl.
  by rewrite orb_false_r.
Qed.

Lemma fire_round_fold cbs s ch :
  (fold_left fire_track cbs (s, ch)).1 = fire_all s cbs /\
  forall p, p ∈ (fold_left fire_track cbs (s, ch)).2 ->
    p ∈ ch \/ exists cb, cb ∈ cbs /\ p = cb_output cb.
Proof using.
  revert s ch. induction cbs as [|c cbs IH]; intros s ch; simpl; [split; [done|]; intros p Hp; by left|].
  assert (Hc : exists ch', fire_track (s, ch) c = (fire s c, ch') /\
                 forall p, p ∈ ch' -> p ∈ ch \/ p = cb_output c).
  { unfold fire_track, fire. simpl. destruct (cb_fn c (cb_args (store s) c)).
    - eexists. split; [done|]. intros p [Hp|Hp%list_elem_of_singleton]%elem_of_app; auto.
    - eexists. split; [done|]. auto. }
  destruct Hc as (ch' & -> & Hch'). destruct (IH (fire s c) ch') as [Hs Hp].
  split; [done|]. intros p [Hin|(cb & Hcb & ->)]%Hp.
  - destruct (Hch' p Hin) as [?| ->]; [by left|right; exists c; split; [left|done]].
  - right. exists cb. split; [by right|done].
Qed.

Lemma propagate_quiet fuel s changed :
  triggered_by changed = [] -> propagate fuel s changed = Some s.
Proof using. intros H. destruct fuel; simpl; by rewrite H. Qed.

(** ** Well-formed callbacks *)

Hypothesis outputs_distinct : NoDup (map cb_output callbacks).
Hypothesis outputs_not_inputs :
  forall cb cb', cb ∈ callbacks -> cb' ∈ callbacks -> cb_output cb ∉ cb_inputs cb'.
Hypothesis events_not_outputs :
  forall p v cb, user_event p v -> cb ∈ callbacks -> p <> cb_output cb.

Lemma cb_args_insert st p v cb :
  p ∉ cb_inputs cb -> cb_args (<[p := v]> st) cb = cb_args st cb.
Proof.
  intros Hp. unfold cb_args. apply map_ext_in. intros q Hq%list_elem_of_In.
  rewrite lookup_insert_ne; [done|]. intros ->. done.
Qed.

Lemma output_inj cb cb' :
  cb ∈ callbacks -> cb' ∈ callbacks -> cb_output cb = cb_output cb' -> cb = cb'.
Proof.
  intros Hcb Hcb' Heq. revert Hcb Hcb'. clear outputs_not_inputs events_not_outputs.
  induction callbacks as [|c cs IH]; intros Hcb Hcb'; [set_solver|].
  simpl in outputs_distinct. apply NoDup_cons in outputs_distinct as [Hc Hnd].
  apply elem_of_cons in Hcb as [->|Hcb], Hcb' as [->|Hcb']; [done| | |by apply IH].
  - exfalso. apply Hc. rewrite Heq. by apply list_elem_of_fmap_2.
  - exfalso. apply Hc. rewrite <- Heq. by apply list_elem_of_fmap_2.
Qed.

(** Firing a callback establishes its own consistency. *)
Lemma fire_self s cb : cb ∈ callbacks -> consistent_for (fire s cb) cb.
Proof.
  intros Hcb v. unfold fire.
  destruct (cb_fn cb (cb_args (store s) cb)) as [w|e] eqn:Hf; simpl.
  - rewrite cb_args_insert by (by apply outputs_not_inputs). rewrite Hf.
    intros [= <-]. apply lookup_insert_eq.
  - by rewrite Hf.
Qed.

(** Firing another callback preserves a callback's consistency. *)
Lemma fire_other s cb cb' :
  cb ∈ callbacks -> cb' ∈ callbacks -> cb_output cb' <> cb_output cb ->
  consistent_for s cb -> consistent_for (fire s cb') cb.
Proof.
  intros Hcb Hcb' Hne Hcons v. unfold fire.
  destruct (cb_fn cb' (cb_args (store s) cb')) as [w|e]; simpl; [|apply Hcons].
  rewrite cb_args_insert by (by apply outputs_not_inputs).
  intros Hv. rewrite lookup_insert_ne by done. by apply Hcons.
Qed.

Lemma fire_all_consistent cbs s :
  cbs ⊆ callbacks ->
  (forall cb, cb ∈ callbacks -> cb ∉ cbs -> consistent_for s cb) ->
  consistent (fire_all s cbs).
Proof.
  revert s. induction cbs as [|c cbs IH]; intros s Hsub Hout; simpl.
  { intros cb Hcb. apply Hout; set_solver. }
  apply IH; [set_solver|]. intros cb Hcb Hnin.
  destruct (decide (cb_output c = cb_output cb)) as [Heq|Hne].
  - assert (cb = c) as -> by (apply output_inj; set_solver).
    apply fire_self. set_solver.
  - apply fire_other; [done|set_solver|done|].
    apply Hout; [done|]. apply not_elem_of_cons. split; [|done]. by intros ->.
Qed.

Lemma initial_consistent layout_props : consistent (initial_state layout_props).
Proof. apply fire_all_consistent; [done|]. intros cb Hcb Hnin. by exfalso. Qed.

Lemma set_input_consistent s p v :
  user_event p v -> consistent s -> consistent (set_input s p v).
Proof.
  intros Hev Hcons. apply fire_all_consistent; [apply triggered_subset|].
  intros cb Hcb Hnin w. simpl.
  assert (Hp : p ∉ cb_inputs cb).
  { intros Hp. apply Hnin. unfold triggered. apply elem_of_filter_bool.
    split; [done|by apply bool_decide_eq_true]. }
  rewrite cb_args_insert by done. intros Hw.
  rewrite lookup_insert_ne; [by apply Hcons|].
  by eapply events_not_outputs.
Qed.
(** Every state reachable from page load is consistent. *)
Lemma reachable_consistent layout_props s :
  reachable layout_props s -> consistent s.
Proof.
  induction 1 as [|s s' _ IH Hstep]; [apply initial_consistent|].
  destruct Hstep as [s p v Hev]. by apply set_input_consistent.
Qed.

(** *** Chained dispatch of this shape of callbacks *)

Lemma triggered_by_nil changed :
  (forall cb p, cb ∈ callbacks -> p ∈ changed -> p ∉ cb_inputs cb) -> triggered_by changed = [].
Proof using.
  intros Hno. destruct (triggered_by changed) as [|c l] eqn:E; [done|]. exfalso.
  assert (Hc : c ∈ triggered_by changed) by (rewrite E; left).
  apply elem_of_triggered_by in Hc as (Hc & q & Hq & Hin). by apply (Hno c q Hc Hq).
Qed.

(** No output is an input, so a change propagates in one round, which runs
    the callbacks the changed property triggers: [dispatch] is [set_input]. *)
Lemma dispatch_one_round fuel s p v :
  dispatch (S fuel) s p v = Some (set_input s p v).
Proof using outputs_not_inputs.
  unfold dispatch, set_input. simpl. rewrite triggered_by_single.
  destruct (triggered p) as [|cb cbs] eqn:Ht; [done|].
  destruct (fire_round_fold (cb :: cbs) {| store := <[p:=v]> (store s); errors := errors s |} [])
    as [Hst Hch].
  unfold fire_round. rewrite propagate_quiet, Hst; [done|].
  apply triggered_by_nil. intros cb' q Hcb' [Hq|(c & Hc & ->)]%Hch; [by apply not_elem_of_nil in Hq|].
  rewrite <- Ht in Hc. apply elem_of_filter_bool in Hc as [Hc _].
  by apply outputs_not_inputs.
Qed.

End Runtime.
