(* ===== verification/App.v ===== *)
(** The running application: the two callbacks of src/spacex_dash_app.py
    registered with the Dash runtime (the decorators of lines 56-59 and
    75-79), the initial property values the layout gives the runtime, and
    the events the two controls can emit (a dropdown option, a cleared
    dropdown, any pair of floats for the slider, a superset of what the
    slider sends: [Slider] characterises those). The theorems show which
    charts the page shows in every state the user can reach, that the
    wiring is well-formed, and that two interactions on different controls
    commute. *)

From S2P Require Import Prelude PyFloat Frame Figures Callbacks Layout DashRuntime.

(** Property values as Dash hands them to Python. *)
Inductive dash_value :=
  | VNone
  | VStr (s : string)
  | VNums (xs : list pyfloat)
  | VPie (fig : pie_figure)
  | VScatter (fig : scatter_figure).

(** The dropdown's value as the callbacks' [selected_site]: a string or
    [None]. The dropdown never holds another kind of value
    ([app_inv] and [app_reachable_inv] below). *)
Definition as_site (v : dash_value) : option string :=
  match v with
  | VStr s => Some s
  | _ => None
  end.

Definition site_prop : prop_id := ("site-dropdown", "value").
Definition slider_prop : prop_id := ("payload-slider", "value").
Definition pie_prop : prop_id := ("success-pie-chart", "figure").
Definition scatter_prop : prop_id := ("success-payload-scatter-chart", "figure").

(** [@app.callback(Output('success-pie-chart', 'figure'),
    Input('site-dropdown', 'value'))] on a function of [selected_site]. *)
Definition pie_callback_with (pie : option string -> result pie_figure) : callback dash_value :=
  {| cb_output := pie_prop;
     cb_inputs := [site_prop];
     cb_fn := fun args =>
       match args with
       | [site] => result_map VPie (pie (as_site site))
       | _ => Raise (TypeError "update_pie_chart() takes 1 positional argument")
       end |}.

(** [@app.callback(Output('success-payload-scatter-chart', 'figure'),
    [Input('site-dropdown', 'value'), Input('payload-slider', 'value')])]
    on a function of [selected_site] and [payload_range]; unpacking [None]
    raises a [TypeError]. *)
Definition scatter_callback_with (scatter : option string -> list pyfloat -> result scatter_figure)
    : callback dash_value :=
  {| cb_output := scatter_prop;
     cb_inputs := [site_prop; slider_prop];
     cb_fn := fun args =>
       match args with
       | [site; VNums range] => result_map VScatter (scatter (as_site site) range)
       | [_; VNone] => Raise (TypeError "cannot unpack non-iterable NoneType object")
       | [_; _] => Raise (TypeError "cannot unpack the slider value")
       | _ => Raise (TypeError "update_scatter_chart() takes 2 positional arguments")
       end |}.

(** The two decorated functions of the program, over the loaded table. *)
Definition pie_callback (df : list launch_record) : callback dash_value :=
  pie_callback_with (fun site => Ok (update_pie_chart df site)).

Definition scatter_callback (df : list launch_record) : callback dash_value :=
  scatter_callback_with (update_scatter_chart df).

(** The callbacks in registration order. *)
Definition app_callbacks (df : list launch_record) : list (callback dash_value) :=
  [pie_callback df; scatter_callback df].

(** The [value] properties the layout sets, in document order. *)
Fixpoint layout_values (c : component) : list (prop_id * dash_value) :=
  match c with
  | Dropdown id _ v _ => [((id, "value"), VStr v)]
  | RangeSlider id _ _ _ _ v => [((id, "value"), VNums v)]
  | Div cs => (fix go (cs : list component) : list (prop_id * dash_value) :=
                 match cs with
                 | [] => []
                 | c :: cs' => layout_values c ++ go cs'
                 end) cs
  | H1 _ _ | Br | Graph _ | P _ => []
  end.

(** The store the page starts with. *)
Definition layout_store (c : component) : gmap prop_id dash_value :=
  list_to_map (layout_values c).

(** What the two controls can emit once the app has started: an option of
    the dropdown, [None] when the user clears it ([clearable] defaults to
    true), or any pair of floats for the slider. The pair is neither
    required to be ordered nor to lie within the slider's bounds: this
    over-approximates the slider (the values it really sends are
    characterised in [Slider]), so the theorems over reachable states hold
    for every table, whatever the slider's rounding does. *)
Inductive app_event (st : app_start) : prop_id -> dash_value -> Prop :=
  | ev_site o : o ∈ site_options -> app_event st site_prop (VStr (opt_value o))
  | ev_clear : app_event st site_prop VNone
  | ev_slider lo hi : app_event st slider_prop (VNums [lo; hi]).

(** The page after load, and the states the user can reach from it. *)
Definition app_initial (st : app_start) : dash_state dash_value :=
  initial_state VNone (app_callbacks (spacex_df st)) (layout_store (layout st)).

Definition app_reachable (st : app_start) (s : dash_state dash_value) : Prop :=
  reachable VNone (app_callbacks (spacex_df st)) (app_event st) (layout_store (layout st)) s.

(** Any number of user interactions, from any state. *)
Definition app_steps (st : app_start) : relation (dash_state dash_value) :=
  rtc (step VNone (app_callbacks (spacex_df st)) (app_event st)).

(** ** The registered callbacks are well-formed *)

Lemma elem_of_app_callbacks (df : list launch_record) (cb : callback dash_value) :
  cb ∈ app_callbacks df <-> cb = pie_callback df \/ cb = scatter_callback df.
Proof.
  unfold app_callbacks. rewrite elem_of_cons, list_elem_of_singleton. done.
Qed.

Lemma app_outputs_distinct (df : list launch_record) : NoDup (map cb_output (app_callbacks df)).
Proof. simpl. decide_by_eval. Qed.

Lemma app_outputs_not_inputs (df : list launch_record) (cb cb' : callback dash_value) :
  cb ∈ app_callbacks df -> cb' ∈ app_callbacks df -> cb_output cb ∉ cb_inputs cb'.
Proof.
  rewrite !elem_of_app_callbacks.
  intros [-> | ->] [-> | ->]; simpl; decide_by_eval.
Qed.

Lemma app_events_not_outputs (st : app_start) (p : prop_id) (v : dash_value) (cb : callback dash_value) :
  app_event st p v -> cb ∈ app_callbacks (spacex_df st) -> p <> cb_output cb.
Proof.
  rewrite elem_of_app_callbacks.
  intros Hev [-> | ->]; destruct Hev; simpl; decide_by_eval.
Qed.

(** The callbacks never write a control's value. *)
Lemma app_outputs_not_controls (df : list launch_record) (cb : callback dash_value) :
  cb ∈ app_callbacks df -> cb_output cb <> slider_prop /\ cb_output cb <> site_prop.
Proof. intros [-> | ->]%elem_of_app_callbacks; simpl; split; decide_by_eval. Qed.

(** ** The shape of the control values *)

(** The slider holds a pair, the dropdown a string or [None], and no
    callback has raised. *)
Definition app_inv (s : dash_state dash_value) : Prop :=
  (exists lo hi, store s !! slider_prop = Some (VNums [lo; hi])) /\
  (store s !! site_prop = Some VNone \/ exists str, store s !! site_prop = Some (VStr str)) /\
  errors s = [].

Lemma app_callback_ok (df : list launch_record) (cb : callback dash_value) (st : gmap prop_id dash_value) (lo hi : pyfloat) :
  cb ∈ app_callbacks df -> st !! slider_prop = Some (VNums [lo; hi]) ->
  exists v, cb_fn cb (cb_args VNone st cb) = Ok v.
Proof.
  rewrite elem_of_app_callbacks. intros [-> | ->] Hsl; [by eexists|].
  unfold cb_args. cbn -[update_scatter_chart]. rewrite Hsl. cbn -[update_scatter_chart].
  rewrite update_scatter_chart_eq. by eexists.
Qed.

Lemma fire_app_inv (df : list launch_record) (cb : callback dash_value) (s : dash_state dash_value) :
  cb ∈ app_callbacks df -> app_inv s -> app_inv (fire VNone s cb).
Proof.
  intros Hcb ((lo & hi & Hsl) & Hsite & Herr).
  destruct (app_callback_ok df cb (store s) lo hi Hcb Hsl) as [v Hv].
  unfold fire. rewrite Hv. unfold app_inv. rewrite store_mk, errors_mk.
  destruct (app_outputs_not_controls df cb Hcb) as [Ho1 Ho2]. split; [|split; [|done]].
  - exists lo, hi. by rewrite lookup_insert_ne.
  - by rewrite lookup_insert_ne.
Qed.

Lemma fire_all_app_inv (df : list launch_record) (cbs : list (callback dash_value)) (s : dash_state dash_value) :
  cbs ⊆ app_callbacks df -> app_inv s -> app_inv (fire_all VNone s cbs).
Proof.
  intros Hsub. apply fire_all_preserve. intros cb s' Hcb. apply (fire_app_inv df), Hsub, Hcb.
Qed.

Lemma layout_store_start (df : list launch_record) (st : app_start) :
  startup df = Ok st ->
  spacex_df st = df /\
  layout_store (layout st) !! site_prop = Some (VStr "ALL") /\
  layout_store (layout st) !! slider_prop =
    Some (VNums [series_min (payload_column df); series_max (payload_column df)]).
Proof.
  unfold startup.
  destruct (app_layout (series_min (payload_column df)) (series_max (payload_column df)))
    as [l|e] eqn:Hl; [|discriminate].
  simpl. intros [= <-]. simpl.
  apply app_layout_ok in Hl as (marks & _ & ->). split; [done|]. by split.
Qed.

Lemma app_reachable_inv (df : list launch_record) (st : app_start) (s : dash_state dash_value) :
  startup df = Ok st -> app_reachable st s -> app_inv s.
Proof.
  intros Hst. induction 1 as [|s s' _ IH Hstep].
  - destruct (layout_store_start df st Hst) as (Hdf & Hsite & Hsl).
    apply (fire_all_app_inv (spacex_df st)); [done|].
    split; [by eexists _, _|split; [right; by eexists|done]].
  - destruct Hstep as [s p v Hev]. unfold set_input.
    apply (fire_all_app_inv (spacex_df st)); [apply triggered_subset|].
    destruct IH as ((lo & hi & Hsl) & Hsite & Herr). unfold app_inv. rewrite store_mk, errors_mk.
    destruct Hev as [o Ho| |lo' hi']; (split; [|split]); try done.
    + exists lo, hi. by rewrite lookup_insert_ne.
    + right. exists (opt_value o). by rewrite lookup_insert_eq.
    + exists lo, hi. by rewrite lookup_insert_ne.
    + left. by rewrite lookup_insert_eq.
    + exists lo', hi'. by rewrite lookup_insert_eq.
    + by rewrite lookup_insert_ne.
Qed.

(** ** The charts a consistent state shows *)

Lemma consistent_app_charts (df : list launch_record) (s : dash_state dash_value)
    (lo hi : pyfloat) :
  consistent VNone (app_callbacks df) s ->
  store s !! slider_prop = Some (VNums [lo; hi]) ->
  let site := as_site (default VNone (store s !! site_prop)) in
  store s !! pie_prop = Some (VPie (update_pie_chart df site)) /\
  exists fig, update_scatter_chart df site [lo; hi] = Ok fig /\
              store s !! scatter_prop = Some (VScatter fig).
Proof.
  intros Hcons Hsl site. split.
  - apply (Hcons (pie_callback df)); [by apply elem_of_app_callbacks; left|done].
  - eexists. split; [apply update_scatter_chart_eq|].
    apply (Hcons (scatter_callback df)); [by apply elem_of_app_callbacks; right|].
    unfold cb_args. cbn -[update_scatter_chart]. rewrite Hsl. cbn -[update_scatter_chart].
    by rewrite update_scatter_chart_eq.
Qed.

Lemma app_reachable_consistent (st : app_start) (s : dash_state dash_value) :
  app_reachable st s -> consistent VNone (app_callbacks (spacex_df st)) s.
Proof.
  apply reachable_consistent; [apply app_outputs_distinct|apply app_outputs_not_inputs|].
  apply app_events_not_outputs.
Qed.

(** ** The store the layout gives *)

Lemma layout_store_eq (df : list launch_record) (st : app_start) :
  startup df = Ok st ->
  layout_store (layout st) =
    <[site_prop := VStr "ALL"]> (<[slider_prop := VNums [min_payload st; max_payload st]]> ∅).
Proof.
  unfold startup.
  destruct (app_layout (series_min (payload_column df)) (series_max (payload_column df)))
    as [l|e] eqn:Hl; [|discriminate].
  simpl. intros [= <-]. simpl. by apply app_layout_ok in Hl as (marks & _ & ->).
Qed.

(** ** Interactions from any state *)

Lemma app_steps_reachable (st : app_start) (s s' : dash_state dash_value) :
  app_reachable st s -> app_steps st s s' -> app_reachable st s'.
Proof.
  intros Hs Hsteps. induction Hsteps as [|x y z Hxy _ IH]; [done|].
  apply IH. by eapply reach_step.
Qed.

(** Choosing an option and then moving the slider: two interactions after
    which the controls hold the chosen values. *)
Lemma app_select_steps (st : app_start) (s : dash_state dash_value)
    (o : dropdown_option) (lo hi : pyfloat) :
  o ∈ site_options ->
  exists s', app_steps st s s' /\
    store s' !! site_prop = Some (VStr (opt_value o)) /\
    store s' !! slider_prop = Some (VNums [lo; hi]).
Proof.
  intros Ho.
  pose (cbs := app_callbacks (spacex_df st)).
  assert (Hout : forall cb, cb ∈ cbs -> cb_output cb <> slider_prop /\ cb_output cb <> site_prop)
    by apply app_outputs_not_controls.
  pose (s1 := set_input VNone cbs s site_prop (VStr (opt_value o))).
  exists (set_input VNone cbs s1 slider_prop (VNums [lo; hi])). split; [|split].
  - eapply rtc_l; [apply step_input, ev_site, Ho|].
    eapply rtc_l; [apply step_input, (ev_slider st lo hi)|]. apply rtc_refl.
  - rewrite set_input_lookup_other; [|decide_by_eval|intros cb Hcb; apply Hout, Hcb].
    apply set_input_lookup_self. intros cb Hcb. apply Hout, Hcb.
  - apply set_input_lookup_self. intros cb Hcb. apply Hout, Hcb.
Qed.

(** Two reachable states whose stores agree on every property that is not
    a callback's output are equal: the charts are functions of the
    controls. *)
Lemma app_reachable_store_ext (df : list launch_record) (st : app_start)
    (s1 s2 : dash_state dash_value) :
  startup df = Ok st -> app_reachable st s1 -> app_reachable st s2 ->
  (forall k, (forall cb, cb ∈ app_callbacks (spacex_df st) -> cb_output cb <> k) ->
     store s1 !! k = store s2 !! k) ->
  s1 = s2.
Proof.
  intros Hst Hs1 Hs2 Hk.
  destruct (app_reachable_inv df st s1 Hst Hs1) as ((lo1 & hi1 & Hsl1) & _ & Herr1).
  destruct (app_reachable_inv df st s2 Hst Hs2) as ((lo2 & hi2 & Hsl2) & _ & Herr2).
  assert (Hout : forall cb, cb ∈ app_callbacks (spacex_df st) ->
            store s1 !! cb_output cb = store s2 !! cb_output cb).
  { intros cb Hcb.
    assert (Hargs : cb_args VNone (store s1) cb = cb_args VNone (store s2) cb).
    { apply cb_args_ext. intros i Hi. apply Hk. intros cb' Hcb' Heq. subst i.
      by apply (app_outputs_not_inputs (spacex_df st) cb' cb). }
    destruct (app_callback_ok _ cb (store s1) lo1 hi1 Hcb Hsl1) as [v Hv].
    rewrite (app_reachable_consistent st s1 Hs1 cb Hcb v Hv).
    rewrite Hargs in Hv. by rewrite (app_reachable_consistent st s2 Hs2 cb Hcb v Hv). }
  destruct s1 as [st1 e1], s2 as [st2 e2]. simpl in *. subst e1 e2. f_equal.
  apply map_eq. intros k.
  destruct (decide (k ∈ map cb_output (app_callbacks (spacex_df st))))
    as [(cb & -> & Hcb)%list_elem_of_fmap|Hno]; [by apply Hout|].
  apply Hk. intros cb Hcb <-. by apply Hno, list_elem_of_fmap_2.
Qed.

(** ** Properties of the running application *)

(** C3: in every state the user can reach from page load (dropdown
    choices, a cleared dropdown, slider moves), the pie chart shows
    [update_pie_chart] of the dropdown's current value, the slider holds a
    pair and the scatter chart shows [update_scatter_chart] of the current
    dropdown value and slider pair, and no callback has raised. *)
Theorem app_reachable_charts (df : list launch_record) (st : app_start)
    (s : dash_state dash_value) :
  startup df = Ok st -> app_reachable st s ->
  let site := as_site (default VNone (store s !! site_prop)) in
  store s !! pie_prop = Some (VPie (update_pie_chart df site)) /\
  (exists lo hi fig, store s !! slider_prop = Some (VNums [lo; hi]) /\
     update_scatter_chart df site [lo; hi] = Ok fig /\
     store s !! scatter_prop = Some (VScatter fig)) /\
  errors s = [].
Proof.
  intros Hst Hreach site.
  destruct (app_reachable_inv df st s Hst Hreach) as ((lo & hi & Hsl) & _ & Herr).
  destruct (layout_store_start df st Hst) as (Hdf & _ & _).
  pose proof (app_reachable_consistent st s Hreach) as Hcons. rewrite Hdf in Hcons.
  destruct (consistent_app_charts df s lo hi Hcons Hsl) as (Hpie & fig & Hfig & Hsc).
  split; [done|split; [|done]]. by exists lo, hi, fig.
Qed.

(** C14: the layout gives every component a distinct id (Dash refuses
    duplicates), both callbacks name only components of the layout, and
    every callback input has a value in the layout, so no callback starts
    from a missing input. *)
Theorem app_wiring (df : list launch_record) (st : app_start) :
  startup df = Ok st ->
  NoDup (component_ids (layout st)) /\
  (forall cb, cb ∈ app_callbacks df ->
     (cb_output cb).1 ∈ component_ids (layout st) /\
     forall p, p ∈ cb_inputs cb -> p.1 ∈ component_ids (layout st) /\
                                  is_Some (layout_store (layout st) !! p)).
Proof.
  intros Hst. destruct (layout_store_start df st Hst) as (_ & Hsite & Hsl).
  unfold startup in Hst.
  destruct (app_layout (series_min (payload_column df)) (series_max (payload_column df)))
    as [l|e] eqn:Hl; [|discriminate].
  simpl in Hst. injection Hst as <-. simpl in Hsite, Hsl |- *.
  apply app_layout_ok in Hl as (marks & _ & ->). simpl in Hsite, Hsl |- *.
  split; [decide_by_eval|]. intros cb [-> | ->]%elem_of_app_callbacks; simpl.
  - split; [decide_by_eval|]. intros p ->%list_elem_of_singleton.
    split; [decide_by_eval|]. rewrite Hsite. by eexists.
  - split; [decide_by_eval|]. intros p [-> | ->%list_elem_of_singleton]%elem_of_cons.
    + split; [decide_by_eval|]. rewrite Hsite. by eexists.
    + split; [decide_by_eval|]. rewrite Hsl. by eexists.
Qed.

(** C8: with every payload a number, the page as loaded shows the pie
    chart of all sites and the scatter chart of every record of the table
    (the slider starts at [min_payload, max_payload]), without error. *)
Theorem app_initial_charts (df : list launch_record) (st : app_start) :
  startup df = Ok st -> Forall (fun r => payload_mass r <> PyNaN) df ->
  store (app_initial st) !! pie_prop = Some (VPie (update_pie_chart df (Some "ALL"))) /\
  store (app_initial st) !! scatter_prop =
    Some (VScatter (update_layout (px_scatter df "Payload vs Launch Success for All Sites")
                      "Payload Mass (kg)" "Launch Success (1 = Success, 0 = Failure)")) /\
  errors (app_initial st) = [].
Proof.
  intros Hst Hnum. destruct (layout_store_start df st Hst) as (Hdf & Hsite & Hsl).
  assert (Hreach : app_reachable st (app_initial st)) by constructor.
  destruct (app_reachable_inv df st _ Hst Hreach) as (_ & _ & Herr).
  pose proof (app_reachable_consistent st _ Hreach) as Hcons. rewrite Hdf in Hcons.
  assert (Hother : forall p, p = site_prop \/ p = slider_prop ->
                   store (app_initial st) !! p = layout_store (layout st) !! p).
  { intros p Hp. unfold app_initial, initial_state.
    rewrite (fire_all_lookup_other VNone (app_callbacks (spacex_df st))); [done|].
    intros cb [-> | ->]%elem_of_app_callbacks; destruct Hp as [-> | ->]; decide_by_eval. }
  rewrite <- (Hother slider_prop) in Hsl by auto.
  rewrite <- (Hother site_prop) in Hsite by auto.
  destruct (consistent_app_charts df _ _ _ Hcons Hsl) as (Hpie & fig & Hfig & Hsc).
  rewrite Hsite in Hpie, Hfig. cbn [default as_site] in Hpie, Hfig.
  rewrite update_scatter_chart_eq, filter_full_range_all in Hfig by done.
  injection Hfig as <-. done.
Qed.

(** C28: two interactions on different controls commute: choosing a site
    and then moving the slider leaves the page, charts and reported errors
    included, exactly as moving the slider and then choosing the site. *)
Theorem app_events_commute (df : list launch_record) (st : app_start)
    (s : dash_state dash_value) (p q : prop_id) (v w : dash_value) :
  startup df = Ok st -> app_reachable st s -> app_event st p v -> app_event st q w -> p <> q ->
  set_input VNone (app_callbacks (spacex_df st)) (set_input VNone (app_callbacks (spacex_df st)) s p v) q w =
  set_input VNone (app_callbacks (spacex_df st)) (set_input VNone (app_callbacks (spacex_df st)) s q w) p v.
Proof.
  intros Hst Hs Hp Hq Hpq.
  pose proof (app_events_not_outputs st p v) as Hop. pose proof (app_events_not_outputs st q w) as Hoq.
  apply (app_reachable_store_ext df st).
  - done.
  - eapply reach_step; [|apply step_input, Hq]. eapply reach_step; [exact Hs|apply step_input, Hp].
  - eapply reach_step; [|apply step_input, Hp]. eapply reach_step; [exact Hs|apply step_input, Hq].
  - intros k Hk.
    assert (Hnp : forall cb, cb ∈ app_callbacks (spacex_df st) -> cb_output cb <> p)
      by (intros cb Hcb; symmetry; by apply Hop).
    assert (Hnq : forall cb, cb ∈ app_callbacks (spacex_df st) -> cb_output cb <> q)
      by (intros cb Hcb; symmetry; by apply Hoq).
    destruct (decide (k = p)) as [->|Hkp]; [|destruct (decide (k = q)) as [->|Hkq]].
    + rewrite set_input_lookup_other, !set_input_lookup_self by done. done.
    + rewrite set_input_lookup_self, (set_input_lookup_other _ _ _ _ _ q), set_input_lookup_self
        by (done || by intros ->). done.
    + by rewrite !set_input_lookup_other.
Qed.

(** ** Witnesses *)

Lemma app_reachable_charts_witness :
  exists st, startup spec_example_df = Ok st /\ app_reachable st (app_initial st) /\
  let s := app_initial st in
  let site := as_site (default VNone (store s !! site_prop)) in
  store s !! pie_prop = Some (VPie (update_pie_chart spec_example_df site)) /\
  (exists lo hi fig, store s !! slider_prop = Some (VNums [lo; hi]) /\
     update_scatter_chart spec_example_df site [lo; hi] = Ok fig /\
     store s !! scatter_prop = Some (VScatter fig)) /\
  errors s = [].
Proof.
  destruct (startup spec_example_df) as [st|e] eqn:Hst; [|discriminate].
  exists st. assert (Hreach : app_reachable st (app_initial st)) by constructor.
  split; [done|split; [exact Hreach|]].
  apply (app_reachable_charts spec_example_df st _ Hst Hreach).
Defined.

Lemma app_wiring_witness :
  exists st, startup spec_example_df = Ok st /\
  NoDup (component_ids (layout st)) /\
  (forall cb, cb ∈ app_callbacks spec_example_df ->
     (cb_output cb).1 ∈ component_ids (layout st) /\
     forall p, p ∈ cb_inputs cb -> p.1 ∈ component_ids (layout st) /\
                                  is_Some (layout_store (layout st) !! p)).
Proof.
  destruct (startup spec_example_df) as [st|e] eqn:Hst; [|discriminate].
  exists st. split; [done|]. apply (app_wiring spec_example_df st Hst).
Defined.

Lemma app_initial_charts_witness :
  exists st, startup spec_example_df = Ok st /\
  Forall (fun r => payload_mass r <> PyNaN) spec_example_df /\
  store (app_initial st) !! pie_prop =
    Some (VPie (update_pie_chart spec_example_df (Some "ALL"))) /\
  store (app_initial st) !! scatter_prop =
    Some (VScatter (update_layout (px_scatter spec_example_df "Payload vs Launch Success for All Sites")
                      "Payload Mass (kg)" "Launch Success (1 = Success, 0 = Failure)")) /\
  errors (app_initial st) = [].
Proof.
  destruct (startup spec_example_df) as [st|e] eqn:Hst; [|discriminate].
  assert (Hnum : Forall (fun r => payload_mass r <> PyNaN) spec_example_df).
  { vm_compute. repeat constructor; discriminate. }
  exists st. split; [done|split; [exact Hnum|]].
  apply (app_initial_charts spec_example_df st Hst Hnum).
Defined.

Lemma app_events_commute_witness :
  exists st, startup spec_example_df = Ok st /\ app_reachable st (app_initial st) /\
  app_event st site_prop (VStr "CCAFS LC-40") /\
  app_event st slider_prop (VNums [PyNum 1000; PyNum 2000]) /\ site_prop <> slider_prop /\
  set_input VNone (app_callbacks (spacex_df st))
    (set_input VNone (app_callbacks (spacex_df st)) (app_initial st) site_prop (VStr "CCAFS LC-40"))
    slider_prop (VNums [PyNum 1000; PyNum 2000]) =
  set_input VNone (app_callbacks (spacex_df st))
    (set_input VNone (app_callbacks (spacex_df st)) (app_initial st) slider_prop (VNums [PyNum 1000; PyNum 2000]))
    site_prop (VStr "CCAFS LC-40").
Proof.
  destruct (startup spec_example_df) as [st|e] eqn:Hst; [|discriminate].
  assert (Hreach : app_reachable st (app_initial st)) by constructor.
  assert (Hsite : app_event st site_prop (VStr "CCAFS LC-40")).
  { apply (ev_site st {| opt_label := "CCAFS LC-40"; opt_value := "CCAFS LC-40" |}).
    apply elem_of_cons; right. by apply elem_of_cons; left. }
  assert (Hslider : app_event st slider_prop (VNums [PyNum 1000; PyNum 2000])).
    by apply ev_slider.
  assert (Hne : site_prop <> slider_prop) by decide_by_eval.
  exists st. do 5 (split; [done|]).
  exact (app_events_commute spec_example_df st _ _ _ _ _ Hst Hreach Hsite Hslider Hne).
Defined.
