(* ===== verification/Slider.v ===== *)
(** The payload range slider as the browser runs it. [dcc.RangeSlider]
    (lines 42-49 of src/spacex_dash_app.py: [min=min_payload],
    [max=max_payload], [step=1000], the [marks] of line 47) is rendered by
    the rc-slider library (9.x, behind dash-core-components 1.x), which
    aligns every value a handle takes with [trimAlignValue]: the value is
    clamped to [[min, max]] ([ensureValueInRange]), replaced by the closest
    of the marks' keys and of the step grid point [min + step * k] with
    [k <= floor((max - min) / step)] ([getClosestPoint], the first closest
    on ties, marks first), and rounded to the step's precision,
    [toFixed(0)] for [step = 1000] ([ensureValuePrecision]). With
    [allowCross] (its default) the two handles' values are sorted.
    JavaScript's doubles are modelled by the rationals they denote.

    The theorems show that for an integral [min_payload] every value the
    slider emits lies in [[min_payload, max_payload]] and the values it can
    emit are exactly the in-range grid values and marks; that when
    [max_payload - min_payload] is not a multiple of 1000 no value it
    emits reaches [max_payload], and when [toFixed(0)] rounds a fractional
    [min_payload] up none reaches [min_payload], so the heaviest or the
    lightest launches drop out of the scatter chart once the slider has
    moved; that when it rounds [min_payload] down the slider emits a value
    below it; that, for an integral [min_payload], the initial view of
    every record can be selected again exactly when [max_payload] is on
    the step grid; and that any selection can be made from every reachable
    state. *)

From S2P Require Import Prelude PyFloat Frame Figures Callbacks Layout DashRuntime App.
From Stdlib Require Import Qround Qabs Lqa.

Section RcSlider.
(** The slider's [min], [max] and [step], and the keys of its [marks]. *)
Variables (mn mx : Q) (step : Z) (marks : list Z).

(** [ensureValueInRange]: [val <= min ? min : val >= max ? max : val]. *)
Definition ensure_in_range (v : Q) : Q :=
  if Qle_bool v mn then mn else if Qle_bool mx v then mx else v.

(** [Math.round]: the nearest integer, halves rounded up. *)
Definition js_round (x : Q) : Z := Qfloor (x + (1 # 2)).

(** [toFixed(0)]: the nearest integer, halves rounded away from zero. *)
Definition to_fixed0 (x : Q) : Z :=
  if Qle_bool 0 x then Qfloor (x + (1 # 2)) else - Qfloor (- x + (1 # 2)).

(** The step grid's point of [getClosestPoint]:
    [maxSteps = floor((max - min) / step)],
    [steps = Math.min((val - min) / step, maxSteps)],
    [Math.round(steps) * step + min]. *)
Definition grid_point (v : Q) : Q :=
  let max_steps := inject_Z (Qfloor ((mx - mn) / inject_Z step)) in
  let steps := (v - mn) / inject_Z step in
  let steps := if Qle_bool steps max_steps then steps else max_steps in
  inject_Z (js_round steps) * inject_Z step + mn.

(** [points[diffs.indexOf(Math.min(...diffs))]]: the first point of
    [best :: ps] at the least distance from [v]. *)
Fixpoint closest_from (v best : Q) (ps : list Q) : Q :=
  match ps with
  | [] => best
  | p :: ps' =>
      if Qle_bool (Qabs (v - best)) (Qabs (v - p)) then closest_from v best ps'
      else closest_from v p ps'
  end.

(** [getClosestPoint]: the points are the marks' keys, then the grid point. *)
Definition closest_point (v : Q) : Q :=
  match marks with
  | [] => grid_point v
  | m :: ms => closest_from v (inject_Z m) (map inject_Z ms ++ [grid_point v])
  end.

(** [trimAlignValue] for [step = 1000]: the value a handle takes. *)
Definition slider_align (v : Q) : Z := to_fixed0 (closest_point (ensure_in_range v)).
End RcSlider.

(** The range slider of a layout: its [min], [max], [step] and [marks]. *)
Fixpoint find_range_slider (c : component) : option (pyfloat * pyfloat * Z * list (Z * string)) :=
  match c with
  | RangeSlider id mn mx step marks _ =>
      if bool_decide (id = "payload-slider") then Some (mn, mx, step, marks) else None
  | Div cs => (fix go (cs : list component) :=
                 match cs with
                 | [] => None
                 | c :: cs' => match find_range_slider c with Some r => Some r | None => go cs' end
                 end) cs
  | H1 _ _ | Dropdown _ _ _ _ | Br | Graph _ | P _ => None
  end.

(** The value a handle of the page's slider takes when the user puts it at
    position [x] (by dragging, clicking the track or the arrow keys). *)
Definition slider_emit (st : app_start) (x : Q) : option Z :=
  match find_range_slider (layout st) with
  | Some (PyNum mn, PyNum mx, step, marks) => Some (slider_align mn mx step (map fst marks) x)
  | _ => None
  end.

(** The two handles' values, sorted ([allowCross]), as Dash receives them. *)
Definition slider_pair (a b : Z) : list pyfloat :=
  [PyNum (inject_Z (Z.min a b)); PyNum (inject_Z (Z.max a b))].

(** The values the slider sends: each handle holds an aligned value. *)
Inductive slider_event (st : app_start) : dash_value -> Prop :=
  | slider_move (x y : Q) (a b : Z) :
      slider_emit st x = Some a -> slider_emit st y = Some b ->
      slider_event st (VNums (slider_pair a b)).

(** A table whose lightest payload is not a whole number of kilograms. *)
Definition fractional_min_df : list launch_record :=
  [ {| launch_site := "A"; payload_mass := PyNum (2 # 5); class := 1 |};
    {| launch_site := "B"; payload_mass := PyNum 3000; class := 0 |} ].

(** A table whose lightest payload has a fractional part of one half or
    more. *)
Definition half_up_min_df : list launch_record :=
  [ {| launch_site := "A"; payload_mass := PyNum (3 # 5); class := 1 |};
    {| launch_site := "B"; payload_mass := PyNum 3000; class := 0 |} ].

(** A table whose payload range [max - min] is a multiple of 1000. *)
Definition grid_max_df : list launch_record :=
  [ {| launch_site := "A"; payload_mass := PyNum 500; class := 1 |};
    {| launch_site := "A"; payload_mass := PyNum 2500; class := 0 |};
    {| launch_site := "B"; payload_mass := PyNum 1000; class := 1 |} ].

(** ** Rounding *)

(** Linear arithmetic over [Q] once the division by the step is a
    multiplication by a constant. *)
Ltac qlra :=
  unfold Qdiv in *; change (/ inject_Z 1000) with (1 # 1000) in *;
  change (inject_Z 1000) with (1000 # 1) in *; lra.

Lemma Qle_bool_false_lt (a b : Q) : Qle_bool a b = false -> (b < a)%Q.
Proof.
  intros H. apply Qnot_le_lt. intros Hle. apply Qle_bool_iff in Hle. congruence.
Qed.

(** Splits on a [Qle_bool] test, with the order it decides. *)
Tactic Notation "qle_cases" constr(a) constr(b) ident(H) :=
  destruct (Qle_bool a b) eqn:H; [apply Qle_bool_iff in H|apply Qle_bool_false_lt in H].

(** Integers compared through [inject_Z]. *)
Lemma Z_le_of_Q (a b : Z) : (inject_Z a < inject_Z b + 1)%Q -> (a <= b)%Z.
Proof.
  intros H. destruct (Z.le_gt_cases a b) as [|Hgt]; [done|exfalso].
  assert (inject_Z (b + 1) <= inject_Z a)%Q by (rewrite <- Zle_Qle; lia).
  rewrite inject_Z_plus in *. change (inject_Z 1) with 1%Q in *. lra.
Qed.

Lemma Q_le_of_Z (a b : Z) : (a <= b)%Z -> (inject_Z a <= inject_Z b)%Q.
Proof. by rewrite <- Zle_Qle. Qed.

(** The floor of [x] as the integer [f] with [f <= x < f + 1]. *)
Lemma Qfloor_bounds (x : Q) : (inject_Z (Qfloor x) <= x < inject_Z (Qfloor x) + 1)%Q.
Proof.
  split; [apply Qfloor_le|]. pose proof (Qlt_floor x) as H.
  rewrite inject_Z_plus in H. exact H.
Qed.

Lemma floor_int_half (z : Z) : Qfloor (inject_Z z + (1 # 2)) = z.
Proof.
  destruct (Qfloor_bounds (inject_Z z + (1 # 2))) as [H1 H2].
  apply Z.le_antisymm; apply Z_le_of_Q; lra.
Qed.

(** [toFixed(0)] keeps an integer. *)
Lemma to_fixed0_int (x : Q) (z : Z) : (x == inject_Z z)%Q -> to_fixed0 x = z.
Proof.
  intros Hx. unfold to_fixed0. qle_cases 0 x H.
  - rewrite (Qfloor_comp _ (inject_Z z + (1 # 2))) by (rewrite Hx; reflexivity).
    apply floor_int_half.
  - rewrite (Qfloor_comp _ (inject_Z (- z) + (1 # 2))).
    + rewrite floor_int_half. lia.
    + rewrite Hx, inject_Z_opp. reflexivity.
Qed.

Lemma js_round_bounds (x : Q) :
  (x - (1 # 2) < inject_Z (js_round x) <= x + (1 # 2))%Q.
Proof. unfold js_round. destruct (Qfloor_bounds (x + (1 # 2))). lra. Qed.

Lemma ensure_in_range_bounds (mn mx v : Q) :
  (mn <= mx)%Q -> (mn <= ensure_in_range mn mx v <= mx)%Q.
Proof.
  intros Hle. unfold ensure_in_range. qle_cases v mn H1; [lra|]. qle_cases mx v H2; lra.
Qed.

(** ** The step grid *)

(** [maxSteps] is a non-negative number of steps that stays within [max]. *)
Lemma max_steps_bounds (mn mx : Q) :
  (mn <= mx)%Q ->
  (0 <= Qfloor ((mx - mn) / inject_Z 1000))%Z /\
  (inject_Z (Qfloor ((mx - mn) / inject_Z 1000)) * 1000 + mn <= mx)%Q.
Proof.
  intros Hle. destruct (Qfloor_bounds ((mx - mn) / inject_Z 1000)) as [H1 H2]. split.
  - apply Z_le_of_Q. change (inject_Z 0) with 0%Q. qlra.
  - qlra.
Qed.

(** The grid point of a value in range is [min + 1000 * k] for a step
    count [k] within [maxSteps], and it is at least as close to the value
    as [min] is. *)
Lemma grid_point_spec (mn mx c : Q) :
  (mn <= mx)%Q -> (mn <= c <= mx)%Q ->
  exists k, (0 <= k <= Qfloor ((mx - mn) / inject_Z 1000))%Z /\
    (grid_point mn mx 1000 c == inject_Z k * 1000 + mn)%Q /\
    (Qabs (c - grid_point mn mx 1000 c) <= c - mn)%Q.
Proof.
  intros Hle Hc. destruct (max_steps_bounds mn mx Hle) as [HM0 HMx].
  destruct (Qfloor_bounds ((mx - mn) / inject_Z 1000)) as [HF1 HF2].
  unfold grid_point. cbv zeta.
  qle_cases ((c - mn) / inject_Z 1000) (inject_Z (Qfloor ((mx - mn) / inject_Z 1000))) Hs.
  - pose proof (js_round_bounds ((c - mn) / inject_Z 1000)) as Hk.
    set (k := js_round ((c - mn) / inject_Z 1000)) in *. exists k.
    assert (0 <= k)%Z by (apply Z_le_of_Q; change (inject_Z 0) with 0%Q; qlra).
    assert (k <= Qfloor ((mx - mn) / inject_Z 1000))%Z by (apply Z_le_of_Q; qlra).
    split; [lia|split; [reflexivity|]].
    destruct (Z.eq_dec k 0) as [Hk0|Hk0].
    + rewrite Hk0. change (inject_Z 0) with 0%Q. apply Qabs_case; intros; qlra.
    + assert (1 <= inject_Z k)%Q by (change 1%Q with (inject_Z 1); apply Q_le_of_Z; lia).
      apply Qabs_case; intros; qlra.
  - unfold js_round. rewrite floor_int_half.
    exists (Qfloor ((mx - mn) / inject_Z 1000)). split; [lia|split; [reflexivity|]].
    assert (0 <= inject_Z (Qfloor ((mx - mn) / inject_Z 1000)))%Q
      by (change 0%Q with (inject_Z 0); by apply Q_le_of_Z).
    apply Qabs_case; intros; qlra.
Qed.

(** ** The closest point *)

Lemma closest_from_spec (v best : Q) (ps : list Q) :
  closest_from v best ps ∈ best :: ps /\
  forall q, q ∈ best :: ps -> (Qabs (v - closest_from v best ps) <= Qabs (v - q))%Q.
Proof.
  revert best. induction ps as [|p ps IH]; intros best; cbn [closest_from].
  - split; [left|]. intros q ->%list_elem_of_singleton. apply Qle_refl.
  - qle_cases (Qabs (v - best)) (Qabs (v - p)) H.
    + destruct (IH best) as [Hin Hmin]. split.
      * apply elem_of_cons in Hin as [Heq|Hin]; [rewrite Heq; left|by right; right].
      * intros q [->|[->|Hq]%elem_of_cons]%elem_of_cons; [apply Hmin; left| |apply Hmin; by right].
        apply Qle_trans with (Qabs (v - best)); [apply Hmin; left|done].
    + destruct (IH p) as [Hin Hmin]. split; [by right|].
      intros q [->|[->|Hq]%elem_of_cons]%elem_of_cons; [|apply Hmin; left|apply Hmin; by right].
      apply Qle_trans with (Qabs (v - p)); [apply Hmin; left|apply Qlt_le_weak, H].
Qed.

(** [getClosestPoint] answers the grid point or a mark, at least as close
    to the value as the grid point and as every mark. *)
Lemma closest_point_spec (mn mx : Q) (marks : list Z) (c : Q) :
  let r := closest_point mn mx 1000 marks c in
  (r = grid_point mn mx 1000 c \/ exists m, m ∈ marks /\ r = inject_Z m) /\
  (Qabs (c - r) <= Qabs (c - grid_point mn mx 1000 c))%Q /\
  forall m, m ∈ marks -> (Qabs (c - r) <= Qabs (c - inject_Z m))%Q.
Proof.
  unfold closest_point. destruct marks as [|m0 ms].
  - split; [by left|split; [apply Qle_refl|]]. intros m Hm. by apply not_elem_of_nil in Hm.
  - destruct (closest_from_spec c (inject_Z m0) (map inject_Z ms ++ [grid_point mn mx 1000 c]))
      as [Hin Hmin].
    split; [|split].
    + apply elem_of_cons in Hin as [->|[Hin|Hin%list_elem_of_singleton]%elem_of_app].
      * right. exists m0. split; [left|done].
      * apply list_elem_of_fmap in Hin as (m & -> & Hm). right. exists m. split; [by right|done].
      * by left.
    + apply Hmin. right. apply elem_of_app. right. left.
    + intros m [->|Hm]%elem_of_cons; apply Hmin; [left|].
      right. apply elem_of_app. left. by apply list_elem_of_fmap_2.
Qed.

Lemma ensure_in_range_id (mn mx v : Q) :
  (mn <= v <= mx)%Q -> (ensure_in_range mn mx v == v)%Q.
Proof.
  intros Hv. unfold ensure_in_range.
  qle_cases v mn H1; [lra|]. qle_cases mx v H2; [lra|reflexivity].
Qed.

(** ** Absolute values, and positions equal as rationals *)

(** [|x|] as [x] or [-x], with the sign that decides it. *)
Lemma Qabs_cases (x : Q) : ((0 <= x /\ Qabs x == x) \/ (x <= 0 /\ Qabs x == - x))%Q.
Proof.
  destruct (Qlt_le_dec x 0) as [H|H]; [right|left]; split; try lra.
  - apply Qabs_neg. lra.
  - by apply Qabs_pos.
Qed.

(** Replaces every [Qabs] of the hypotheses and the goal by its two cases. *)
Ltac qabs_cases :=
  repeat match goal with
  | |- context [Qabs ?x] =>
      let E := fresh "E" in destruct (Qabs_cases x) as [[? E]|[? E]]; rewrite E; clear E
  | H : context [Qabs ?x] |- _ =>
      let E := fresh "E" in destruct (Qabs_cases x) as [[? E]|[? E]]; rewrite E in H; clear E
  end.

#[export] Instance to_fixed0_proper : Proper (Qeq ==> eq) to_fixed0.
Proof.
  intros x x' Hx. unfold to_fixed0. rewrite (Qleb_comp 0 0 (Qeq_refl _) x x' Hx).
  destruct (Qle_bool 0 x'); by rewrite Hx.
Qed.

(** ** Aligned values *)

(** A grid value [z0 + 1000 * k] within [max] has a step count within
    [maxSteps]. *)
Lemma grid_index_le_max_steps (mn mx : Q) (z0 k : Z) :
  (mn == inject_Z z0)%Q -> (inject_Z (z0 + 1000 * k) <= mx)%Q ->
  (k <= Qfloor ((mx - mn) / inject_Z 1000))%Z.
Proof.
  intros Hmn Hk. rewrite <- (Qfloor_Z k). apply Qfloor_resp_le.
  rewrite inject_Z_plus, inject_Z_mult, <- Hmn in Hk. qlra.
Qed.

Section Aligned.
(** The slider's bounds, with an integral [min], and the keys of its marks,
    none above [max]. *)
Variables (mn mx : Q) (z0 : Z) (marks : list Z).
Hypothesis Hmn : (mn == inject_Z z0)%Q.
Hypothesis Hle : (mn <= mx)%Q.
Hypothesis Hmarks : forall m, m ∈ marks -> (inject_Z m <= mx)%Q.

(** An aligned value is a grid point [min + 1000 * k] or a mark, and lies
    in [[min, max]]. *)
Lemma slider_align_spec (v : Q) :
  let a := slider_align mn mx 1000 marks v in
  (mn <= inject_Z a <= mx)%Q /\
  ((exists k, 0 <= k <= Qfloor ((mx - mn) / inject_Z 1000) /\ a = z0 + 1000 * k)%Z \/ a ∈ marks).
Proof.
  unfold slider_align. set (c := ensure_in_range mn mx v).
  pose proof (ensure_in_range_bounds mn mx v Hle) as Hc. fold c in Hc.
  destruct (max_steps_bounds mn mx Hle) as [HM0 HMx].
  destruct (grid_point_spec mn mx c Hle Hc) as (k & Hk & Hg & Hgc).
  destruct (closest_point_spec mn mx marks c) as (Hr & Hrg & Hrm).
  set (r := closest_point mn mx 1000 marks c) in *.
  destruct Hr as [Hr|(m & Hm & Hr)].
  - assert (Hint : (r == inject_Z (z0 + 1000 * k))%Q).
    { rewrite Hr, Hg, inject_Z_plus, inject_Z_mult, <- Hmn. qlra. }
    rewrite (to_fixed0_int r _ Hint), <- Hint. split.
    + assert (0 <= inject_Z k)%Q by (change 0%Q with (inject_Z 0); apply Q_le_of_Z; lia).
      assert (inject_Z k <= inject_Z (Qfloor ((mx - mn) / inject_Z 1000)))%Q
        by (apply Q_le_of_Z; lia).
      rewrite Hr, Hg. qlra.
    + left. by exists k.
  - rewrite (to_fixed0_int r m) by (rewrite Hr; reflexivity). split; [|by right].
    split; [|by apply Hmarks].
    destruct (Qlt_le_dec (inject_Z m) mn) as [Hlt|]; [exfalso|done].
    rewrite Hr in Hrg. assert (Qabs (c - inject_Z m) == c - inject_Z m)%Q by (apply Qabs_pos; lra).
    lra.
Qed.

(** Putting a handle at an aligned value leaves it there. *)
Lemma slider_align_fixed (a : Z) :
  (mn <= inject_Z a <= mx)%Q ->
  ((exists k, 0 <= k <= Qfloor ((mx - mn) / inject_Z 1000) /\ a = z0 + 1000 * k)%Z \/ a ∈ marks) ->
  slider_align mn mx 1000 marks (inject_Z a) = a.
Proof.
  intros Hin Hcase. unfold slider_align.
  pose proof (ensure_in_range_id mn mx (inject_Z a) Hin) as Hc.
  set (c := ensure_in_range mn mx (inject_Z a)) in *.
  destruct (closest_point_spec mn mx marks c) as (_ & Hrg & Hrm).
  set (r := closest_point mn mx 1000 marks c) in *.
  assert (Hz : exists q, (Qabs (c - q) == 0)%Q /\ (Qabs (c - r) <= Qabs (c - q))%Q).
  { destruct Hcase as [(k & Hk & ->)|Hm].
    - exists (grid_point mn mx 1000 c). split; [|done].
      rewrite inject_Z_plus, inject_Z_mult, <- Hmn in Hc.
      assert (inject_Z k <= inject_Z (Qfloor ((mx - mn) / inject_Z 1000)))%Q
        by (apply Q_le_of_Z; lia).
      unfold grid_point. cbv zeta.
      qle_cases ((c - mn) / inject_Z 1000) (inject_Z (Qfloor ((mx - mn) / inject_Z 1000))) Hs;
        [|rewrite Hc in Hs; qlra].
      unfold js_round.
      rewrite (Qfloor_comp _ (inject_Z k + (1 # 2))) by (rewrite Hc; qlra).
      rewrite floor_int_half, Hc. apply Qabs_case; intros; qlra.
    - exists (inject_Z a). split; [|by apply Hrm].
      rewrite Hc. apply Qabs_case; intros; lra. }
  destruct Hz as (q & Hq0 & Hrq). apply to_fixed0_int. rewrite <- Hc.
  pose proof (Qabs_nonneg (c - r)). revert Hrq. rewrite Hq0.
  apply Qabs_case; intros; lra.
Qed.
End Aligned.

(** ** A fractional [min] *)

(** The floor of [x] is the integer [z] with [z <= x < z + 1]. *)
Lemma Qfloor_unique (x : Q) (z : Z) : (inject_Z z <= x < inject_Z z + 1)%Q -> Qfloor x = z.
Proof.
  intros [H1 H2]. destruct (Qfloor_bounds x). apply Z.le_antisymm; apply Z_le_of_Q; lra.
Qed.

Lemma Z_le_floor (z : Z) (x : Q) : (inject_Z z <= x)%Q -> (z <= Qfloor x)%Z.
Proof. intros H. apply Z_le_of_Q. destruct (Qfloor_bounds x). lra. Qed.

(** When [toFixed(0)] rounds a non-negative [min] up (its fractional part
    is at least one half), every aligned value lies strictly above [min]:
    grid values [min + 1000 * k] round up too, and a mark, an integer at
    least as close as the grid point, cannot lie at or below [min]. *)
Lemma slider_align_gt_min (mn mx : Q) (marks : list Z) (v : Q) :
  (mn <= mx)%Q -> (0 <= mn)%Q -> (1 # 2 <= mn - inject_Z (Qfloor mn))%Q ->
  (mn < inject_Z (slider_align mn mx 1000 marks v))%Q.
Proof.
  intros Hle H0 Hfr. unfold slider_align. set (c := ensure_in_range mn mx v).
  pose proof (ensure_in_range_bounds mn mx v Hle) as Hc. fold c in Hc.
  destruct (grid_point_spec mn mx c Hle Hc) as (k & Hk & Hg & Hgc).
  destruct (closest_point_spec mn mx marks c) as (Hr & Hrg & _).
  pose proof (Qlt_floor mn) as Hf. rewrite inject_Z_plus in Hf.
  destruct Hr as [Hr|(m & _ & Hr)]; rewrite Hr in *.
  - rewrite Hg. pose proof (Q_le_of_Z 0 k ltac:(lia)) as Hk0. change (inject_Z 0) with 0%Q in Hk0.
    unfold to_fixed0. qle_cases 0 (inject_Z k * 1000 + mn) H; [|lra].
    assert (Hz : (Qfloor mn + 1 + 1000 * k <= Qfloor (inject_Z k * 1000 + mn + (1 # 2)))%Z).
    { apply Z_le_floor. rewrite !inject_Z_plus, inject_Z_mult. change (inject_Z 1) with 1%Q in *. qlra. }
    apply Q_le_of_Z in Hz. rewrite !inject_Z_plus, inject_Z_mult in Hz.
    change (inject_Z 1) with 1%Q in *. qlra.
  - rewrite (to_fixed0_int (inject_Z m) m) by reflexivity.
    pose proof (Qle_trans _ _ _ Hrg Hgc) as Hm. clear Hrg Hgc Hg.
    destruct (Qlt_le_dec mn (inject_Z m)) as [|Hmn]; [done|exfalso].
    assert (Hfl : Qfloor mn = m) by (apply Qfloor_unique; qabs_cases; lra).
    rewrite Hfl in Hfr. qabs_cases; lra.
Qed.

(** A handle at or below a non-negative [min] whose fractional part is
    below one half takes [floor(min)]: the grid point is [min] itself, at
    distance 0, and [toFixed(0)] rounds it down. *)
Lemma slider_align_at_min (mn mx : Q) (marks : list Z) (v : Q) :
  (mn <= mx)%Q -> (0 <= mn)%Q -> (mn - inject_Z (Qfloor mn) < 1 # 2)%Q -> (v <= mn)%Q ->
  slider_align mn mx 1000 marks v = Qfloor mn.
Proof.
  intros Hle H0 Hfr Hv. unfold slider_align.
  assert (Hc : ensure_in_range mn mx v = mn)
    by (unfold ensure_in_range; by rewrite (proj2 (Qle_bool_iff v mn) Hv)).
  rewrite Hc.
  destruct (closest_point_spec mn mx marks mn) as (_ & Hrg & _).
  destruct (grid_point_spec mn mx mn Hle ltac:(lra)) as (_ & _ & _ & Hgc).
  pose proof (Qle_trans _ _ _ Hrg Hgc) as Hr. clear Hrg Hgc.
  assert (Hrmn : (closest_point mn mx 1000 marks mn == mn)%Q) by (qabs_cases; lra).
  rewrite Hrmn. unfold to_fixed0. qle_cases 0 mn H; [|lra].
  destruct (Qfloor_bounds mn). apply Qfloor_unique. lra.
Qed.

(** ** The page's slider *)

(** After the start-up the slider's bounds are numbers [mn <= mx], its
    marks' keys lie below [mx], and a handle put at [x] takes the value
    [slider_align mn mx 1000 keys x], [keys] those of [slider_marks]. *)
Lemma slider_emit_start (df : list launch_record) (st : app_start) :
  startup df = Ok st ->
  exists mn mx (keys : list Z),
    min_payload st = PyNum mn /\ max_payload st = PyNum mx /\ (mn <= mx)%Q /\
    (forall m, m ∈ keys -> inject_Z m < mx)%Q /\
    (exists marks, slider_marks (max_payload st) = Ok marks /\ keys = map fst marks) /\
    forall x, slider_emit st x = Some (slider_align mn mx 1000 keys x).
Proof.
  intros Hst. destruct (startup_ok_bounds df st Hst) as (_ & _ & _ & Hle).
  apply py_le_true_inv in Hle as (mn & mx & Hmn & Hmx & Hle).
  unfold startup in Hst.
  destruct (app_layout (series_min (payload_column df)) (series_max (payload_column df)))
    as [l|e] eqn:Hl; [|discriminate].
  simpl in Hst. injection Hst as <-. simpl in Hmn, Hmx |- *.
  apply app_layout_ok in Hl as (marks & Hm & ->).
  exists mn, mx, (map fst marks). split; [done|split; [done|split; [done|split; [|split]]]].
  - intros m ([i lbl] & -> & Hin)%list_elem_of_fmap. simpl.
    destruct (slider_marks_key_lt _ _ i lbl Hm Hin) as (q & Hq & Hlt).
    rewrite Hmx in Hq. by injection Hq as ->.
  - by exists marks.
  - intros x. unfold slider_emit. simpl. rewrite Hmn, Hmx. reflexivity.
Qed.

Lemma slider_emit_spec (df : list launch_record) (st : app_start) (z0 : Z) (x : Q) (a : Z) :
  startup df = Ok st -> min_payload st ≡ PyNum (inject_Z z0) -> slider_emit st x = Some a ->
  exists mn mx, min_payload st = PyNum mn /\ max_payload st = PyNum mx /\
    (mn <= inject_Z a <= mx)%Q /\
    ((exists k, 0 <= k /\ a = z0 + 1000 * k)%Z \/ (inject_Z a < mx)%Q) /\
    slider_emit st (inject_Z a) = Some a.
Proof.
  intros Hst Hz Hx.
  destruct (slider_emit_start df st Hst) as (mn & mx & keys & Hmn & Hmx & Hle & Hkeys & _ & Hemit).
  rewrite Hmn in Hz. simpl in Hz. rewrite Hemit in Hx. injection Hx as <-.
  assert (Hkeys' : forall m, m ∈ keys -> (inject_Z m <= mx)%Q)
    by (intros m Hm; apply Qlt_le_weak, Hkeys, Hm).
  destruct (slider_align_spec mn mx z0 keys Hz Hle Hkeys' x) as [Hb Hcase].
  exists mn, mx. split; [done|split; [done|split; [done|split]]].
  - destruct Hcase as [(k & Hk & ->)|Hm]; [left; exists k; lia|right; by apply Hkeys].
  - rewrite Hemit. f_equal. by apply (slider_align_fixed mn mx z0 keys).
Qed.

(** With an integral [min_payload] [z0], a grid value [z0 + 1000 * k]
    within [max_payload] is sent by a handle put at it. *)
Lemma slider_emit_grid (df : list launch_record) (st : app_start) (z0 k : Z) :
  startup df = Ok st -> min_payload st ≡ PyNum (inject_Z z0) -> (0 <= k)%Z ->
  py_le (PyNum (inject_Z (z0 + 1000 * k))) (max_payload st) = true ->
  slider_emit st (inject_Z (z0 + 1000 * k)) = Some (z0 + 1000 * k)%Z.
Proof.
  intros Hst Hz Hk Hmax.
  destruct (slider_emit_start df st Hst) as (mn & mx & keys & Hmn & Hmx & Hle & _ & _ & Hemit).
  rewrite Hmn in Hz. change (mn == inject_Z z0)%Q in Hz. rewrite Hmx, py_le_num in Hmax.
  rewrite Hemit. f_equal. apply (slider_align_fixed mn mx z0 _ Hz).
  - split; [|done]. rewrite Hz. apply Q_le_of_Z. lia.
  - left. exists k. split; [split; [done|by apply (grid_index_le_max_steps mn mx z0)]|done].
Qed.

(** ** Properties of the slider *)

(** C23: with an integral [min_payload], every value a handle of the
    slider takes lies within [[min_payload, max_payload]], as the spec's
    payload range selector promises. *)
Theorem slider_emit_bounds (df : list launch_record) (st : app_start) (z0 : Z) (x : Q) (a : Z) :
  startup df = Ok st -> min_payload st ≡ PyNum (inject_Z z0) -> slider_emit st x = Some a ->
  py_le (min_payload st) (PyNum (inject_Z a)) = true /\
  py_le (PyNum (inject_Z a)) (max_payload st) = true.
Proof.
  intros Hst Hz Hx.
  destruct (slider_emit_spec df st z0 x a Hst Hz Hx) as (mn & mx & -> & -> & Ha & _).
  rewrite !py_le_num. lra.
Qed.

(** C24: when [min_payload] is an integer and [max_payload - min_payload]
    is not a multiple of 1000, no value the slider sends reaches
    [max_payload] (the grid stops below it, every mark is below
    [int(max_payload)], and integral grid values need no rounding): once
    the user has moved the slider, the records of the heaviest payload are
    never plotted again. *)
Theorem heaviest_payload_unreachable (df : list launch_record) (st : app_start) (z0 : Z)
    (range : list pyfloat) (site : option string) (fig : scatter_figure) (r : launch_record) :
  startup df = Ok st -> min_payload st ≡ PyNum (inject_Z z0) ->
  (forall k, ~ max_payload st ≡ PyNum (inject_Z (z0 + 1000 * k))) ->
  slider_event st (VNums range) -> update_scatter_chart df site range = Ok fig ->
  r ∈ df -> payload_mass r = max_payload st ->
  (payload_mass r, class r) ∉ scatter_points fig.
Proof.
  intros Hst Hz Hgrid Hev Hfig Hr Hmax. inversion Hev as [x y a b Hx Hy Hrange]. subst range.
  assert (Hlt : forall c w, slider_emit st w = Some c -> exists mx,
                  max_payload st = PyNum mx /\ (inject_Z c < mx)%Q).
  { intros c w Hw.
    destruct (slider_emit_spec df st z0 w c Hst Hz Hw) as (mn & mx & _ & Hmx & Hc & Hcase & _).
    exists mx. split; [done|]. destruct Hcase as [(k & _ & ->)|]; [|done].
    destruct (Qle_lt_or_eq _ _ (proj2 Hc)) as [|Heq]; [done|].
    exfalso. apply (Hgrid k). rewrite Hmx. change (mx == inject_Z (z0 + 1000 * k))%Q. by symmetry. }
  destruct (Hlt a x Hx) as (mx & Hmx & Ha), (Hlt b y Hy) as (mx' & Hmx' & Hb).
  rewrite Hmx in Hmx'. injection Hmx' as <-.
  apply update_scatter_chart_ok in Hfig as (low & high & Hpair & ->).
  unfold slider_pair in Hpair. injection Hpair as _ <-.
  intros (r' & [= Hp _] & Hr')%list_elem_of_fmap.
  apply elem_of_filter_bool in Hr' as [_ Hkeep].
  apply andb_true_iff in Hkeep as [Hkeep _]. apply andb_true_iff in Hkeep as [_ Hkeep].
  rewrite <- Hp, Hmax, Hmx, py_le_num in Hkeep.
  destruct (Z.max_spec a b) as [[_ Hm]|[_ Hm]]; rewrite Hm in Hkeep; lra.
Qed.

(** C16: from every state the user can reach, any site of the dropdown
    and any two positions of the slider's handles can be selected in two
    interactions; the page then shows the pie chart of that site and the
    scatter chart of that site and of the values the handles take, without
    error. This holds for every table that starts, whatever its payloads. *)
Theorem app_any_selection_reachable (df : list launch_record) (st : app_start)
    (s : dash_state dash_value) (o : dropdown_option) (x y : Q) :
  startup df = Ok st -> app_reachable st s -> o ∈ site_options ->
  exists a b s', slider_emit st x = Some a /\ slider_emit st y = Some b /\
    app_steps st s s' /\ errors s' = [] /\
    store s' !! pie_prop = Some (VPie (update_pie_chart df (Some (opt_value o)))) /\
    exists fig, update_scatter_chart df (Some (opt_value o)) (slider_pair a b) = Ok fig /\
      store s' !! scatter_prop = Some (VScatter fig).
Proof.
  intros Hst Hs Ho.
  destruct (slider_emit_start df st Hst) as (mn & mx & keys & _ & _ & _ & _ & _ & Hemit).
  exists (slider_align mn mx 1000 keys x), (slider_align mn mx 1000 keys y).
  unfold slider_pair.
  edestruct (app_select_steps st s o) as (s' & Hsteps & Hsite & Hsl); [exact Ho|].
  destruct (startup_ok_bounds df st Hst) as [Hdf _].
  pose proof (app_steps_reachable st s s' Hs Hsteps) as Hs'.
  destruct (app_reachable_inv df st s' Hst Hs') as (_ & _ & Herr).
  pose proof (app_reachable_consistent st s' Hs') as Hcons. rewrite Hdf in Hcons.
  destruct (consistent_app_charts df s' _ _ Hcons Hsl) as (Hpie & fig & Hfig & Hsc).
  rewrite Hsite in Hpie, Hfig. exists s'. do 4 (split; [done|]). split; [done|]. by exists fig.
Qed.

(** C27: with an integral [min_payload] [z0], the values the slider can
    send are exactly the values within [[min_payload, max_payload]] that
    are on the step grid [z0 + 1000 * k] or are keys of its marks. *)
Theorem slider_emit_values (df : list launch_record) (st : app_start) (z0 : Z)
    (marks : list (Z * string)) (a : Z) :
  startup df = Ok st -> min_payload st ≡ PyNum (inject_Z z0) ->
  slider_marks (max_payload st) = Ok marks ->
  (exists x, slider_emit st x = Some a) <->
  py_le (min_payload st) (PyNum (inject_Z a)) = true /\
  py_le (PyNum (inject_Z a)) (max_payload st) = true /\
  ((exists k, 0 <= k /\ a = z0 + 1000 * k)%Z \/ a ∈ map fst marks).
Proof.
  intros Hst Hz Hm.
  destruct (slider_emit_start df st Hst)
    as (mn & mx & keys & Hmn & Hmx & Hle & Hkeys & (marks' & Hm' & ->) & Hemit).
  rewrite Hm in Hm'. injection Hm' as <-. rewrite Hmn in Hz |- *. rewrite Hmx, !py_le_num.
  change (mn == inject_Z z0)%Q in Hz.
  assert (Hkeys' : forall m, m ∈ map fst marks -> (inject_Z m <= mx)%Q)
    by (intros m Hk; apply Qlt_le_weak, Hkeys, Hk).
  split.
  - intros [x Hx]. rewrite Hemit in Hx. injection Hx as <-.
    destruct (slider_align_spec mn mx z0 _ Hz Hle Hkeys' x) as [Hb Hcase].
    split; [lra|split; [lra|]].
    destruct Hcase as [(k & Hk & ->)|]; [left; exists k; lia|by right].
  - intros (H1 & H2 & Hcase). exists (inject_Z a). rewrite Hemit. f_equal.
    apply (slider_align_fixed mn mx z0 _ Hz); [lra|].
    destruct Hcase as [(k & Hk & ->)|]; [left|by right].
    exists k. split; [|done]. split; [done|]. by apply (grid_index_le_max_steps mn mx z0).
Qed.

(** C25: when the lightest payload is a non-negative number whose
    fractional part is one half or more (0.6 kg, say), every value the
    slider sends lies strictly above [min_payload]: once the user has moved
    the slider, the records of the lightest payload are never plotted
    again. *)
Theorem lightest_payload_unreachable (df : list launch_record) (st : app_start) (q : Q)
    (range : list pyfloat) (site : option string) (fig : scatter_figure) (r : launch_record) :
  startup df = Ok st -> min_payload st = PyNum q -> (0 <= q)%Q ->
  (1 # 2 <= q - inject_Z (Qfloor q))%Q ->
  slider_event st (VNums range) -> update_scatter_chart df site range = Ok fig ->
  r ∈ df -> payload_mass r = min_payload st ->
  (payload_mass r, class r) ∉ scatter_points fig.
Proof.
  intros Hst Hq H0 Hfr Hev Hfig Hr Hmin. inversion Hev as [x y a b Hx Hy Hrange]. subst range.
  destruct (slider_emit_start df st Hst) as (mn & mx & keys & Hmn & _ & Hle & _ & _ & Hemit).
  rewrite Hq in Hmn. injection Hmn as <-.
  rewrite Hemit in Hx, Hy. injection Hx as <-. injection Hy as <-.
  pose proof (slider_align_gt_min q mx keys x Hle H0 Hfr) as Ha.
  pose proof (slider_align_gt_min q mx keys y Hle H0 Hfr) as Hb.
  apply update_scatter_chart_ok in Hfig as (low & high & Hpair & ->).
  unfold slider_pair in Hpair. injection Hpair as <- _.
  intros (r' & [= Hp _] & Hr')%list_elem_of_fmap.
  apply elem_of_filter_bool in Hr' as [_ Hkeep].
  apply andb_true_iff in Hkeep as [Hkeep _]. apply andb_true_iff in Hkeep as [Hkeep _].
  unfold py_ge in Hkeep. rewrite <- Hp, Hmin, Hq, py_le_num in Hkeep.
  destruct (Z.min_spec (slider_align q mx 1000 keys x) (slider_align q mx 1000 keys y))
    as [[_ Hm]|[_ Hm]]; rewrite Hm in Hkeep; lra.
Qed.

(** C26: when the lightest payload is a non-negative number whose
    fractional part lies strictly between 0 and one half (0.4 kg, say),
    the lower handle at its leftmost position sends [floor(min_payload)],
    a value below [min_payload]: the slider is not bounded by
    [[min_payload, max_payload]] as the spec's range selector is. *)
Theorem slider_sends_below_min (df : list launch_record) (st : app_start) (q : Q) (x : Q) :
  startup df = Ok st -> min_payload st = PyNum q -> (0 <= q)%Q ->
  (0 < q - inject_Z (Qfloor q) < 1 # 2)%Q -> (x <= q)%Q ->
  slider_emit st x = Some (Qfloor q) /\
  py_le (min_payload st) (PyNum (inject_Z (Qfloor q))) = false.
Proof.
  intros Hst Hq H0 [Hfr0 Hfr] Hx.
  destruct (slider_emit_start df st Hst) as (mn & mx & keys & Hmn & _ & Hle & _ & _ & Hemit).
  rewrite Hq in Hmn |- *. injection Hmn as <-. split.
  - rewrite Hemit. f_equal. by apply slider_align_at_min.
  - unfold py_le. destruct (Qle_bool q (inject_Z (Qfloor q))) eqn:E; [|done].
    apply Qle_bool_iff in E. lra.
Qed.

(** C29: with an integral [min_payload] [z0], the slider can select a
    range that plots every record with a numeric payload (the view the
    page starts with) exactly when [max_payload] is on its step grid
    [z0 + 1000 * k]: the configuration [step=1000] loses the initial view
    for every other table. *)
Theorem full_view_restorable_iff (df : list launch_record) (st : app_start) (z0 : Z) :
  startup df = Ok st -> min_payload st ≡ PyNum (inject_Z z0) ->
  (exists x y a b fig, slider_emit st x = Some a /\ slider_emit st y = Some b /\
     update_scatter_chart df (Some "ALL") (slider_pair a b) = Ok fig /\
     forall r, r ∈ df -> payload_mass r <> PyNaN -> (payload_mass r, class r) ∈ scatter_points fig) <->
  exists k, max_payload st ≡ PyNum (inject_Z (z0 + 1000 * k)).
Proof.
  intros Hst Hz.
  destruct (slider_emit_start df st Hst) as (mn & mx & keys & Hmn & Hmx & Hle & _ & _ & Hemit).
  destruct (startup_ok_bounds df st Hst) as (_ & Hmin & Hmax & _).
  split.
  - intros (x & y & a & b & fig & Hx & Hy & Hfig & Hall).
    assert (Hfin : forall w c, slider_emit st w = Some c -> (mx <= inject_Z c)%Q ->
                     exists k, max_payload st ≡ PyNum (inject_Z (z0 + 1000 * k))).
    { intros w c Hw Hc.
      destruct (slider_emit_spec df st z0 w c Hst Hz Hw) as (mn' & mx' & _ & Hmx' & Hb & Hcase & _).
      rewrite Hmx in Hmx'. injection Hmx' as <-.
      destruct Hcase as [(k & _ & ->)|Hlt]; [|lra].
      exists k. rewrite Hmx. change (mx == inject_Z (z0 + 1000 * k))%Q. apply Qle_antisym; lra. }
    destruct (series_max_cases (payload_column df)) as [[Hn _]|(m & Hm & Hin)]; [congruence|].
    rewrite <- Hmax, Hmx in Hm. injection Hm as <-.
    apply list_elem_of_fmap in Hin as (r & Hr & Hrin).
    specialize (Hall r Hrin ltac:(by rewrite <- Hr)).
    apply update_scatter_chart_ok in Hfig as (low & high & Hpair & Hpts).
    rewrite Hpts in Hall. unfold slider_pair in Hpair. injection Hpair as _ <-.
    apply list_elem_of_fmap in Hall as (r' & [= Hp _] & Hr').
    apply elem_of_filter_bool in Hr' as [_ Hkeep].
    apply andb_true_iff in Hkeep as [Hkeep _]. apply andb_true_iff in Hkeep as [_ Hkeep].
    rewrite <- Hp, <- Hr, py_le_num in Hkeep.
    destruct (Z.max_spec a b) as [[_ Hm]|[_ Hm]]; rewrite Hm in Hkeep; eauto.
  - intros (k & Hk). rewrite Hmx in Hk. change (mx == inject_Z (z0 + 1000 * k))%Q in Hk.
    pose proof Hz as Hz'. rewrite Hmn in Hz'. change (mn == inject_Z z0)%Q in Hz'.
    assert (Hk0 : (0 <= k)%Z).
    { enough (z0 <= z0 + 1000 * k)%Z by lia. rewrite Zle_Qle, <- Hz', <- Hk. done. }
    assert (Hlo : py_le (PyNum (inject_Z (z0 + 1000 * 0))) (max_payload st) = true)
      by (rewrite Hmx, py_le_num, Hk, <- Zle_Qle; lia).
    assert (Hhi : py_le (PyNum (inject_Z (z0 + 1000 * k))) (max_payload st) = true)
      by (rewrite Hmx, py_le_num, Hk; apply Qle_refl).
    pose proof (update_scatter_chart_eq df (Some "ALL") (PyNum (inject_Z (z0 + 1000 * 0)))
                  (PyNum (inject_Z (z0 + 1000 * k)))) as E.
    exists (inject_Z (z0 + 1000 * 0)), (inject_Z (z0 + 1000 * k)), (z0 + 1000 * 0)%Z, (z0 + 1000 * k)%Z.
    unfold slider_pair. rewrite Z.min_l, Z.max_r by lia. eexists.
    split; [by apply (slider_emit_grid df st z0 0)|].
    split; [by apply (slider_emit_grid df st z0 k)|split; [exact E|]].
    intros r Hr Hnum. apply update_scatter_chart_ok in E as (l & h & [= <- <-] & ->).
    apply (list_elem_of_fmap_2 (fun r => (payload_mass r, class r))), elem_of_filter_bool.
    split; [done|].
    destruct (payload_mass r) as [q|] eqn:Hq; [|done].
    destruct (column_bounds df r q Hr Hq) as [H1 H2].
    rewrite <- Hmin, Hmn, py_le_num in H1. rewrite <- Hmax, Hmx, py_le_num in H2.
    replace (z0 + 1000 * 0)%Z with z0 by lia.
    apply andb_true_iff; split; [apply andb_true_iff; split; apply py_le_num|reflexivity].
    + by rewrite <- Hz'.
    + by rewrite <- Hk.
Qed.

(** ** Witnesses *)

(** The spec's example table starts with [min_payload = 500] and
    [max_payload = 3000]; the handle at 0 takes 500, at 1000 it takes 1500. *)
Lemma example_start :
  exists st, startup spec_example_df = Ok st /\ min_payload st ≡ PyNum (inject_Z 500) /\
  max_payload st = PyNum 3000 /\
  slider_emit st 0 = Some 500%Z /\ slider_emit st 1000 = Some 1500%Z.
Proof.
  destruct (startup spec_example_df) as [st|e] eqn:Hst; [|discriminate].
  pose proof Hst as Hst'. vm_compute in Hst'. injection Hst' as Hst'.
  exists st. split; [done|]. subst st. vm_compute. repeat split.
Qed.

Lemma slider_emit_bounds_witness :
  exists st, startup spec_example_df = Ok st /\ min_payload st ≡ PyNum (inject_Z 500) /\
  slider_emit st 1000 = Some 1500%Z /\
  py_le (min_payload st) (PyNum (inject_Z 1500)) = true /\
  py_le (PyNum (inject_Z 1500)) (max_payload st) = true.
Proof.
  destruct example_start as (st & Hst & Hz & _ & _ & Hy). exists st.
  split; [exact Hst|split; [exact Hz|split; [exact Hy|]]].
  apply (slider_emit_bounds spec_example_df st 500 1000 1500 Hst Hz Hy).
Defined.

Lemma heaviest_payload_unreachable_witness :
  let r := {| launch_site := "A"; payload_mass := PyNum 3000; class := 0 |} in
  exists st fig, startup spec_example_df = Ok st /\ min_payload st ≡ PyNum (inject_Z 500) /\
  (forall k, ~ max_payload st ≡ PyNum (inject_Z (500 + 1000 * k))) /\
  slider_event st (VNums (slider_pair 500 1500)) /\
  update_scatter_chart spec_example_df (Some "ALL") (slider_pair 500 1500) = Ok fig /\
  r ∈ spec_example_df /\ payload_mass r = max_payload st /\
  (payload_mass r, class r) ∉ scatter_points fig.
Proof.
  intros r. destruct example_start as (st & Hst & Hz & Hmx & Hx & Hy).
  destruct (update_scatter_chart spec_example_df (Some "ALL") (slider_pair 500 1500))
    as [fig|e] eqn:Hfig; [|discriminate].
  exists st, fig.
  assert (Hgrid : forall k, ~ max_payload st ≡ PyNum (inject_Z (500 + 1000 * k))).
  { intros k Hk. rewrite Hmx in Hk. change (3000 == inject_Z (500 + 1000 * k))%Q in Hk. unfold Qeq in Hk. simpl in Hk. lia. }
  assert (Hev : slider_event st (VNums (slider_pair 500 1500))) by (apply (slider_move st 0 1000); done).
  assert (Hr : r ∈ spec_example_df) by (right; left).
  assert (Hp : payload_mass r = max_payload st) by (by rewrite Hmx).
  do 7 (split; [first [assumption|reflexivity]|]).
  apply (heaviest_payload_unreachable spec_example_df st 500 _ (Some "ALL") fig r
           Hst Hz Hgrid Hev Hfig Hr Hp).
Defined.

Lemma app_any_selection_reachable_witness :
  let o := {| opt_label := "CCAFS LC-40"; opt_value := "CCAFS LC-40" |} in
  exists st, startup spec_example_df = Ok st /\ app_reachable st (app_initial st) /\
  o ∈ site_options /\
  exists a b s', slider_emit st 0 = Some a /\ slider_emit st 1000 = Some b /\
    app_steps st (app_initial st) s' /\ errors s' = [] /\
    store s' !! pie_prop = Some (VPie (update_pie_chart spec_example_df (Some (opt_value o)))) /\
    exists fig, update_scatter_chart spec_example_df (Some (opt_value o)) (slider_pair a b) = Ok fig /\
      store s' !! scatter_prop = Some (VScatter fig).
Proof.
  intros o. destruct example_start as (st & Hst & _ & _ & _ & _).
  assert (Hreach : app_reachable st (app_initial st)) by constructor.
  assert (Ho : o ∈ site_options) by (right; left).
  exists st. split; [exact Hst|split; [exact Hreach|split; [exact Ho|]]].
  apply (app_any_selection_reachable spec_example_df st _ o 0 1000 Hst Hreach Ho).
Defined.

Lemma slider_emit_values_witness :
  exists st, startup spec_example_df = Ok st /\ min_payload st ≡ PyNum (inject_Z 500) /\
  slider_marks (max_payload st) = Ok [(0%Z, "0")] /\
  (exists x, slider_emit st x = Some 2500%Z) /\ ~ (exists x, slider_emit st x = Some 3000%Z).
Proof.
  destruct example_start as (st & Hst & Hz & Hmx & _). exists st.
  assert (Hm : slider_marks (max_payload st) = Ok [(0%Z, "0")]) by (rewrite Hmx; reflexivity).
  split; [exact Hst|split; [exact Hz|split; [exact Hm|split]]].
  - apply (slider_emit_values spec_example_df st 500 _ 2500 Hst Hz Hm).
    rewrite Hmx. destruct (min_payload st) as [q|]; [|contradiction].
    change (q == inject_Z 500)%Q in Hz. rewrite !py_le_num, Hz.
    split; [vm_compute; discriminate|split; [vm_compute; discriminate|]].
    left. exists 2%Z. lia.
  - rewrite (slider_emit_values spec_example_df st 500 _ 3000 Hst Hz Hm), Hmx.
    intros (_ & _ & [(k & _ & Hk)|Hk]); [lia|].
    simpl in Hk. apply list_elem_of_singleton in Hk. discriminate.
Defined.

Lemma lightest_payload_unreachable_witness :
  let r := {| launch_site := "A"; payload_mass := PyNum (3 # 5); class := 1 |} in
  exists st fig, startup half_up_min_df = Ok st /\ min_payload st = PyNum (3 # 5) /\
  (0 <= 3 # 5)%Q /\ (1 # 2 <= (3 # 5) - inject_Z (Qfloor (3 # 5)))%Q /\
  slider_event st (VNums (slider_pair 1 2001)) /\
  update_scatter_chart half_up_min_df (Some "ALL") (slider_pair 1 2001) = Ok fig /\
  r ∈ half_up_min_df /\ payload_mass r = min_payload st /\
  (payload_mass r, class r) ∉ scatter_points fig.
Proof.
  intros r. destruct (startup half_up_min_df) as [st|e] eqn:Hst; [|discriminate].
  destruct (update_scatter_chart half_up_min_df (Some "ALL") (slider_pair 1 2001))
    as [fig|e] eqn:Hfig; [|discriminate].
  pose proof Hst as Hst'. vm_compute in Hst'. injection Hst' as Hst'.
  assert (Hmin : min_payload st = PyNum (3 # 5)) by (subst st; reflexivity).
  assert (Hev : slider_event st (VNums (slider_pair 1 2001)))
    by (apply (slider_move st 0 3000); subst st; vm_compute; reflexivity).
  assert (H0 : (0 <= 3 # 5)%Q) by (vm_compute; discriminate).
  assert (Hfr : (1 # 2 <= (3 # 5) - inject_Z (Qfloor (3 # 5)))%Q) by (vm_compute; discriminate).
  assert (Hr : r ∈ half_up_min_df) by left.
  assert (Hp : payload_mass r = min_payload st) by (by rewrite Hmin).
  exists st, fig. do 8 (split; [first [assumption|reflexivity]|]).
  apply (lightest_payload_unreachable half_up_min_df st (3 # 5) _ (Some "ALL") fig r
           Hst Hmin H0 Hfr Hev Hfig Hr Hp).
Defined.

Lemma slider_sends_below_min_witness :
  exists st, startup fractional_min_df = Ok st /\ min_payload st = PyNum (2 # 5) /\
  (0 <= 2 # 5)%Q /\ (0 < (2 # 5) - inject_Z (Qfloor (2 # 5)) < 1 # 2)%Q /\ (0 <= 2 # 5)%Q /\
  slider_emit st 0 = Some (Qfloor (2 # 5)) /\
  py_le (min_payload st) (PyNum (inject_Z (Qfloor (2 # 5)))) = false.
Proof.
  destruct (startup fractional_min_df) as [st|e] eqn:Hst; [|discriminate].
  pose proof Hst as Hst'. vm_compute in Hst'. injection Hst' as Hst'.
  assert (Hmin : min_payload st = PyNum (2 # 5)) by (subst st; reflexivity).
  assert (H0 : (0 <= 2 # 5)%Q) by (vm_compute; discriminate).
  assert (Hfr : (0 < (2 # 5) - inject_Z (Qfloor (2 # 5)) < 1 # 2)%Q)
    by (split; vm_compute; reflexivity).
  exists st. split; [reflexivity|]. split; [exact Hmin|]. split; [exact H0|]. split; [exact Hfr|].
  split; [exact H0|].
  apply (slider_sends_below_min fractional_min_df st (2 # 5) 0 Hst Hmin H0 Hfr H0).
Defined.

Lemma full_view_restorable_iff_witness :
  exists st, startup grid_max_df = Ok st /\ min_payload st ≡ PyNum (inject_Z 500) /\
  exists x y a b fig, slider_emit st x = Some a /\ slider_emit st y = Some b /\
     update_scatter_chart grid_max_df (Some "ALL") (slider_pair a b) = Ok fig /\
     forall r, r ∈ grid_max_df -> payload_mass r <> PyNaN -> (payload_mass r, class r) ∈ scatter_points fig.
Proof.
  destruct (startup grid_max_df) as [st|e] eqn:Hst; [|discriminate].
  pose proof Hst as Hst'. vm_compute in Hst'. injection Hst' as Hst'.
  assert (Hz : min_payload st ≡ PyNum (inject_Z 500)) by (subst st; reflexivity).
  assert (Hk : exists k, max_payload st ≡ PyNum (inject_Z (500 + 1000 * k)))
    by (exists 2%Z; subst st; reflexivity).
  exists st. split; [reflexivity|split; [exact Hz|]].
  apply (proj2 (full_view_restorable_iff grid_max_df st 500 Hst Hz) Hk).
Defined.
