(* ===== verification/Loader.v ===== *)
(** The loaded table as pandas holds it: the columns the CSV header names,
    and the rows. src/spacex_dash_app.py reads the three columns it uses by
    name: the loader reads ['Payload Mass (kg)'] (lines 11-12), the pie
    callback groups by ['class'] and filters on ['Launch Site'] (lines 63,
    68-69), and the scatter callback reads ['Payload Mass (kg)'] and
    ['Launch Site'] and plots ['class'] (lines 83-92). A missing column
    raises at the access: pandas raises [KeyError(name)], plotly's
    [px.scatter] a [ValueError]. The functions below prefix the models of
    [Layout] and [Callbacks] with these accesses, in the code's order, and
    the app over such a table is the runtime instantiated with them.

    The theorems give the outcome of loading for every CSV (a [KeyError]
    exactly without the payload column, a [ValueError] exactly when no
    payload is a number, the rows otherwise), show that a table without
    ['class'] starts up but never shows a chart (every callback raises),
    and that without ['Launch Site'] only the "ALL" selection works. *)

From S2P Require Import Prelude PyFloat Frame Figures Callbacks Layout DashRuntime App.

(** [pd.read_csv(...)]: the header's column names and the rows. A row
    keeps the three fields the code reads; when the header has no column of
    that name the field is never read, since every access checks the name
    first. *)
Record frame := {
  fr_columns : list string;
  fr_rows : list launch_record
}.

(** An access to a column by name, with the exception it raises when the
    frame has no such column. *)
Definition column_access : Type := string * exn.

(** [df[name]] or [df.groupby(name)]: [KeyError(name)]. *)
Definition key_access (name : string) : column_access := (name, KeyError name).

(** [px.scatter(df, ..., y=name)]: plotly's [ValueError] (its message also
    lists the frame's columns, left out here). *)
Definition plotly_y_access (name : string) : column_access :=
  (name, ValueError ("Value of 'y' is not the name of a column in 'data_frame'. But received: "
                     ++ name)).

(** The accesses in order: the first one whose column is missing raises. *)
Fixpoint require_columns (df : frame) (accs : list column_access) : result unit :=
  match accs with
  | [] => Ok tt
  | (name, e) :: accs' =>
      if bool_decide (name ∈ fr_columns df) then require_columns df accs' else Raise e
  end.

(** Lines 10-53: [spacex_df['Payload Mass (kg)']] (lines 11-12), then the
    start-up of [Layout] on the rows. *)
Definition load (spacex_df : frame) : result app_start :=
  u <-? require_columns spacex_df [key_access "Payload Mass (kg)"] ;;
  startup (fr_rows spacex_df).

(** The columns [update_pie_chart] reads: ['class'] for all sites
    (line 63), ['Launch Site'] then ['class'] for one site (lines 68-69). *)
Definition pie_accesses (selected_site : option string) : list column_access :=
  if is_all selected_site then [key_access "class"]
  else [key_access "Launch Site"; key_access "class"].

Definition update_pie_chart_frame (spacex_df : frame) (selected_site : option string)
    : result pie_figure :=
  u <-? require_columns spacex_df (pie_accesses selected_site) ;;
  Ok (update_pie_chart (fr_rows spacex_df) selected_site).

(** The columns [update_scatter_chart] reads after unpacking the range:
    the payload column (lines 83-84), ['Launch Site'] for one site
    (line 86), and [y='class'] of [px.scatter] (lines 88-92); its
    [x='Payload Mass (kg)'] was read at line 83 already. *)
Definition scatter_accesses (selected_site : option string) : list column_access :=
  key_access "Payload Mass (kg)" ::
  (if negb (is_all selected_site) then [key_access "Launch Site"] else []) ++
  [plotly_y_access "class"].

(** Line 81 unpacks the range before any column is read. *)
Definition update_scatter_chart_frame (spacex_df : frame) (selected_site : option string)
    (payload_range : list pyfloat) : result scatter_figure :=
  match payload_range with
  | [_; _] =>
      u <-? require_columns spacex_df (scatter_accesses selected_site) ;;
      update_scatter_chart (fr_rows spacex_df) selected_site payload_range
  | _ => update_scatter_chart (fr_rows spacex_df) selected_site payload_range
  end.

(** The two callbacks over the loaded frame, registered with the runtime. *)
Definition frame_callbacks (df : frame) : list (callback dash_value) :=
  [pie_callback_with (update_pie_chart_frame df);
   scatter_callback_with (update_scatter_chart_frame df)].

Definition frame_reachable (df : frame) (st : app_start) (s : dash_state dash_value) : Prop :=
  reachable VNone (frame_callbacks df) (app_event st) (layout_store (layout st)) s.

(** The three columns the code reads. *)
Definition required_columns : list string := ["Launch Site"; "Payload Mass (kg)"; "class"].

(** The spec's example table read from a CSV that lacks the ['class']
    column. *)
Definition no_class_frame : frame :=
  {| fr_columns := ["Launch Site"; "Payload Mass (kg)"]; fr_rows := spec_example_df |}.

(** ** Column accesses *)

Lemma require_columns_ok (df : frame) (accs : list column_access) :
  (forall a, a ∈ accs -> a.1 ∈ fr_columns df) -> require_columns df accs = Ok tt.
Proof.
  induction accs as [|[name e] accs IH]; intros Hin; simpl; [done|].
  rewrite bool_decide_eq_true_2 by (apply (Hin (name, e)); left).
  apply IH. intros a Ha. apply Hin. by right.
Qed.

Lemma require_columns_missing (df : frame) (accs : list column_access) (name : string) :
  name ∉ fr_columns df -> name ∈ map fst accs -> exists e, require_columns df accs = Raise e.
Proof.
  induction accs as [|[n e] accs IH]; intros Hn Hin; simpl in *.
  { by apply not_elem_of_nil in Hin. }
  case_bool_decide as Hc; [|by eexists].
  apply elem_of_cons in Hin as [->|Hin]; [done|]. by apply IH.
Qed.

(** The callbacks read no column but the three of [required_columns]. *)
Lemma accesses_required (site : option string) (a : column_access) :
  a ∈ pie_accesses site ++ scatter_accesses site -> a.1 ∈ required_columns.
Proof.
  unfold pie_accesses, scatter_accesses. intros Ha.
  destruct (is_all site); simpl in Ha;
    repeat (apply elem_of_cons in Ha as [->|Ha]; [decide_by_eval|]);
    by apply not_elem_of_nil in Ha.
Qed.

Lemma require_required (df : frame) (accs : list column_access) :
  (forall c, c ∈ required_columns -> c ∈ fr_columns df) ->
  (forall a, a ∈ accs -> a.1 ∈ required_columns) -> require_columns df accs = Ok tt.
Proof. intros Hcols Hacc. apply require_columns_ok. intros a Ha. by apply Hcols, Hacc. Qed.

(** ** A frame without the ['class'] column *)

Lemma frame_callbacks_raise (df : frame) :
  "class" ∉ fr_columns df ->
  forall cb args, cb ∈ frame_callbacks df -> exists e, cb_fn cb args = Raise e.
Proof.
  intros Hc cb args Hcb.
  apply elem_of_cons in Hcb as [->|Hcb%list_elem_of_singleton]; [|subst cb];
    cbn -[update_pie_chart_frame update_scatter_chart_frame].
  - destruct args as [|site [|]]; try by eexists.
    destruct (require_columns_missing df (pie_accesses (as_site site)) "class" Hc) as [e He].
    { unfold pie_accesses. destruct (is_all _); simpl; set_solver. }
    unfold update_pie_chart_frame. rewrite He. by eexists.
  - destruct args as [|site [|v [|]]]; try (by eexists);
      destruct v as [| |range| |]; try (by eexists).
    destruct range as [|a [|b [|c r]]]; try by eexists.
    destruct (require_columns_missing df (scatter_accesses (as_site site)) "class" Hc) as [e He].
    { unfold scatter_accesses. destruct (negb _); simpl; set_solver. }
    unfold update_scatter_chart_frame. rewrite He. by eexists.
Qed.

Lemma app_event_controls (st : app_start) (p : prop_id) (v : dash_value) :
  app_event st p v -> p = site_prop \/ p = slider_prop.
Proof. by intros [| |]; [left|left|right]. Qed.

Lemma load_startup (df : frame) (st : app_start) :
  load df = Ok st -> startup (fr_rows df) = Ok st.
Proof. unfold load. simpl. by case_bool_decide. Qed.

(** Setting a control leaves both graphs' figures. *)
Lemma insert_control_charts (m : gmap prop_id dash_value) (p : prop_id) (v : dash_value) :
  p = site_prop \/ p = slider_prop ->
  <[p := v]> m !! pie_prop = m !! pie_prop /\ <[p := v]> m !! scatter_prop = m !! scatter_prop.
Proof. intros [-> | ->]; split; apply lookup_insert_ne; decide_by_eval. Qed.

(** ** Properties of the loaded frame *)

(** C20: the outcome of loading, for every CSV: it fails with
    [KeyError('Payload Mass (kg)')] exactly when the CSV has no payload
    column; with the column it fails with [int(NaN)]'s [ValueError] when
    no payload is a number, and otherwise succeeds with the CSV's rows,
    whether or not the other two columns exist. *)
Theorem load_outcome (df : frame) :
  (load df = Raise (KeyError "Payload Mass (kg)") <-> "Payload Mass (kg)" ∉ fr_columns df) /\
  ("Payload Mass (kg)" ∈ fr_columns df ->
   (Forall (fun r => payload_mass r = PyNaN) (fr_rows df) ->
    load df = Raise (ValueError "cannot convert float NaN to integer")) /\
   ((exists r q, r ∈ fr_rows df /\ payload_mass r = PyNum q) ->
    exists st, load df = Ok st /\ spacex_df st = fr_rows df)).
Proof.
  assert (Hload : "Payload Mass (kg)" ∈ fr_columns df -> load df = startup (fr_rows df))
    by (intros Hp; unfold load; simpl; by rewrite bool_decide_eq_true_2).
  split; [split|].
  - intros Hk Hp. rewrite (Hload Hp) in Hk. by apply startup_raise_inv in Hk.
  - intros Hp. unfold load. simpl. by rewrite bool_decide_eq_false_2.
  - intros Hp. rewrite (Hload Hp). split.
    + intros Hall. unfold startup, app_layout, slider_marks. by rewrite series_max_all_nan.
    + intros (r & q & Hr & Hq). destruct (startup_ok_of_numeric _ r q Hr Hq) as [st Hst].
      exists st. split; [done|by apply (startup_ok_bounds _ st Hst)].
Qed.

(** C21: over a CSV without the ['class'] column the app starts (C20) but
    never shows a chart: in every state the user can reach, neither graph
    has a figure and the exceptions of the callbacks have been reported. *)
Theorem missing_class_never_charts (df : frame) (st : app_start) (s : dash_state dash_value) :
  "class" ∉ fr_columns df -> load df = Ok st -> frame_reachable df st s ->
  store s !! pie_prop = None /\ store s !! scatter_prop = None /\ errors s <> [].
Proof.
  intros Hc Hload%load_startup. pose proof (frame_callbacks_raise df Hc) as Hr.
  induction 1 as [|s s' _ IH Hstep].
  - unfold initial_state.
    destruct (fire_all_raising VNone (frame_callbacks df)
                {| store := layout_store (layout st); errors := [] |} Hr) as [-> Hlen].
    rewrite store_mk. split; [|split];
      [rewrite (layout_store_eq _ _ Hload); by rewrite !lookup_insert_ne by decide_by_eval..|].
    intros He. rewrite He in Hlen. discriminate.
  - destruct Hstep as [s p v Hev]. unfold set_input.
    destruct (fire_all_raising VNone (triggered (frame_callbacks df) p)
                {| store := <[p := v]> (store s); errors := errors s |})
      as [-> Hlen]; [intros cb args Hcb; apply Hr, (triggered_subset _ p), Hcb|].
    destruct (insert_control_charts (store s) p v (app_event_controls st p v Hev)) as [Hpie Hsc].
    rewrite store_mk, Hpie, Hsc. destruct IH as (Hp & Hs & He).
    split; [done|split; [done|]]. cbn [errors] in Hlen.
    intros Hnil. rewrite Hnil in Hlen. destruct (errors s); [done|simpl in Hlen; lia].
Qed.

(** C22: over a CSV without the ['Launch Site'] column (but with the two
    others) the "ALL" selection works as over the full table, and every
    single-site selection raises [KeyError('Launch Site')] in both
    callbacks (lines 68 and 86), before any chart is built. *)
Theorem missing_site_column (df : frame) (site : option string) (range : list pyfloat) :
  "Launch Site" ∉ fr_columns df -> "Payload Mass (kg)" ∈ fr_columns df ->
  "class" ∈ fr_columns df ->
  update_pie_chart_frame df (Some "ALL") = Ok (update_pie_chart (fr_rows df) (Some "ALL")) /\
  update_scatter_chart_frame df (Some "ALL") range =
    update_scatter_chart (fr_rows df) (Some "ALL") range /\
  (is_all site = false ->
   update_pie_chart_frame df site = Raise (KeyError "Launch Site") /\
   forall low high, update_scatter_chart_frame df site [low; high] = Raise (KeyError "Launch Site")).
Proof.
  intros Hs Hp Hc. split; [|split].
  - unfold update_pie_chart_frame. simpl. by rewrite bool_decide_eq_true_2.
  - destruct range as [|a [|b [|c r]]]; try done. unfold update_scatter_chart_frame. simpl.
    by rewrite !bool_decide_eq_true_2.
  - intros Hall. unfold update_pie_chart_frame, update_scatter_chart_frame,
      pie_accesses, scatter_accesses. rewrite Hall. simpl.
    rewrite !bool_decide_eq_false_2, !bool_decide_eq_true_2 by done. by split.
Qed.

(** ** Witnesses *)

Lemma load_outcome_witness :
  "Payload Mass (kg)" ∈ fr_columns no_class_frame /\
  (exists r q, r ∈ fr_rows no_class_frame /\ payload_mass r = PyNum q) /\
  exists st, load no_class_frame = Ok st /\ spacex_df st = fr_rows no_class_frame.
Proof.
  assert (Hp : "Payload Mass (kg)" ∈ fr_columns no_class_frame) by decide_by_eval.
  assert (Hr : exists r q, r ∈ fr_rows no_class_frame /\ payload_mass r = PyNum q).
  { eexists _, 500%Q. split; [left|reflexivity]. }
  split; [exact Hp|split; [exact Hr|]].
  apply (proj2 (proj2 (load_outcome no_class_frame) Hp) Hr).
Defined.

Lemma missing_class_never_charts_witness :
  exists st, "class" ∉ fr_columns no_class_frame /\ load no_class_frame = Ok st /\
  let s := initial_state VNone (frame_callbacks no_class_frame) (layout_store (layout st)) in
  frame_reachable no_class_frame st s /\
  store s !! pie_prop = None /\ store s !! scatter_prop = None /\ errors s <> [].
Proof.
  destruct (load no_class_frame) as [st|e] eqn:Hl; [|discriminate].
  assert (Hc : "class" ∉ fr_columns no_class_frame) by decide_by_eval.
  exists st. split; [exact Hc|split; [done|]]. intros s.
  assert (Hreach : frame_reachable no_class_frame st s) by constructor.
  split; [exact Hreach|]. apply (missing_class_never_charts no_class_frame st s Hc Hl Hreach).
Defined.

Lemma missing_site_column_witness :
  let df := {| fr_columns := ["Payload Mass (kg)"; "class"]; fr_rows := spec_example_df |} in
  "Launch Site" ∉ fr_columns df /\ "Payload Mass (kg)" ∈ fr_columns df /\
  "class" ∈ fr_columns df /\
  update_pie_chart_frame df (Some "ALL") = Ok (update_pie_chart (fr_rows df) (Some "ALL")) /\
  update_scatter_chart_frame df (Some "ALL") [PyNum 0; PyNum 1000] =
    update_scatter_chart (fr_rows df) (Some "ALL") [PyNum 0; PyNum 1000] /\
  (is_all (Some "A") = false ->
   update_pie_chart_frame df (Some "A") = Raise (KeyError "Launch Site") /\
   forall low high, update_scatter_chart_frame df (Some "A") [low; high] =
                    Raise (KeyError "Launch Site")).
Proof.
  intros df.
  assert (H1 : "Launch Site" ∉ fr_columns df) by decide_by_eval.
  assert (H2 : "Payload Mass (kg)" ∈ fr_columns df) by decide_by_eval.
  assert (H3 : "class" ∈ fr_columns df) by decide_by_eval.
  split; [exact H1|split; [exact H2|split; [exact H3|]]].
  apply (missing_site_column df (Some "A") [PyNum 0; PyNum 1000] H1 H2 H3).
Defined.
